(** * Shopify SSO bridge: token validation and session handling

    A shallow embedding of [utils/shopify_sso.py], [utils/auth.py],
    [app/middleware/auth.py] and [app/routes/auth/shopify_callback.py],
    together with models of the library calls they make (SHA-256, HMAC,
    AES-128-CBC, PKCS#7, base64), and the properties of the token codec, the
    session manager and the callback route. *)

From Stdlib Require Import NArith ZArith QArith List String Ascii Lia Bool Btauto.
From Stdlib Require Import Init.Byte Strings.Byte.
Import ListNotations.
Local Open Scope string_scope.
Local Open Scope list_scope.
Local Open Scope Z_scope.

(** ** Bytes and Python sequences *)

Definition bytes := list byte.

Definition byte_of_N (n : N) : byte :=
  match Byte.of_N (n mod 256) with Some b => b | None => x00 end.

(** [b"..."] literals, and [str.encode()] / [bytes.decode()] on text that the
    model keeps in its UTF-8 form. *)
Definition bytes_of_string (s : string) : bytes := list_byte_of_string s.
Definition string_of_bytes (b : bytes) : string := string_of_list_byte b.

(** Cuts [l] into consecutive pieces of [n] elements (the last one may be
    shorter); [fuel] bounds the number of pieces. *)
Fixpoint chunks {A} (fuel : nat) (n : nat) (l : list A) : list (list A) :=
  match fuel, l with
  | _, [] => []
  | O, _ => []
  | S fuel', _ => firstn n l :: chunks fuel' n (skipn n l)
  end.

(** Python slice bounds: a negative index counts from the end, and both
    bounds are clamped to the sequence. *)
Definition slice_index (len i : Z) : Z :=
  if i <? 0 then Z.max (i + len) 0 else Z.min i len.

Definition py_slice {A} (l : list A) (start stop : option Z) : list A :=
  let len := Z.of_nat (List.length l) in
  let lo := match start with Some i => slice_index len i | None => 0 end in
  let hi := match stop with Some i => slice_index len i | None => len end in
  firstn (Z.to_nat (hi - lo)) (skipn (Z.to_nat lo) l).

Definition bytes_eqb (x y : bytes) : bool :=
  if list_eq_dec Byte.byte_eq_dec x y then true else false.

(** [str(n)] for a natural number. *)
Fixpoint decimal_digits (fuel n : nat) (acc : string) : string :=
  let acc' := String (ascii_of_nat (48 + Nat.modulo n 10)) acc in
  match fuel with
  | O => acc'
  | S fuel' => if Nat.ltb n 10 then acc' else decimal_digits fuel' (Nat.div n 10) acc'
  end.

Definition decimal (n : nat) : string := decimal_digits n n EmptyString.

(** ** hashlib.sha256 (FIPS 180-4) *)

Module SHA256.
Local Open Scope N_scope.

(** The round constants and the initial hash value are defined from the
    primes: the first 32 bits of the fractional parts of the cube roots of
    the first 64 primes, and of the square roots of the first 8. *)
Definition is_prime (n : N) : bool :=
  (2 <=? n) && forallb (fun d => negb (n mod d =? 0))
                       (filter (fun d => d * d <=? n) (map N.of_nat (seq 2 20))).

Definition primes (count : nat) : list N :=
  firstn count (filter is_prime (map N.of_nat (seq 2 320))).

(** Integer cube root, one bit at a time from the top. *)
Definition cube_root (n : N) : N :=
  fold_left (fun r bit => let c := r + 2 ^ N.of_nat bit in if c * c * c <=? n then c else r)
            (rev (seq 0 40)) 0.

Definition K : list N :=
  Eval vm_compute in map (fun p => cube_root (p * 2 ^ 96) mod 2 ^ 32) (primes 64).

Definition initial_words : list N :=
  Eval vm_compute in map (fun p => N.sqrt (p * 2 ^ 64) mod 2 ^ 32) (primes 8).

Definition w32 (x : N) : N := x mod 0x100000000.
Definition add32 (x y : N) : N := w32 (x + y).
Definition rotr (n x : N) : N := N.lor (N.shiftr x n) (w32 (N.shiftl x (32 - n))).
Definition Ch (x y z : N) := N.lxor (N.land x y) (N.land (N.lxor x 0xffffffff) z).
Definition Maj (x y z : N) := N.lxor (N.lxor (N.land x y) (N.land x z)) (N.land y z).
Definition Sig0 x := N.lxor (N.lxor (rotr 2 x) (rotr 13 x)) (rotr 22 x).
Definition Sig1 x := N.lxor (N.lxor (rotr 6 x) (rotr 11 x)) (rotr 25 x).
Definition sig0 x := N.lxor (N.lxor (rotr 7 x) (rotr 18 x)) (N.shiftr x 3).
Definition sig1 x := N.lxor (N.lxor (rotr 17 x) (rotr 19 x)) (N.shiftr x 10).

Definition be_word (bs : bytes) : N :=
  fold_left (fun acc x => acc * 256 + Byte.to_N x) bs 0.

Definition word_bytes (w : N) : bytes :=
  [byte_of_N (N.shiftr w 24); byte_of_N (N.shiftr w 16); byte_of_N (N.shiftr w 8); byte_of_N w].

(* schedule, most recent word first *)
Fixpoint extend (n : nat) (r : list N) : list N :=
  match n with
  | O => r
  | S n' =>
      let w := add32 (add32 (sig1 (nth 1 r 0)) (nth 6 r 0))
                     (add32 (sig0 (nth 14 r 0)) (nth 15 r 0)) in
      extend n' (w :: r)
  end.

Definition schedule (block : bytes) : list N :=
  rev (extend 48 (rev (map be_word (chunks 16 4 block)))).

Record state := St { a : N; b : N; c : N; d : N; e : N; f : N; g : N; h : N }.

Definition round (s : state) (kw : N * N) : state :=
  let t1 := add32 (add32 (add32 (h s) (Sig1 (e s))) (add32 (Ch (e s) (f s) (g s)) (fst kw))) (snd kw) in
  let t2 := add32 (Sig0 (a s)) (Maj (a s) (b s) (c s)) in
  St (add32 t1 t2) (a s) (b s) (c s) (add32 (d s) t1) (e s) (f s) (g s).

Definition compress (s : state) (block : bytes) : state :=
  let s' := fold_left round (combine K (schedule block)) s in
  St (add32 (a s) (a s')) (add32 (b s) (b s')) (add32 (c s) (c s')) (add32 (d s) (d s'))
     (add32 (e s) (e s')) (add32 (f s) (f s')) (add32 (g s) (g s')) (add32 (h s) (h s')).

Definition H0 : state :=
  match initial_words with
  | [h0; h1; h2; h3; h4; h5; h6; h7] => St h0 h1 h2 h3 h4 h5 h6 h7
  | _ => St 0 0 0 0 0 0 0 0
  end.

Definition pad (m : bytes) : bytes :=
  let len := N.of_nat (List.length m) in
  let zeros := N.to_nat ((119 - len mod 64) mod 64) in
  let bits := len * 8 in
  m ++ [x80] ++ repeat x00 zeros
    ++ word_bytes (N.shiftr bits 32) ++ word_bytes bits.

Definition digest_of (s : state) : bytes :=
  word_bytes (a s) ++ word_bytes (b s) ++ word_bytes (c s) ++ word_bytes (d s)
  ++ word_bytes (e s) ++ word_bytes (f s) ++ word_bytes (g s) ++ word_bytes (h s).

Definition sha256 (m : bytes) : bytes :=
  let p := pad m in
  digest_of (fold_left compress (chunks (List.length p) 64 p) H0).

End SHA256.

(** ** AES-128 block cipher (FIPS 197) *)

Module AES.
Local Open Scope N_scope.

Definition bxor (x y : byte) : byte :=
  let '(x0, (x1, (x2, (x3, (x4, (x5, (x6, x7))))))) := Byte.to_bits x in
  let '(y0, (y1, (y2, (y3, (y4, (y5, (y6, y7))))))) := Byte.to_bits y in
  Byte.of_bits (xorb x0 y0, (xorb x1 y1, (xorb x2 y2, (xorb x3 y3,
               (xorb x4 y4, (xorb x5 y5, (xorb x6 y6, xorb x7 y7))))))).

(* multiplication by x in GF(2^8) modulo x^8 + x^4 + x^3 + x + 1 *)
Definition xtime (x : byte) : byte :=
  let '(x0, (x1, (x2, (x3, (x4, (x5, (x6, x7))))))) := Byte.to_bits x in
  Byte.of_bits (x7, (xorb x0 x7, (x1, (xorb x2 x7, (xorb x3 x7, (x4, (x5, x6))))))).

Definition gmul (x y : byte) : byte :=
  let '(y0, (y1, (y2, (y3, (y4, (y5, (y6, y7))))))) := Byte.to_bits y in
  let step (acc_p : byte * byte) (bit : bool) :=
    let '(acc, p) := acc_p in
    ((if bit then bxor acc p else acc), xtime p) in
  fst (fold_left step [y0; y1; y2; y3; y4; y5; y6; y7] (x00, x)).

Definition ginv (x : byte) : byte :=
  (* x^254 *)
  let x2 := gmul x x in let x4 := gmul x2 x2 in let x8 := gmul x4 x4 in
  let x16 := gmul x8 x8 in let x32 := gmul x16 x16 in let x64 := gmul x32 x32 in
  let x128 := gmul x64 x64 in
  gmul x128 (gmul x64 (gmul x32 (gmul x16 (gmul x8 (gmul x4 x2))))).

Definition rotl8 (x : byte) : byte :=
  let '(x0, (x1, (x2, (x3, (x4, (x5, (x6, x7))))))) := Byte.to_bits x in
  Byte.of_bits (x7, (x0, (x1, (x2, (x3, (x4, (x5, x6))))))).

Definition affine (x : byte) : byte :=
  let r1 := rotl8 x in let r2 := rotl8 r1 in let r3 := rotl8 r2 in let r4 := rotl8 r3 in
  bxor (bxor (bxor (bxor (bxor x r1) r2) r3) r4) x63.

Definition all_bytes : list byte := map (fun n => byte_of_N (N.of_nat n)) (seq 0 256).

Definition sbox_table : list byte := Eval vm_compute in map (fun x => affine (ginv x)) all_bytes.

Definition index_of (y : byte) (l : list byte) : nat :=
  (fix go (l : list byte) (i : nat) :=
     match l with
     | [] => 0%nat
     | z :: r => if Byte.eqb y z then i else go r (S i)
     end) l 0%nat.

Definition inv_sbox_table : list byte :=
  Eval vm_compute in map (fun y => byte_of_N (N.of_nat (index_of y sbox_table))) all_bytes.

Definition sbox (x : byte) : byte := nth (Byte.to_nat x) sbox_table x00.
Definition inv_sbox (x : byte) : byte := nth (Byte.to_nat x) inv_sbox_table x00.

Definition sub_bytes (s : bytes) : bytes := map sbox s.
Definition inv_sub_bytes (s : bytes) : bytes := map inv_sbox s.

Definition shift_rows (s : bytes) : bytes :=
  match s with
  | [s0; s1; s2; s3; s4; s5; s6; s7; s8; s9; s10; s11; s12; s13; s14; s15] =>
      [s0; s5; s10; s15; s4; s9; s14; s3; s8; s13; s2; s7; s12; s1; s6; s11]
  | _ => s
  end.

Definition inv_shift_rows (s : bytes) : bytes :=
  match s with
  | [s0; s1; s2; s3; s4; s5; s6; s7; s8; s9; s10; s11; s12; s13; s14; s15] =>
      [s0; s13; s10; s7; s4; s1; s14; s11; s8; s5; s2; s15; s12; s9; s6; s3]
  | _ => s
  end.

Definition mul3 x := bxor (xtime x) x.
Definition mul9 x := bxor (xtime (xtime (xtime x))) x.
Definition mul11 x := bxor (bxor (xtime (xtime (xtime x))) (xtime x)) x.
Definition mul13 x := bxor (bxor (xtime (xtime (xtime x))) (xtime (xtime x))) x.
Definition mul14 x := bxor (bxor (xtime (xtime (xtime x))) (xtime (xtime x))) (xtime x).

Definition mix_column (a0 a1 a2 a3 : byte) : bytes :=
  [ bxor (bxor (bxor (xtime a0) (mul3 a1)) a2) a3;
    bxor (bxor (bxor a0 (xtime a1)) (mul3 a2)) a3;
    bxor (bxor (bxor a0 a1) (xtime a2)) (mul3 a3);
    bxor (bxor (bxor (mul3 a0) a1) a2) (xtime a3) ].

Definition inv_mix_column (a0 a1 a2 a3 : byte) : bytes :=
  [ bxor (bxor (bxor (mul14 a0) (mul11 a1)) (mul13 a2)) (mul9 a3);
    bxor (bxor (bxor (mul9 a0) (mul14 a1)) (mul11 a2)) (mul13 a3);
    bxor (bxor (bxor (mul13 a0) (mul9 a1)) (mul14 a2)) (mul11 a3);
    bxor (bxor (bxor (mul11 a0) (mul13 a1)) (mul9 a2)) (mul14 a3) ].

Fixpoint columns (f : byte -> byte -> byte -> byte -> bytes) (s : bytes) : bytes :=
  match s with
  | a0 :: a1 :: a2 :: a3 :: r => f a0 a1 a2 a3 ++ columns f r
  | _ => s
  end.

Definition mix_columns := columns mix_column.
Definition inv_mix_columns := columns inv_mix_column.

Fixpoint xor_bytes (s k : bytes) : bytes :=
  match s, k with
  | x :: s', y :: k' => bxor x y :: xor_bytes s' k'
  | _, _ => s
  end.

Definition add_round_key (k s : bytes) : bytes := xor_bytes s k.

(* key schedule for a 128-bit key: 44 words, most recent first *)
Definition rcon : list byte := [x01; x02; x04; x08; x10; x20; x40; x80; x1b; x36].

Definition sub_rot_word (w : bytes) (rc : byte) : bytes :=
  match w with
  | [b0; b1; b2; b3] => [bxor (sbox b1) rc; sbox b2; sbox b3; sbox b0]
  | _ => w
  end.

Fixpoint expand (rcs : list byte) (prev : bytes) : list bytes :=
  match rcs with
  | [] => []
  | rc :: rcs' =>
      let w0 := firstn 4 prev in
      let w1 := firstn 4 (skipn 4 prev) in
      let w2 := firstn 4 (skipn 8 prev) in
      let w3 := firstn 4 (skipn 12 prev) in
      let n0 := xor_bytes w0 (sub_rot_word w3 rc) in
      let n1 := xor_bytes w1 n0 in
      let n2 := xor_bytes w2 n1 in
      let n3 := xor_bytes w3 n2 in
      let next := n0 ++ n1 ++ n2 ++ n3 in
      next :: expand rcs' next
  end.

Definition key_expansion (key : bytes) : list bytes := key :: expand rcon key.

Definition enc_round (k s : bytes) := add_round_key k (mix_columns (shift_rows (sub_bytes s))).
Definition dec_round (k s : bytes) := inv_sub_bytes (inv_shift_rows (inv_mix_columns (add_round_key k s))).

Definition encrypt_block (key block : bytes) : bytes :=
  let ks := key_expansion key in
  let k0 := hd [] ks in
  let k10 := last ks [] in
  let mid := removelast (tl ks) in
  add_round_key k10 (shift_rows (sub_bytes (fold_left (fun s k => enc_round k s) mid (add_round_key k0 block)))).

Definition decrypt_block (key block : bytes) : bytes :=
  let ks := key_expansion key in
  let k0 := hd [] ks in
  let k10 := last ks [] in
  let mid := removelast (tl ks) in
  add_round_key k0
    (fold_right dec_round (inv_sub_bytes (inv_shift_rows (add_round_key k10 block))) mid).

End AES.

(** ** hmac.new(key, msg, hashlib.sha256).digest() (RFC 2104, as in hmac.py) *)

Module HMAC.

Definition blocksize : nat := 64.

Definition xor_with (c : byte) (k : bytes) : bytes := map (fun x => AES.bxor x c) k.

Definition hmac_sha256 (key msg : bytes) : bytes :=
  let key := if Nat.ltb blocksize (List.length key) then SHA256.sha256 key else key in
  let key := key ++ repeat x00 (blocksize - List.length key) in
  let inner := SHA256.sha256 (xor_with x36 key ++ msg) in
  SHA256.sha256 (xor_with x5c key ++ inner).

(** hmac.compare_digest on two byte strings: their equality (the constant
    running time is not modelled). *)
Definition compare_digest (x y : bytes) : bool := bytes_eqb x y.

End HMAC.

(** ** Exceptions *)

(** The exception classes that the modelled calls raise; messages are
    abbreviated. [Unsupported] marks input that a model does not cover, and
    [LibraryError] an exception of a library class not listed here. *)
Inductive exn :=
| ValueError (msg : string)
| BinasciiError (msg : string)
| UnicodeDecodeError
| AttributeError (msg : string)
| TypeError (msg : string)
| KeyError (key : string)
| IndexError
| Unsupported (what : string)
| LibraryError (cls msg : string).

Definition result (A : Type) : Type := (exn + A)%type.

(** ** cryptography: Cipher(algorithms.AES(key), modes.CBC(iv)).decryptor() *)

Module Cipher.

(** CBC chaining: each plaintext block is the deciphered block xored with
    the previous ciphertext block (the IV for the first one). *)
Definition cbc_decrypt_blocks (key iv : bytes) (blocks : list bytes) : bytes :=
  List.concat (map (fun cp => AES.xor_bytes (AES.decrypt_block key (fst cp)) (snd cp))
              (combine blocks (iv :: blocks))).

Definition cbc_encrypt_step (key : bytes) (st : bytes * bytes) (p : bytes) : bytes * bytes :=
  let c := AES.encrypt_block key (AES.xor_bytes p (fst st)) in
  (c, snd st ++ c).

Definition cbc_encrypt_blocks (key iv : bytes) (blocks : list bytes) : bytes :=
  snd (fold_left (cbc_encrypt_step key) blocks (iv, [])).

(** [algorithms.AES(key)] accepts 16, 24 and 32 byte keys; only the 128-bit
    key schedule is modelled, which is the only one the codec ever uses
    (its key is a 16-byte slice of a digest). *)
Definition AES_key (key : bytes) : result bytes :=
  match List.length key with
  | 16%nat => inr key
  | 24%nat | 32%nat => inl (Unsupported "AES-192/AES-256")
  | n => inl (ValueError ("Invalid key size (" ++ decimal (8 * n) ++ ") for AES."))
  end.

(** [modes.CBC(iv)], as [Cipher(...)] validates it against the algorithm:
    the IV must have the size of a block. *)
Definition CBC_iv (iv : bytes) : result bytes :=
  if Nat.eqb (List.length iv) 16 then inr iv
  else inl (ValueError ("Invalid IV size (" ++ decimal (List.length iv) ++ ") for CBC.")).

(** A cipher, and the context that [cipher.decryptor()] returns for it. *)
Record t := { cipher_key : bytes; cipher_iv : bytes }.

(** [Cipher(algorithms.AES(key), modes.CBC(iv), backend=default_backend())]
    (lines 60-62): both checks are made here, before a context exists. *)
Definition new (key iv : bytes) : result t :=
  match AES_key key with
  | inl e => inl e
  | inr k =>
      match CBC_iv iv with
      | inl e => inl e
      | inr v => inr {| cipher_key := k; cipher_iv := v |}
      end
  end.

(** [decryptor.update(data)] on a new context: the plaintext of the whole
    blocks of [data]; a partial block at the end stays in the context. *)
Definition update (c : t) (data : bytes) : bytes :=
  let whole := (Nat.div (List.length data) 16 * 16)%nat in
  cbc_decrypt_blocks (cipher_key c) (cipher_iv c) (chunks whole 16 (firstn whole data)).

(** [decryptor.final]: a cipher context has the methods [update],
    [update_into] and [finalize], and no attribute [final]. The lookup of
    the attribute raises, whatever the context holds. *)
Definition final (c : t) : result bytes := inl (AttributeError "final").

(** [decryptor.update(ciphertext) + decryptor.final()] (line 64): the left
    operand is evaluated first. *)
Definition update_plus_final (c : t) (ciphertext : bytes) : result bytes :=
  let head := update c ciphertext in
  match final c with
  | inl e => inl e
  | inr tail => inr (head ++ tail)
  end.

End Cipher.

(** ** cryptography: padding.PKCS7(128) *)

Module PKCS7.

Definition block : nat := 16.

(** [unpadder.update(data)] on a new context: everything but the last
    block received so far, which is held back for the check of the padding. *)
Definition update (data : bytes) : bytes :=
  let finished := (Nat.div (List.length data) block - 1)%nat in
  firstn (finished * block) data.

(** [unpadder.final]: an unpadding context has the methods [update] and
    [finalize], and no attribute [final]. *)
Definition final (data : bytes) : result bytes := inl (AttributeError "final").

(** [unpadder.update(plaintext) + unpadder.final()] (line 68) *)
Definition update_plus_final (data : bytes) : result bytes :=
  let head := update data in
  match final data with
  | inl e => inl e
  | inr tail => inr (head ++ tail)
  end.

End PKCS7.

(** ** base64.urlsafe_b64decode (base64.py over binascii.a2b_base64) *)

Module Base64.
Local Open Scope N_scope.

Definition is_ascii (s : bytes) : bool := forallb (fun c => Byte.to_N c <? 128) s.

(** [s.translate(_urlsafe_decode_translation)] *)
Definition translate (c : byte) : byte :=
  if Byte.eqb c "-" then "+"%byte else if Byte.eqb c "_" then "/"%byte else c.

(** [table_a2b_base64]: the 6-bit value of an alphabet character. *)
Definition table_a2b (c : byte) : option N :=
  let n := Byte.to_N c in
  if (65 <=? n) && (n <=? 90) then Some (n - 65)
  else if (97 <=? n) && (n <=? 122) then Some (n - 71)
  else if (48 <=? n) && (n <=? 57) then Some (n + 4)
  else if n =? 43 then Some 62
  else if n =? 47 then Some 63
  else None.

(** The decoding loop of [a2b_base64] in its default, non-strict mode:
    characters outside the alphabet are skipped, a complete pad sequence
    ends the input, and an incomplete final quad is an error. *)
Fixpoint a2b_loop (cs : bytes) (quad_pos : nat) (leftchar : N) (pads : nat)
         (out : bytes) : result bytes :=
  match cs with
  | [] =>
      match quad_pos with
      | 0%nat => inr out
      | 1%nat => inl (BinasciiError
          "Invalid base64-encoded string: number of data characters cannot be 1 more than a multiple of 4")
      | _ => inl (BinasciiError "Incorrect padding")
      end
  | ch :: rest =>
      if Byte.eqb ch "=" then
        if Nat.leb 2 quad_pos then
          if Nat.leb 4 (quad_pos + S pads) then inr out
          else a2b_loop rest quad_pos leftchar (S pads) out
        else a2b_loop rest quad_pos leftchar pads out
      else
        match table_a2b ch with
        | None => a2b_loop rest quad_pos leftchar pads out
        | Some this_ch =>
            match quad_pos with
            | 0%nat => a2b_loop rest 1 this_ch 0 out
            | 1%nat =>
                a2b_loop rest 2 (N.land this_ch 15) 0
                  (out ++ [byte_of_N (N.lor (N.shiftl leftchar 2) (N.shiftr this_ch 4))])
            | 2%nat =>
                a2b_loop rest 3 (N.land this_ch 3) 0
                  (out ++ [byte_of_N (N.lor (N.shiftl leftchar 4) (N.shiftr this_ch 2))])
            | _ =>
                a2b_loop rest 0 0 0
                  (out ++ [byte_of_N (N.lor (N.shiftl leftchar 6) this_ch)])
            end
        end
  end.

Definition a2b_base64 (s : bytes) : result bytes := a2b_loop s 0 0 0 [].

Definition urlsafe_b64decode (s : string) : result bytes :=
  let raw := bytes_of_string s in
  if is_ascii raw then a2b_base64 (map translate raw)
  else inl (ValueError "string argument should contain only ASCII characters").

End Base64.

(** ** bytes.decode("utf-8") *)

Module UTF8.
Local Open Scope N_scope.

Definition between (lo hi : N) (b : byte) : bool :=
  (lo <=? Byte.to_N b) && (Byte.to_N b <=? hi).

Definition cont := between 0x80 0xbf.

(** Well-formed UTF-8 byte sequences (Unicode, table 3-7). *)
Fixpoint well_formed (fuel : nat) (s : bytes) : bool :=
  match fuel with
  | O => match s with [] => true | _ => false end
  | S fuel' =>
      match s with
      | [] => true
      | b0 :: r0 =>
          if between 0x00 0x7f b0 then well_formed fuel' r0
          else match r0 with
          | [] => false
          | b1 :: r1 =>
              if between 0xc2 0xdf b0 then cont b1 && well_formed fuel' r1
              else match r1 with
              | [] => false
              | b2 :: r2 =>
                  if between 0xe0 0xe0 b0 then between 0xa0 0xbf b1 && cont b2 && well_formed fuel' r2
                  else if between 0xe1 0xec b0 || between 0xee 0xef b0
                       then cont b1 && cont b2 && well_formed fuel' r2
                  else if between 0xed 0xed b0 then between 0x80 0x9f b1 && cont b2 && well_formed fuel' r2
                  else match r2 with
                  | [] => false
                  | b3 :: r3 =>
                      if between 0xf0 0xf0 b0
                      then between 0x90 0xbf b1 && cont b2 && cont b3 && well_formed fuel' r3
                      else if between 0xf1 0xf3 b0
                      then cont b1 && cont b2 && cont b3 && well_formed fuel' r3
                      else if between 0xf4 0xf4 b0
                      then between 0x80 0x8f b1 && cont b2 && cont b3 && well_formed fuel' r3
                      else false
                  end
              end
          end
      end
  end.

Definition decode (s : bytes) : result string :=
  if well_formed (List.length s) s then inr (string_of_bytes s)
  else inl UnicodeDecodeError.

End UTF8.

(** ** Python values, as [json.loads] and the store client produce them *)

Inductive pyfloat := Finite (m e : Z) | Infinite (negative : bool) | NaN.

#[local] Set Warnings "-register-all".

Inductive pyval :=
| PNone
| PBool (b : bool)
| PInt (z : Z)
| PFloat (f : pyfloat)
| PStr (s : string)
| PList (l : list pyval)
| PDict (d : list (string * pyval)).

(** Truth value testing. *)
Definition truthy (v : pyval) : bool :=
  match v with
  | PNone => false
  | PBool b => b
  | PInt z => negb (z =? 0)
  | PFloat (Finite m _) => negb (m =? 0)
  | PFloat _ => true
  | PStr s => negb (String.eqb s EmptyString)
  | PList l => match l with [] => false | _ => true end
  | PDict d => match d with [] => false | _ => true end
  end.

Fixpoint assoc (k : string) (d : list (string * pyval)) : option pyval :=
  match d with
  | [] => None
  | (k', v) :: r => if String.eqb k k' then Some v else assoc k r
  end.

(** [obj.get(key)]: only a dict has the method. *)
Definition py_get (obj : pyval) (key : string) : result pyval :=
  match obj with
  | PDict d => inr (match assoc key d with Some v => v | None => PNone end)
  | _ => inl (AttributeError "get")
  end.

(** [obj[key]] with a string key. *)
Definition py_getitem (obj : pyval) (key : string) : result pyval :=
  match obj with
  | PDict d => match assoc key d with Some v => inr v | None => inl (KeyError key) end
  | PStr _ | PList _ => inl (TypeError "indices must be integers")
  | _ => inl (TypeError "object is not subscriptable")
  end.

(** [seq[0]] on a list. *)
Definition py_first (l : list pyval) : result pyval :=
  match l with
  | v :: _ => inr v
  | [] => inl IndexError
  end.

Fixpoint replace_char (old : ascii) (new : string) (s : string) : string :=
  match s with
  | EmptyString => EmptyString
  | String c r =>
      if Ascii.eqb c old then (new ++ replace_char old new r)%string
      else String c (replace_char old new r)
  end.

(** [obj.replace(old, new)] with a one-character [old]: only a str has the
    method. *)
Definition py_replace (obj : pyval) (old : ascii) (new : string) : result string :=
  match obj with
  | PStr s => inr (replace_char old new s)
  | _ => inl (AttributeError "replace")
  end.

(** [d.get(first) or d.get(second)] *)
Definition get_or (d : pyval) (first second : string) : result pyval :=
  match py_get d first with
  | inl e => inl e
  | inr a => if truthy a then inr a else py_get d second
  end.

(** ** datetime *)

(** A datetime is the reading of its own calendar and clock fields, counted
    in microseconds, and its [tzinfo]: [None] for a naive value, the UTC
    offset in microseconds for an aware one. *)
Record datetime := { wall : Z; tzinfo : option Z }.

Definition replace_tzinfo (d : datetime) (tz : option Z) : datetime :=
  {| wall := wall d; tzinfo := tz |}.

(** [x - y]: a timedelta in microseconds. Two naive values subtract field
    readings, two aware ones subtract instants, and a naive and an aware one
    do not subtract. *)
Definition datetime_sub (x y : datetime) : result Z :=
  match tzinfo x, tzinfo y with
  | None, None => inr (wall x - wall y)
  | Some ox, Some oy => inr ((wall x - ox) - (wall y - oy))
  | _, _ => inl (TypeError "can't subtract offset-naive and offset-aware datetimes")
  end.

(** [timedelta.total_seconds()]. Python computes it and the division by 60
    in binary64; both roundings are monotone and exact at 900 s and 15 min,
    so the comparison with 15 agrees with the one on exact rationals. *)
Definition total_seconds (td : Z) : Q := td # 1000000.

Definition Qgt_bool (x y : Q) : bool := negb (Qle_bool x y).

(** ** Effects: what a call logs, and how it ends *)

Inductive event :=
| Cipher_decryptor
| Store_request (table op : string)
| Print (prefix : string) (e : exn).

Definition M (A : Type) : Type := (list event * result A)%type.

Definition ret {A} (x : A) : M A := ([], inr x).
Definition lift {A} (r : result A) : M A := ([], r).
Definition emit (ev : event) : M unit := ([ev], inr tt).
Definition bind {A B} (m : M A) (k : A -> M B) : M B :=
  match m with
  | (l, inl e) => (l, inl e)
  | (l, inr x) => let '(l', r) := k x in (l ++ l', r)
  end.

Notation "x <- m ;; k" := (bind m (fun x => k))
  (at level 61, m at next level, right associativity).

(** ** utils/shopify_sso.py *)

(** How a call of [validate_shopify_sso_token] ends: one constructor per
    [return] and [raise] of the function. *)
Inductive exit :=
| Raise_ValueError (msg : string)
| Return_None_bad_signature
| Return_None_no_created_at
| Return_None_expired
| Return_customer_data (customer_data : pyval)
| Return_None_on_exception (e : exn).

(** What the caller receives. *)
Definition returned (x : exit) : result (option pyval) :=
  match x with
  | Raise_ValueError msg => inl (ValueError msg)
  | Return_customer_data d => inr (Some d)
  | _ => inr None
  end.

(** Modelled from the spec: the error kinds of section 7, which the code
    does not return, and the kind each failing exit stands for: a signature
    mismatch is [BadSignature], a missing timestamp [InvalidPayload], a stale
    one [Expired], and a failure raised while decoding, deciphering or
    unpadding is [Malformed]. *)
Inductive TokenError := Malformed | BadSignature | InvalidPayload | Expired.

Definition error_kind (x : exit) : option TokenError :=
  match x with
  | Return_None_bad_signature => Some BadSignature
  | Return_None_no_created_at => Some InvalidPayload
  | Return_None_expired => Some Expired
  | Return_None_on_exception _ => Some Malformed
  | Raise_ValueError _ | Return_customer_data _ => None
  end.

Definition TOKEN_EXPIRY_MINUTES : Q := 15.

Section Codec.

(** The environment of the module: its secret, the two parsers it calls and
    the reading of the clock. *)
Variable SHOPIFY_SSO_SECRET : string.
Variable json_loads : string -> result pyval.
Variable fromisoformat : string -> result datetime.
Variable utcnow : Z.

Definition key_material : bytes := SHA256.sha256 (bytes_of_string SHOPIFY_SSO_SECRET).
Definition encryption_key : bytes := py_slice key_material None (Some 16).
Definition signature_key : bytes := py_slice key_material (Some 16) (Some 32).

(** Lines 35-70: decoding, the signature check, decryption and parsing.
    [None] is the early return of a signature mismatch (line 53). The
    decryptor is built (line 63) once [Cipher(...)] has accepted the key and
    the IV (lines 60-62). *)
Definition decrypt_token (token : string) : M (option pyval) :=
  token_data <- lift (Base64.urlsafe_b64decode token) ;;
  let signature := py_slice token_data (Some (-32)) None in
  let encrypted_data := py_slice token_data None (Some (-32)) in
  let expected_signature := HMAC.hmac_sha256 signature_key encrypted_data in
  if negb (HMAC.compare_digest signature expected_signature) then ret None else
  let iv := py_slice encrypted_data None (Some 16) in
  let ciphertext := py_slice encrypted_data (Some 16) None in
  cipher <- lift (Cipher.new encryption_key iv) ;;
  _ <- emit Cipher_decryptor ;;
  plaintext <- lift (Cipher.update_plus_final cipher ciphertext) ;;
  plaintext <- lift (PKCS7.update_plus_final plaintext) ;;
  text <- lift (UTF8.decode plaintext) ;;
  customer_data <- lift (json_loads text) ;;
  ret (Some customer_data).

(** Lines 72-84: the freshness check on the parsed payload. *)
Definition check_expiry (customer_data : pyval) : M exit :=
  created_at_str <- lift (get_or customer_data "createdAt" "created_at") ;;
  if negb (truthy created_at_str) then ret Return_None_no_created_at else
  s <- lift (py_replace created_at_str "Z" "+00:00") ;;
  created_at <- lift (fromisoformat s) ;;
  let now := replace_tzinfo {| wall := utcnow; tzinfo := None |} (tzinfo created_at) in
  td <- lift (datetime_sub now created_at) ;;
  let diff_minutes := (total_seconds td / 60)%Q in
  if Qgt_bool diff_minutes TOKEN_EXPIRY_MINUTES then ret Return_None_expired else
  ret (Return_customer_data customer_data).

(** The body of the [try] block. *)
Definition validate_body (token : string) : M exit :=
  r <- decrypt_token token ;;
  match r with
  | None => ret Return_None_bad_signature
  | Some customer_data => check_expiry customer_data
  end.

Definition validate_shopify_sso_token (token : string) : list event * exit :=
  if String.eqb SHOPIFY_SSO_SECRET EmptyString then
    ([], Raise_ValueError "SHOPIFY_SSO_SECRET environment variable is required")
  else
    match validate_body token with
    | (log, inr x) => (log, x)
    | (log, inl e) =>
        (log ++ [Print "Token validation error: " e], Return_None_on_exception e)
    end.

End Codec.

(** ** app/routes/auth/shopify_callback.py *)

(** The arguments of [create_or_update_user] (lines 40-45). *)
Record user_fields := {
  email : pyval;
  first_name : pyval;
  last_name : pyval;
  shopify_customer_id : pyval
}.

Definition shopify_callback_fields (customer_data : pyval) : result user_fields :=
  match py_getitem customer_data "email" with
  | inl e => inl e
  | inr em =>
  match get_or customer_data "firstName" "first_name" with
  | inl e => inl e
  | inr fn =>
  match get_or customer_data "lastName" "last_name" with
  | inl e => inl e
  | inr ln =>
  match get_or customer_data "shopifyCustomerId" "shopify_customer_id" with
  | inl e => inl e
  | inr id =>
      inr {| email := em; first_name := fn; last_name := ln; shopify_customer_id := id |}
  end end end end.

(** ** utils/auth.py *)

(** The store client, as far as the session functions use it. Every request
    returns the state of the store afterwards and either the rows of the
    response ([execute().data]) or the exception that [execute()] raised. *)
Class Supabase (S : Type) := {
  (** [table("sessions").select("*, users(*)").eq("token", t).gt("expires_at", now)] *)
  sessions_select : S -> string -> Z -> S * result (list pyval);
  (** [table("users").select("*").eq("id", id)] *)
  users_select : S -> pyval -> S * result (list pyval);
  (** [table("sessions").insert(row)] with the row's token, user id, expiry and creation time *)
  sessions_insert : S -> string -> pyval -> Z -> Z -> S * result (list pyval);
  (** [table("sessions").delete().eq("token", t)] *)
  sessions_delete : S -> string -> S * result (list pyval)
}.

(** How a call of [get_user_from_session] ends. *)
Inductive session_exit :=
| Return_None_no_token
| Return_None_no_session
| Return_embedded_user (user : pyval)
| Return_looked_up_user (user : option pyval)
| Return_None_on_error (e : exn).

Definition returned_user (x : session_exit) : option pyval :=
  match x with
  | Return_embedded_user u => Some u
  | Return_looked_up_user u => u
  | _ => None
  end.

Definition week : Z := 7 * 24 * 60 * 60 * 1000000.

Section Sessions.

Context {S : Type} `{Supabase S}.

(** [create_user_session]: [session_token] is the value drawn from
    [secrets.token_urlsafe(32)]; [utcnow] is the reading of the clock for the
    expiry (line 76) and [utcnow'] the later one for [created_at] (line 83).
    The user id is stored as it is given. *)
Definition create_user_session (db : S) (utcnow utcnow' : Z) (session_token : string)
  (user_id : pyval) : list event * S * result string :=
  let expires_at := utcnow + week in
  match sessions_insert db session_token user_id expires_at utcnow' with
  | (db', inl e) => ([Store_request "sessions" "insert"], db', inl e)
  | (db', inr _) => ([Store_request "sessions" "insert"], db', inr session_token)
  end.

(** The part of [get_user_from_session] that follows the session query
    (lines 116-135). *)
Definition user_of_rows (db : S) (rows : list pyval) : list event * S * result session_exit :=
  match rows with
  | [] => ([], db, inr Return_None_no_session)
  | session :: _ =>
      match py_get session "users" with
      | inl e => ([], db, inl e)
      | inr (PDict u) => ([], db, inr (Return_embedded_user (PDict u)))
      | inr (PList (u :: _)) => ([], db, inr (Return_embedded_user u))
      | inr _ =>
          match py_getitem session "user_id" with
          | inl e => ([], db, inl e)
          | inr id =>
              match users_select db id with
              | (db', inl e) => ([Store_request "users" "select"], db', inl e)
              | (db', inr data) =>
                  ([Store_request "users" "select"], db',
                   inr (Return_looked_up_user (hd_error data)))
              end
          end
      end
  end.

Definition get_user_from_session (db : S) (utcnow : Z) (session_token : string)
  : list event * S * session_exit :=
  if String.eqb session_token EmptyString then ([], db, Return_None_no_token) else
  let catch (log : list event) (db : S) (e : exn) :=
    (log ++ [Print "Error getting user from session: " e], db, Return_None_on_error e) in
  match sessions_select db session_token utcnow with
  | (db1, inl e) => catch [Store_request "sessions" "select"] db1 e
  | (db1, inr rows) =>
      match user_of_rows db1 rows with
      | (log, db2, inl e) => catch (Store_request "sessions" "select" :: log) db2 e
      | (log, db2, inr x) => (Store_request "sessions" "select" :: log, db2, x)
      end
  end.

Definition delete_session (db : S) (session_token : string) : list event * S * bool :=
  match sessions_delete db session_token with
  | (db', inr _) => ([Store_request "sessions" "delete"], db', true)
  | (db', inl e) =>
      ([Store_request "sessions" "delete"; Print "Error deleting session: " e], db', false)
  end.

End Sessions.

(** An in-memory store: two tables and a switch that makes every request
    fail, as a lost connection does. *)
Module MemStore.

Record session_row := {
  token : string;
  user_id : pyval;
  expires_at : Z;
  created_at : Z
}.

Record t := {
  sessions : list session_row;
  users : list (string * pyval);
  online : bool
}.

Definition unavailable : exn := LibraryError "ConnectError" "connection refused".

Definition find_user (db : t) (id : string) : option pyval :=
  option_map snd (find (fun u => String.eqb (fst u) id) (users db)).

(** The user a stored id refers to; the table is keyed by strings. *)
Definition referred_user (db : t) (id : pyval) : option pyval :=
  match id with
  | PStr i => find_user db i
  | _ => None
  end.

(** A session row with the embedded users relation. *)
Definition row (db : t) (s : session_row) : pyval :=
  PDict [("token", PStr (token s)); ("user_id", user_id s);
         ("expires_at", PInt (expires_at s)); ("created_at", PInt (created_at s));
         ("users", match referred_user db (user_id s) with Some u => u | None => PNone end)].

Definition request {A} (db : t) (r : t * A) : t * result A :=
  if online db then (fst r, inr (snd r)) else (db, inl unavailable).

Definition select_sessions (db : t) (tok : string) (now : Z) : t * result (list pyval) :=
  request db
    (db, map (row db)
           (filter (fun s => String.eqb (token s) tok && (now <? expires_at s)) (sessions db))).

Definition select_users (db : t) (id : pyval) : t * result (list pyval) :=
  request db
    (db, match referred_user db id with Some u => [u] | None => [] end).

Definition insert_session (db : t) (tok : string) (uid : pyval) (exp cre : Z)
  : t * result (list pyval) :=
  let s := {| token := tok; user_id := uid; expires_at := exp; created_at := cre |} in
  request db
    ({| sessions := sessions db ++ [s]; users := users db; online := online db |},
     [row db s]).

Definition delete_sessions (db : t) (tok : string) : t * result (list pyval) :=
  request db
    ({| sessions := filter (fun s => negb (String.eqb (token s) tok)) (sessions db);
        users := users db; online := online db |},
     map (row db) (filter (fun s => String.eqb (token s) tok) (sessions db))).

#[global] Instance client : Supabase t := {
  sessions_select := select_sessions;
  users_select := select_users;
  sessions_insert := insert_session;
  sessions_delete := delete_sessions
}.

End MemStore.

(** ** The encoder, which this repository does not contain *)

(** Modelled from the spec: the base64url alphabet of the transport string
    (section 6), written without padding characters (section 4.3, step 5). *)
Module Base64url.
Local Open Scope N_scope.

Definition alphabet : bytes :=
  bytes_of_string "ABCDEFGHIJKLMNOPQRSTUVWXYZabcdefghijklmnopqrstuvwxyz0123456789-_".

Definition b2a (n : N) : byte := nth (N.to_nat n) alphabet x00.

Definition sextet0 (b0 : byte) : N := N.shiftr (Byte.to_N b0) 2.
Definition sextet1 (b0 b1 : byte) : N :=
  N.lor (N.shiftl (N.land (Byte.to_N b0) 3) 4) (N.shiftr (Byte.to_N b1) 4).
Definition sextet2 (b1 b2 : byte) : N :=
  N.lor (N.shiftl (N.land (Byte.to_N b1) 15) 2) (N.shiftr (Byte.to_N b2) 6).
Definition sextet3 (b2 : byte) : N := N.land (Byte.to_N b2) 63.

Fixpoint encode_bytes (bs : bytes) : bytes :=
  match bs with
  | b0 :: b1 :: b2 :: rest =>
      b2a (sextet0 b0) :: b2a (sextet1 b0 b1) :: b2a (sextet2 b1 b2) :: b2a (sextet3 b2)
      :: encode_bytes rest
  | [b0; b1] => [b2a (sextet0 b0); b2a (sextet1 b0 b1); b2a (sextet2 b1 x00)]
  | [b0] => [b2a (sextet0 b0); b2a (sextet1 b0 x00)]
  | [] => []
  end.

Definition encode (bs : bytes) : string := string_of_bytes (encode_bytes bs).

End Base64url.

(** Modelled from the spec: PKCS#7 padding to 128-bit blocks (section 4.3,
    step 3). *)
Definition pkcs7_pad (data : bytes) : bytes :=
  let p := (16 - Nat.modulo (List.length data) 16)%nat in
  data ++ repeat (byte_of_N (N.of_nat p)) p.

(** Modelled from the spec: AES-CBC encryption of the padded payload under
    the encryption key and the IV (section 4.3, step 3). *)
Definition cbc_encrypt (key iv padded : bytes) : bytes :=
  Cipher.cbc_encrypt_blocks key iv (chunks (List.length padded) 16 padded).

(** Modelled from the spec: the bytes of a transport token before their
    base64url encoding (section 4.3, steps 3-5): the IV, the ciphertext and
    the HMAC-SHA256 of both under the signing key. *)
Definition seal (secret : string) (iv payload : bytes) : bytes :=
  let ciphertext := cbc_encrypt (encryption_key secret) iv (pkcs7_pad payload) in
  let signature := HMAC.hmac_sha256 (signature_key secret) (iv ++ ciphertext) in
  iv ++ ciphertext ++ signature.

(** Modelled from the spec: [encode] (section 4.3), which the repository
    only calls ([generate_shopify_redirect_token]). [payload] is the
    serialized assertion of step 1 and [iv] the random IV of step 2. *)
Definition encode (secret : string) (iv payload : bytes) : string :=
  Base64url.encode (seal secret iv payload).

(** ** Reference readers for the two parsers

    [json.loads] and [datetime.fromisoformat] are parameters of the codec.
    The readers below implement the part of their input languages that the
    worked examples use, and report anything else as unsupported. *)

Module JSON.

Definition dquote : ascii := ascii_of_nat 34.
Definition backslash : ascii := ascii_of_nat 92.

Definition is_ws (c : ascii) : bool :=
  Ascii.eqb c " " || Ascii.eqb c (ascii_of_nat 9)
  || Ascii.eqb c (ascii_of_nat 10) || Ascii.eqb c (ascii_of_nat 13).

Fixpoint skip_ws (s : string) : string :=
  match s with
  | String c r => if is_ws c then skip_ws r else s
  | EmptyString => s
  end.

Definition error (msg : string) : exn := LibraryError "JSONDecodeError" msg.

Definition digit (c : ascii) : option Z :=
  let n := Z.of_nat (nat_of_ascii c) in
  if (48 <=? n) && (n <=? 57) then Some (n - 48) else None.

Fixpoint digits (acc : Z) (s : string) : Z * string :=
  match s with
  | String c r => match digit c with Some d => digits (acc * 10 + d) r | None => (acc, s) end
  | EmptyString => (acc, s)
  end.

(** The characters of a string literal up to its closing quote. *)
Fixpoint string_body (s : string) : result (string * string) :=
  match s with
  | EmptyString => inl (error "Unterminated string")
  | String c r =>
      if Ascii.eqb c dquote then inr (EmptyString, r)
      else if Ascii.eqb c backslash then
        match r with
        | String e r' =>
            let unescaped :=
              if Ascii.eqb e dquote then Some dquote
              else if Ascii.eqb e backslash then Some backslash
              else if Ascii.eqb e "/" then Some "/"%char
              else if Ascii.eqb e "n" then Some (ascii_of_nat 10)
              else if Ascii.eqb e "t" then Some (ascii_of_nat 9)
              else if Ascii.eqb e "r" then Some (ascii_of_nat 13)
              else if Ascii.eqb e "b" then Some (ascii_of_nat 8)
              else if Ascii.eqb e "f" then Some (ascii_of_nat 12)
              else None in
            match unescaped with
            | Some u =>
                match string_body r' with
                | inr (t, rest) => inr (String u t, rest)
                | inl x => inl x
                end
            | None => inl (Unsupported "escape sequence")
            end
        | EmptyString => inl (error "Unterminated string")
        end
      else if Nat.ltb (nat_of_ascii c) 32 then inl (error "Invalid control character")
      else match string_body r with
           | inr (t, rest) => inr (String c t, rest)
           | inl x => inl x
           end
  end.

Fixpoint starts_with (p s : string) : option string :=
  match p, s with
  | EmptyString, _ => Some s
  | String a p', String b s' => if Ascii.eqb a b then starts_with p' s' else None
  | _, EmptyString => None
  end.

(** A dict keeps one entry per key: a repeated key overwrites the value. *)
Fixpoint dict_set (k : string) (v : pyval) (d : list (string * pyval)) : list (string * pyval) :=
  match d with
  | [] => [(k, v)]
  | (k', v') :: r => if String.eqb k k' then (k, v) :: r else (k', v') :: dict_set k v r
  end.

(** A number: its integer part is a single 0 or starts with another digit,
    so a digit after a leading 0 is left over for the caller. [Infinity] is
    read after a sign as well. *)
Definition number (negative : bool) (s : string) : result (pyval * string) :=
  match s with
  | String c r =>
      match digit c with
      | None =>
          match starts_with "Infinity" s with
          | Some rest => inr (PFloat (Infinite negative), rest)
          | None =>
              if negative then inl (error "Expecting value") else
              match starts_with "NaN" s with
              | Some rest => inr (PFloat NaN, rest)
              | None => inl (error "Expecting value")
              end
          end
      | Some _ =>
          let '(n, rest) := if Ascii.eqb c "0" then (0, r) else digits 0 s in
          match rest with
          | String d _ =>
              if Ascii.eqb d "." || Ascii.eqb d "e" || Ascii.eqb d "E"
              then inl (Unsupported "float literal")
              else inr (PInt (if negative then - n else n), rest)
          | EmptyString => inr (PInt (if negative then - n else n), rest)
          end
      end
  | EmptyString => inl (error "Expecting value")
  end.

Fixpoint value (fuel : nat) (s : string) : result (pyval * string) :=
  match fuel with
  | O => inl (LibraryError "RecursionError" "maximum recursion depth exceeded")
  | Datatypes.S fuel' =>
      match skip_ws s with
      | String c r =>
          if Ascii.eqb c dquote then
            match string_body r with
            | inr (t, rest) => inr (PStr t, rest)
            | inl x => inl x
            end
          else if Ascii.eqb c "{" then
            match skip_ws r with
            | String "}" rest => inr (PDict [], rest)
            | r' => members fuel' r' []
            end
          else if Ascii.eqb c "[" then
            match skip_ws r with
            | String "]" rest => inr (PList [], rest)
            | r' => elements fuel' r' []
            end
          else if Ascii.eqb c "-" then number true r
          else match starts_with "true" (String c r) with
          | Some rest => inr (PBool true, rest)
          | None =>
          match starts_with "false" (String c r) with
          | Some rest => inr (PBool false, rest)
          | None =>
          match starts_with "null" (String c r) with
          | Some rest => inr (PNone, rest)
          | None => number false (String c r)
          end end end
      | EmptyString => inl (error "Expecting value")
      end
  end
with members (fuel : nat) (s : string) (acc : list (string * pyval)) : result (pyval * string) :=
  match fuel with
  | O => inl (LibraryError "RecursionError" "maximum recursion depth exceeded")
  | Datatypes.S fuel' =>
      match skip_ws s with
      | String c r =>
          if Ascii.eqb c dquote then
            match string_body r with
            | inl x => inl x
            | inr (k, rest) =>
                match skip_ws rest with
                | String ":" rest' =>
                    match value fuel' rest' with
                    | inl x => inl x
                    | inr (v, rest'') =>
                        match skip_ws rest'' with
                        | String "," more => members fuel' more (dict_set k v acc)
                        | String "}" after => inr (PDict (dict_set k v acc), after)
                        | _ => inl (error "Expecting ',' delimiter")
                        end
                    end
                | _ => inl (error "Expecting ':' delimiter")
                end
            end
          else inl (error "Expecting property name enclosed in double quotes")
      | EmptyString => inl (error "Expecting property name enclosed in double quotes")
      end
  end
with elements (fuel : nat) (s : string) (acc : list pyval) : result (pyval * string) :=
  match fuel with
  | O => inl (LibraryError "RecursionError" "maximum recursion depth exceeded")
  | Datatypes.S fuel' =>
      match value fuel' s with
      | inl x => inl x
      | inr (v, rest) =>
          match skip_ws rest with
          | String "," more => elements fuel' more (acc ++ [v])
          | String "]" after => inr (PList (acc ++ [v]), after)
          | _ => inl (error "Expecting ',' delimiter")
          end
      end
  end.

Definition loads (s : string) : result pyval :=
  match value (Datatypes.S (String.length s)) s with
  | inl x => inl x
  | inr (v, rest) =>
      match skip_ws rest with
      | EmptyString => inr v
      | _ => inl (error "Extra data")
      end
  end.

(** JSON text written with single quotes in place of double quotes. *)
Definition text (s : string) : string :=
  replace_char "'" (String dquote EmptyString) s.

End JSON.

Module ISO8601.

Definition invalid : exn := Unsupported "isoformat string".

(** Exactly [n] decimal digits. *)
Fixpoint fixed (n : nat) (acc : Z) (s : string) : option (Z * string) :=
  match n with
  | O => Some (acc, s)
  | Datatypes.S n' =>
      match s with
      | String c r =>
          match JSON.digit c with
          | Some d => fixed n' (acc * 10 + d) r
          | None => None
          end
      | EmptyString => None
      end
  end.

Definition expect (c : ascii) (s : string) : option string :=
  match s with
  | String c' r => if Ascii.eqb c c' then Some r else None
  | EmptyString => None
  end.

(** Days from 0001-01-01 in the proleptic Gregorian calendar. *)
Definition days_before_year (y : Z) : Z :=
  let y' := y - 1 in y' * 365 + y' / 4 - y' / 100 + y' / 400.

Definition is_leap (y : Z) : bool :=
  ((y mod 4 =? 0) && negb (y mod 100 =? 0)) || (y mod 400 =? 0).

Definition days_in_month (y m : Z) : Z :=
  if m =? 2 then (if is_leap y then 29 else 28)
  else if (m =? 4) || (m =? 6) || (m =? 9) || (m =? 11) then 30 else 31.

Definition days_before_month (y m : Z) : Z :=
  fold_left (fun acc k => acc + days_in_month y (Z.of_nat k)) (seq 1 (Z.to_nat (m - 1))) 0.

Definition microseconds (y mo d h mi s us : Z) : Z :=
  ((((days_before_year y + days_before_month y mo + (d - 1)) * 24 + h) * 60 + mi) * 60 + s)
  * 1000000 + us.

Definition bind_opt {A B} (o : option A) (k : A -> option B) : option B :=
  match o with Some x => k x | None => None end.

(** YYYY-MM-DDTHH:MM:SS, then an optional six-digit fraction and an
    optional +HH:MM or -HH:MM offset. *)
Definition parse (s : string) : option datetime :=
  bind_opt (fixed 4 0 s) (fun '(y, s) =>
  bind_opt (expect "-" s) (fun s =>
  bind_opt (fixed 2 0 s) (fun '(mo, s) =>
  bind_opt (expect "-" s) (fun s =>
  bind_opt (fixed 2 0 s) (fun '(d, s) =>
  bind_opt (expect "T" s) (fun s =>
  bind_opt (fixed 2 0 s) (fun '(h, s) =>
  bind_opt (expect ":" s) (fun s =>
  bind_opt (fixed 2 0 s) (fun '(mi, s) =>
  bind_opt (expect ":" s) (fun s =>
  bind_opt (fixed 2 0 s) (fun '(sec, s) =>
  let valid := (1 <=? y) && (1 <=? mo) && (mo <=? 12) && (1 <=? d)
               && (d <=? days_in_month y mo) && (h <=? 23) && (mi <=? 59) && (sec <=? 59) in
  if negb valid then None else
  bind_opt (match expect "." s with
            | Some s' => fixed 6 0 s'
            | None => Some (0, s)
            end) (fun '(us, s) =>
  let w := microseconds y mo d h mi sec us in
  match s with
  | EmptyString => Some {| wall := w; tzinfo := None |}
  | String sign s =>
      if Ascii.eqb sign "+" || Ascii.eqb sign "-" then
        bind_opt (fixed 2 0 s) (fun '(oh, s) =>
        bind_opt (expect ":" s) (fun s =>
        bind_opt (fixed 2 0 s) (fun '(om, s) =>
        match s with
        | EmptyString =>
            if (oh <=? 23) && (om <=? 59) then
              let off := (oh * 60 + om) * 60 * 1000000 in
              Some {| wall := w; tzinfo := Some (if Ascii.eqb sign "-" then - off else off) |}
            else None
        | _ => None
        end)))
      else None
  end)))))))))))).

Definition fromisoformat (s : string) : result datetime :=
  match parse s with
  | Some d => inr d
  | None => inl invalid
  end.

End ISO8601.


(** ** Worked examples *)

Module Example.

Definition secret : string := "test-secret".
Definition iv : bytes := bytes_of_string "0123456789abcdef".

(** 2026-01-01T12:05:00, the reading of the clock at validation. *)
Definition now : Z := ISO8601.microseconds 2026 1 1 12 5 0 0.

(** A transport string as an issuer using [base64.urlsafe_b64encode] writes
    it: completed with pad characters to a multiple of four. *)
Definition with_padding (s : string) : string :=
  (s ++ string_of_bytes (repeat "="%byte ((4 - String.length s mod 4) mod 4)))%string.

Definition token_of (json : string) : string :=
  with_padding (encode secret iv (bytes_of_string (JSON.text json))).

Definition validate : string -> list event * exit :=
  validate_shopify_sso_token secret JSON.loads ISO8601.fromisoformat now.

Definition fresh : string :=
  "{'email': 'a@b.com', 'created_at': '2026-01-01T12:00:00+00:00'}".
Definition aged_14_59 : string :=
  "{'email': 'a@b.com', 'created_at': '2026-01-01T11:50:01+00:00'}".
Definition aged_15_01 : string :=
  "{'email': 'a@b.com', 'created_at': '2026-01-01T11:49:59+00:00'}".
Definition naive : string :=
  "{'email': 'a@b.com', 'created_at': '2026-01-01T12:00:00'}".
Definition with_name : string :=
  "{'email': 'a@b.com', 'first_name': 'Ada', 'created_at': '2026-01-01T12:00:00+00:00'}".

(** A store with one user, and the same store after a session was issued
    to that user at [now]. *)
Definition user1 : pyval := PDict [("id", PStr "u1"); ("email", PStr "a@b.com")].

Definition store0 : MemStore.t :=
  {| MemStore.sessions := []; MemStore.users := [("u1", user1)]; MemStore.online := true |}.

Definition store1 : MemStore.t :=
  snd (fst (create_user_session store0 now now "tok123" (PStr "u1"))).

Definition disconnected (db : MemStore.t) : MemStore.t :=
  {| MemStore.sessions := MemStore.sessions db; MemStore.users := MemStore.users db;
     MemStore.online := false |}.

End Example.

(** ** Notions used in the statements *)

(** The two slices of line 44 and line 45. *)
Definition trailing_block (token_data : bytes) : bytes := py_slice token_data (Some (-32)) None.
Definition signed_payload (token_data : bytes) : bytes := py_slice token_data None (Some (-32)).

(** One bit of one byte inverted. *)
Definition flip_bit (bs : bytes) (pos bit : nat) : bytes :=
  firstn pos bs ++
  match skipn pos bs with
  | b :: rest => AES.bxor b (byte_of_N (2 ^ N.of_nat bit)) :: rest
  | [] => []
  end.

(** The token decodes and its signature verifies: [token_data] are its
    bytes, and the last 32 of them are the HMAC of the bytes before them. *)
Definition verifies (secret token : string) (token_data : bytes) : Prop :=
  Base64.urlsafe_b64decode token = inr token_data
  /\ trailing_block token_data
     = HMAC.hmac_sha256 (signature_key secret) (signed_payload token_data).

(** How the [try] of the validator ends: with the exit reached, or in the
    handler, which prints the exception and returns None. *)
Definition finish (log : list event) (r : result exit) : list event * exit :=
  match r with
  | inr x => (log, x)
  | inl e => (log ++ [Print "Token validation error: " e], Return_None_on_exception e)
  end.

(** Where a call ends for a token that verifies: at the ValueError of
    [Cipher(...)] when fewer than 16 bytes precede the signature, and
    otherwise at the lookup of [decryptor.final], with the decryptor built. *)
Definition refusal (token_data : bytes) : list event * exit :=
  let n := List.length (signed_payload token_data) in
  if Nat.ltb n 16
  then finish [] (inl (ValueError ("Invalid IV size (" ++ decimal n ++ ") for CBC.")))
  else finish [Cipher_decryptor] (inl (AttributeError "final")).

(** The two [isinstance] tests of lines 122 and 124: the value is a dict,
    or a list that is not empty. *)
Definition embeds_user (users : pyval) : bool :=
  match users with
  | PDict _ => true
  | PList (_ :: _) => true
  | _ => false
  end.

(** The optional fields that the callback reads under two spellings. *)
Inductive field := FirstName | LastName | CustomerId.

Definition plain_key (f : field) : string :=
  match f with
  | FirstName => "first_name"
  | LastName => "last_name"
  | CustomerId => "shopify_customer_id"
  end.

Definition alternate_key (f : field) : string :=
  match f with
  | FirstName => "firstName"
  | LastName => "lastName"
  | CustomerId => "shopifyCustomerId"
  end.

(** The record has the value [v] of the field under exactly one of its two
    spellings, or under neither when [v] is [None]. *)
Definition carries (d : list (string * pyval)) (f : field) (v : option pyval) : Prop :=
  (assoc (plain_key f) d = v /\ assoc (alternate_key f) d = None)
  \/ (assoc (alternate_key f) d = v /\ assoc (plain_key f) d = None).

(** Absent, null, or a value that tests true. *)
Definition null_or_truthy (v : option pyval) : Prop :=
  match v with
  | None => True
  | Some x => x = PNone \/ truthy x = true
  end.

(** Every character the encoder writes is an ASCII letter of the alphabet,
    which the decoder's table maps back to its six bits. *)
Definition alphabet_char_ok (n : N) : bool :=
  (Byte.to_N (Base64url.b2a n) <? 128)%N
  && negb (Byte.eqb (Base64.translate (Base64url.b2a n)) "=")
  && match Base64.table_a2b (Base64.translate (Base64url.b2a n)) with
     | Some k => (k =? n)%N
     | None => false
     end.

(** The bit arithmetic of one encoded group: the four six-bit values are
    in range and the decoder's shifts reassemble the bytes they came from. *)
Definition sextets_ok (x y : byte) : bool :=
  ((Base64url.sextet0 x <? 64) && (Base64url.sextet1 x y <? 64)
   && (Base64url.sextet2 x y <? 64) && (Base64url.sextet3 x <? 64)
   && Byte.eqb (byte_of_N (N.lor (N.shiftl (Base64url.sextet0 x) 2)
                                 (N.shiftr (Base64url.sextet1 x y) 4))) x
   && (N.land (Base64url.sextet1 x y) 15 =? N.shiftr (Byte.to_N y) 4)
   && (N.shiftr (Base64url.sextet2 x y) 2 =? N.land (Byte.to_N x) 15)
   && Byte.eqb (byte_of_N (N.lor (N.shiftl (N.shiftr (Byte.to_N x) 4) 4)
                                 (N.land (Byte.to_N x) 15))) x
   && (N.land (Base64url.sextet2 x y) 3 =? N.shiftr (Byte.to_N y) 6)
   && Byte.eqb (byte_of_N (N.lor (N.shiftl (N.shiftr (Byte.to_N x) 6) 6)
                                 (Base64url.sextet3 x))) x)%N.

(** Lower-case hexadecimal, for known answers. *)
Definition hex_digit (n : N) : ascii :=
  ascii_of_N (if (n <? 10)%N then 48 + n else 87 + n)%N.

Fixpoint hex (bs : bytes) : string :=
  match bs with
  | [] => EmptyString
  | b :: rest =>
      String (hex_digit (Byte.to_N b / 16)%N) (String (hex_digit (Byte.to_N b mod 16)%N) (hex rest))
  end.

(** ** examples/fastapi-implementation-example.py *)

(** The validator of the single-file example differs from
    [utils/shopify_sso.py] in its freshness check only: it subscripts the
    record with ["created_at"] and knows no other spelling (lines 73-81). *)
Section ExampleCodec.

Variable SHOPIFY_SSO_SECRET : string.
Variable json_loads : string -> result pyval.
Variable fromisoformat : string -> result datetime.
Variable utcnow : Z.

Definition example_check_expiry (customer_data : pyval) : M exit :=
  created_at_str <- lift (py_getitem customer_data "created_at") ;;
  s <- lift (py_replace created_at_str "Z" "+00:00") ;;
  created_at <- lift (fromisoformat s) ;;
  let now := replace_tzinfo {| wall := utcnow; tzinfo := None |} (tzinfo created_at) in
  td <- lift (datetime_sub now created_at) ;;
  let diff_minutes := (total_seconds td / 60)%Q in
  if Qgt_bool diff_minutes TOKEN_EXPIRY_MINUTES then ret Return_None_expired else
  ret (Return_customer_data customer_data).

Definition example_validate_body (token : string) : M exit :=
  r <- decrypt_token SHOPIFY_SSO_SECRET json_loads token ;;
  match r with
  | None => ret Return_None_bad_signature
  | Some customer_data => example_check_expiry customer_data
  end.

Definition example_validate_shopify_sso_token (token : string) : list event * exit :=
  if String.eqb SHOPIFY_SSO_SECRET EmptyString then
    ([], Raise_ValueError "SHOPIFY_SSO_SECRET environment variable is required")
  else
    match example_validate_body token with
    | (log, inr x) => (log, x)
    | (log, inl e) =>
        (log ++ [Print "Token validation error: " e], Return_None_on_exception e)
    end.

End ExampleCodec.

(** ** utils/auth.py: create_or_update_user *)

(** The requests on the users table that [create_or_update_user] makes. *)
Class SupabaseUsers (S : Type) := {
  (** [table("users").select("*").eq("email", email)] *)
  users_select_email : S -> pyval -> S * result (list pyval);
  (** [table("users").update(user_data).eq("id", id)] *)
  users_update : S -> pyval -> pyval -> S * result (list pyval);
  (** [table("users").insert(user_data)] *)
  users_insert : S -> pyval -> S * result (list pyval)
}.

Section Users.

Context {S : Type} `{SupabaseUsers S}.

(** [datetime.isoformat], and the two readings of the clock (lines 40
    and 55). *)
Variable isoformat : Z -> string.
Variables updated_at created_at : Z.

Definition user_data (email first_name last_name shopify_customer_id : pyval)
  : list (string * pyval) :=
  [("email", email); ("first_name", first_name); ("last_name", last_name);
   ("shopify_customer_id", shopify_customer_id);
   ("updated_at", PStr (isoformat updated_at))].

(** The function returns a user record or None ([PNone]); it has no [try],
    so what the store raises leaves it as an exception. *)
Definition create_or_update_user (db : S)
  (email first_name last_name shopify_customer_id : pyval)
  : list event * S * result pyval :=
  match users_select_email db email with
  | (db1, inl e) => ([Store_request "users" "select"], db1, inl e)
  | (db1, inr existing) =>
      let data := user_data email first_name last_name shopify_customer_id in
      match existing with
      | user :: _ =>
          match py_getitem user "id" with
          | inl e => ([Store_request "users" "select"], db1, inl e)
          | inr id =>
              match users_update db1 (PDict data) id with
              | (db2, inl e) =>
                  ([Store_request "users" "select"; Store_request "users" "update"], db2, inl e)
              | (db2, inr rows) =>
                  ([Store_request "users" "select"; Store_request "users" "update"], db2,
                   inr (match rows with r :: _ => r | [] => user end))
              end
          end
      | [] =>
          let data' := data ++ [("created_at", PStr (isoformat created_at))] in
          match users_insert db1 (PDict data') with
          | (db2, inl e) =>
              ([Store_request "users" "select"; Store_request "users" "insert"], db2, inl e)
          | (db2, inr rows) =>
              ([Store_request "users" "select"; Store_request "users" "insert"], db2,
               inr (match rows with r :: _ => r | [] => PNone end))
          end
      end
  end.

End Users.

(** ** app/middleware/auth.py *)

Record HTTPException := {
  status_code : Z;
  detail : string;
  headers : list (string * string)
}.

(** [request.cookies.get(name)] *)
Fixpoint cookie_get (cookies : list (string * string)) (name : string) : option string :=
  match cookies with
  | [] => None
  | (k, v) :: rest => if String.eqb name k then Some v else cookie_get rest name
  end.

Section Middleware.

Context {S : Type} `{Supabase S}.

(** The part common to [get_current_user] and [require_auth]; they differ
    in the headers of the first exception. *)
Definition authenticate_request (unauthenticated_headers : list (string * string))
  (db : S) (utcnow : Z) (cookies : list (string * string))
  : list event * S * (HTTPException + pyval) :=
  let not_authenticated :=
    {| status_code := 401; detail := "Not authenticated"; headers := unauthenticated_headers |} in
  let invalid :=
    {| status_code := 401; detail := "Invalid or expired session"; headers := [] |} in
  match cookie_get cookies "xwanai_session" with
  | None => ([], db, inl not_authenticated)
  | Some session_token =>
      if String.eqb session_token EmptyString then ([], db, inl not_authenticated) else
      match get_user_from_session db utcnow session_token with
      | (log, db', x) =>
          match returned_user x with
          | Some user => if truthy user then (log, db', inr user) else (log, db', inl invalid)
          | None => (log, db', inl invalid)
          end
      end
  end.

Definition get_current_user := authenticate_request [("WWW-Authenticate", "Bearer")].
Definition require_auth := authenticate_request [].

End Middleware.

(** ** app/routes/auth/shopify_callback.py: the route *)

Record cookie := {
  key : string;
  value : string;
  httponly : bool;
  secure : bool;
  samesite : string;
  max_age : Z;
  path : string
}.

(** A [RedirectResponse] as the route builds it: the [url] argument it
    gives to the constructor (the library writes it into the Location header
    in percent-encoded form) and the cookie it sets on the response, if any. *)
Record response := { url : string; set_cookie : option cookie }.

(** How a call of [shopify_callback] ends: with a response, or with an
    exception that leaves the route. *)
Inductive callback_exit :=
| Responds (r : response)
| Propagates (e : exn).

Definition redirect (target : string) : callback_exit :=
  Responds {| url := target; set_cookie := None |}.

Definition session_cookie (session_token : string) : cookie :=
  {| key := "xwanai_session"; value := session_token; httponly := true; secure := true;
     samesite := "lax"; max_age := 60 * 60 * 24 * 7; path := "/" |}.

Section Callback.

Context {S : Type} `{Supabase S} `{SupabaseUsers S}.

Variable SHOPIFY_SSO_SECRET : string.
Variable json_loads : string -> result pyval.
Variable fromisoformat : string -> result datetime.
Variable isoformat : Z -> string.

(** The readings of the clock during one request, and the value drawn from
    [secrets.token_urlsafe(32)]. *)
Variables at_validation at_update at_create at_expiry at_session : Z.
Variable session_token : string.

(** The [try] block of the route (lines 37-69), entered with the record
    that the validator returned; [log] is what was logged before. *)
Definition sign_in (log : list event) (db : S) (customer_data : pyval) (return_to : string)
  : list event * S * callback_exit :=
  let failed (log : list event) (db' : S) (e : exn) :=
    (log ++ [Print "Error in shopify_callback: " e], db',
     redirect "/login?error=authentication_failed") in
  match shopify_callback_fields customer_data with
  | inl e => failed log db e
  | inr f =>
  match create_or_update_user isoformat at_update at_create db
          (email f) (first_name f) (last_name f) (shopify_customer_id f) with
  | (l1, db1, inl e) => failed (log ++ l1) db1 e
  | (l1, db1, inr user) =>
  if negb (truthy user) then (log ++ l1, db1, redirect "/login?error=user_creation_failed") else
  match py_get user "id" with
  | inl e => failed (log ++ l1) db1 e
  | inr id =>
  if negb (truthy id) then (log ++ l1, db1, redirect "/login?error=user_creation_failed") else
  match py_getitem user "id" with
  | inl e => failed (log ++ l1) db1 e
  | inr user_id =>
  match create_user_session db1 at_expiry at_session session_token user_id with
  | (l2, db2, inl e) => failed (log ++ l1 ++ l2) db2 e
  | (l2, db2, inr tok) =>
      (log ++ l1 ++ l2, db2,
       Responds {| url := return_to; set_cookie := Some (session_cookie tok) |})
  end end end end end.

Definition shopify_callback (db : S) (token return_to : string)
  : list event * S * callback_exit :=
  if String.eqb token EmptyString then ([], db, redirect "/login?error=missing_token") else
  match validate_shopify_sso_token SHOPIFY_SSO_SECRET json_loads fromisoformat at_validation token with
  | (vlog, x) =>
  match returned x with
  | inl e => (vlog, db, Propagates e)
  | inr r =>
  let customer_data := match r with Some d => d | None => PNone end in
  if negb (truthy customer_data) then (vlog, db, redirect "/login?error=invalid_token") else
  sign_in vlog db customer_data return_to
  end end.

End Callback.

(** The in-memory store also serves the users table. A user record is a
    dict; the table is keyed by the record's ["id"], and a new record gets
    its email, prefixed, as id. *)
Module MemUsers.

Definition same_email (email : pyval) (u : string * pyval) : bool :=
  match py_get (snd u) "email", email with
  | inr (PStr a), PStr b => String.eqb a b
  | _, _ => false
  end.

Definition select_email (db : MemStore.t) (email : pyval) : MemStore.t * result (list pyval) :=
  MemStore.request db (db, map snd (filter (same_email email) (MemStore.users db))).

Definition merge (data user : pyval) : pyval :=
  match data, user with
  | PDict d, PDict u => PDict (fold_left (fun acc kv => JSON.dict_set (fst kv) (snd kv) acc) d u)
  | _, _ => user
  end.

Definition update (db : MemStore.t) (data id : pyval) : MemStore.t * result (list pyval) :=
  let hit (u : string * pyval) :=
    match id with PStr i => String.eqb (fst u) i | _ => false end in
  MemStore.request db
    ({| MemStore.sessions := MemStore.sessions db;
        MemStore.users :=
          map (fun u => if hit u then (fst u, merge data (snd u)) else u) (MemStore.users db);
        MemStore.online := MemStore.online db |},
     map (fun u => merge data (snd u)) (filter hit (MemStore.users db))).

Definition insert (db : MemStore.t) (data : pyval) : MemStore.t * result (list pyval) :=
  match py_get data "email" with
  | inr (PStr e) =>
      let id := ("id:" ++ e)%string in
      let user := merge (PDict [("id", PStr id)]) data in
      MemStore.request db
        ({| MemStore.sessions := MemStore.sessions db;
            MemStore.users := MemStore.users db ++ [(id, user)];
            MemStore.online := MemStore.online db |},
         [user])
  | _ =>
      if MemStore.online db then (db, inl (LibraryError "APIError" "invalid input for users.email"))
      else (db, inl MemStore.unavailable)
  end.

#[global] Instance client : SupabaseUsers MemStore.t := {
  users_select_email := select_email;
  users_update := update;
  users_insert := insert
}.

(** The record the table holds after the insert of the fields that
    [create_or_update_user] sends for a new email. *)
Definition created (isoformat : Z -> string) (updated_at created_at : Z) (e : string)
  (first_name last_name shopify_customer_id : pyval) : list (string * pyval) :=
  [("email", PStr e); ("first_name", first_name); ("last_name", last_name);
   ("shopify_customer_id", shopify_customer_id);
   ("updated_at", PStr (isoformat updated_at));
   ("created_at", PStr (isoformat created_at));
   ("id", PStr ("id:" ++ e))].

Definition with_user (db : MemStore.t) (id : string) (u : pyval) : MemStore.t :=
  {| MemStore.sessions := MemStore.sessions db;
     MemStore.users := MemStore.users db ++ [(id, u)];
     MemStore.online := MemStore.online db |}.

End MemUsers.

(** ** Verdicts, as pure functions of the parsed values *)

(** What [check_expiry] returns, without the monad. *)
Definition expiry_verdict (fromisoformat : string -> result datetime) (utcnow : Z)
  (customer_data : pyval) : result exit :=
  match get_or customer_data "createdAt" "created_at" with
  | inl e => inl e
  | inr v =>
      if negb (truthy v) then inr Return_None_no_created_at else
      match py_replace v "Z" "+00:00" with
      | inl e => inl e
      | inr s =>
          match fromisoformat s with
          | inl e => inl e
          | inr created_at =>
              inr (if 900000000 <? utcnow - wall created_at
                   then Return_None_expired else Return_customer_data customer_data)
          end
      end
  end.

(** What [example_check_expiry] returns, without the monad. *)
Definition example_expiry_verdict (fromisoformat : string -> result datetime) (utcnow : Z)
  (customer_data : pyval) : result exit :=
  match py_getitem customer_data "created_at" with
  | inl e => inl e
  | inr v =>
      match py_replace v "Z" "+00:00" with
      | inl e => inl e
      | inr s =>
          match fromisoformat s with
          | inl e => inl e
          | inr created_at =>
              inr (if 900000000 <? utcnow - wall created_at
                   then Return_None_expired else Return_customer_data customer_data)
          end
      end
  end.

(** The instant an aware timestamp denotes, in microseconds of UTC. *)
Definition instant (d : datetime) : Z :=
  match tzinfo d with
  | Some offset => wall d - offset
  | None => wall d
  end.

Fixpoint contains_char (c : ascii) (s : string) : bool :=
  match s with
  | EmptyString => false
  | String a rest => Ascii.eqb a c || contains_char c rest
  end.

(** The value a dict has under a key, as [get] returns it. *)
Definition value_under (d : list (string * pyval)) (k : string) : pyval :=
  match assoc k d with Some v => v | None => PNone end.

(** An exit, apart from the record it may carry. *)
Definition forget_record (x : exit) : exit :=
  match x with
  | Return_customer_data _ => Return_customer_data PNone
  | _ => x
  end.

(** A character that the base64 decoder passes over: ASCII, not a letter
    of either alphabet and not the pad character. *)
Definition skipped (c : ascii) : bool :=
  let b := byte_of_ascii c in
  (Byte.to_N b <? 128)%N
  && negb (Byte.eqb (Base64.translate b) "=")
  && match Base64.table_a2b (Base64.translate b) with Some _ => false | None => true end.

Fixpoint all_chars (p : ascii -> bool) (s : string) : bool :=
  match s with
  | EmptyString => true
  | String c rest => p c && all_chars p rest
  end.

(** Further examples. *)
Module MoreExamples.


(** A signed token whose ciphertext is five bytes long. *)
Definition partial_block : string :=
  let encrypted_data := Example.iv ++ bytes_of_string "12345" in
  Example.with_padding
    (Base64url.encode
       (encrypted_data
        ++ HMAC.hmac_sha256 (signature_key Example.secret) encrypted_data)).

(** A token that is a signature and nothing else: the HMAC of no bytes. *)
Definition signature_only : string :=
  Example.with_padding
    (Base64url.encode (HMAC.hmac_sha256 (signature_key Example.secret) [])).

(** The clock text of the examples: every reading is written as the time
    of validation. *)
Definition clock_text (t : Z) : string := "2026-01-01T12:05:00".

End MoreExamples.

(** The cookies of a request that sends back the cookie a response has set. *)
Definition cookies_of (c : cookie) : list (string * string) := [(key c, value c)].


(** * Properties *)

(** ** Known answers of the library models *)

Example sha256_abc :
  hex (SHA256.sha256 (bytes_of_string "abc"))
  = "ba7816bf8f01cfea414140de5dae2223b00361a396177a9cb410ff61f20015ad".
Proof. vm_compute. reflexivity. Qed.

Example hmac_sha256_rfc4231_case1 :
  hex (HMAC.hmac_sha256 (repeat x0b 20) (bytes_of_string "Hi There"))
  = "b0344c61d8db38535ca8afceaf0bf12b881dc200c9833da726e9376c2e32cff7".
Proof. vm_compute. reflexivity. Qed.

Example aes128_fips197_appendix_c :
  hex (AES.encrypt_block (map (fun n => byte_of_N (N.of_nat n)) (seq 0 16))
                         (map (fun n => byte_of_N (N.of_nat (17 * n))) (seq 0 16)))
  = "69c4e0d86a7b0430d8cdb78070b4c55a".
Proof. vm_compute. reflexivity. Qed.

Example b64decode_unpadded : Base64.urlsafe_b64decode "YQ" = inl (BinasciiError "Incorrect padding").
Proof. reflexivity. Qed.

Example b64decode_padded : Base64.urlsafe_b64decode "YQ==" = inr (bytes_of_string "a").
Proof. reflexivity. Qed.

Example b64decode_skips_other_characters :
  Base64.urlsafe_b64decode "YW!Jj" = inr (bytes_of_string "abc").
Proof. reflexivity. Qed.

Example b64decode_urlsafe_letters : Base64.urlsafe_b64decode "-_8=" = inr [xfb; xff].
Proof. reflexivity. Qed.

(** ** Sequences and the effect monad *)

Lemma bind_lift_inr {A B} (x : A) (k : A -> M B) : bind (lift (inr x)) k = k x.
Proof. unfold bind, lift. destruct (k x) as [l r]. reflexivity. Qed.

Lemma bind_lift_inl {A B} (e : exn) (k : A -> M B) : bind (lift (inl e)) k = ([], inl e).
Proof. reflexivity. Qed.

Lemma bind_ret {A B} (x : A) (k : A -> M B) : bind (ret x) k = k x.
Proof. apply bind_lift_inr. Qed.

Lemma bind_emit {B} (ev : event) (k : unit -> M B) :
  bind (emit ev) k = (ev :: fst (k tt), snd (k tt)).
Proof. unfold bind, emit. destruct (k tt) as [l r]. reflexivity. Qed.

Lemma bytes_eqb_eq (x y : bytes) : bytes_eqb x y = true <-> x = y.
Proof.
  unfold bytes_eqb. destruct (list_eq_dec Byte.byte_eq_dec x y); split; congruence.
Qed.

Lemma bytes_eqb_neq (x y : bytes) : bytes_eqb x y = false <-> x <> y.
Proof.
  unfold bytes_eqb. destruct (list_eq_dec Byte.byte_eq_dec x y); split; congruence.
Qed.

Lemma slice_prefix {A} (l : list A) (n : nat) :
  py_slice l None (Some (Z.of_nat n)) = firstn n l.
Proof.
  unfold py_slice, slice_index.
  destruct (Z.ltb_spec (Z.of_nat n) 0); [lia|].
  rewrite Z.sub_0_r. simpl skipn.
  destruct (Z.min_spec (Z.of_nat n) (Z.of_nat (List.length l))) as [[Hlt ->]|[Hge ->]].
  - now rewrite Nat2Z.id.
  - rewrite Nat2Z.id. rewrite firstn_all. symmetry. apply firstn_all2. lia.
Qed.

Lemma slice_suffix {A} (l : list A) (n : nat) :
  py_slice l (Some (Z.of_nat n)) None = skipn n l.
Proof.
  unfold py_slice, slice_index.
  destruct (Z.ltb_spec (Z.of_nat n) 0); [lia|].
  destruct (Z.min_spec (Z.of_nat n) (Z.of_nat (List.length l))) as [[Hlt ->]|[Hge ->]].
  - rewrite Nat2Z.id. apply firstn_all2. rewrite length_skipn. lia.
  - rewrite Nat2Z.id, skipn_all, firstn_nil. symmetry. apply skipn_all2. lia.
Qed.

(** [l[-n:]] and [l[:-n]] split [l] before its last [n] elements, or before
    its first element when it has fewer. *)
Lemma slice_last {A} (l : list A) (n : nat) :
  (0 < n)%nat ->
  py_slice l (Some (- Z.of_nat n)) None = skipn (List.length l - n) l.
Proof.
  intros Hn. unfold py_slice, slice_index.
  destruct (Z.ltb_spec (- Z.of_nat n) 0); [|lia].
  destruct (Z.max_spec (- Z.of_nat n + Z.of_nat (List.length l)) 0) as [[Hlt ->]|[Hge ->]].
  - simpl skipn. replace (List.length l - n)%nat with 0%nat by lia. simpl.
    apply firstn_all2. lia.
  - replace (Z.to_nat (- Z.of_nat n + Z.of_nat (List.length l))) with (List.length l - n)%nat by lia.
    apply firstn_all2. rewrite length_skipn. lia.
Qed.

Lemma slice_but_last {A} (l : list A) (n : nat) :
  (0 < n)%nat ->
  py_slice l None (Some (- Z.of_nat n)) = firstn (List.length l - n) l.
Proof.
  intros Hn. unfold py_slice, slice_index.
  destruct (Z.ltb_spec (- Z.of_nat n) 0); [|lia].
  simpl skipn. rewrite Z.sub_0_r.
  destruct (Z.max_spec (- Z.of_nat n + Z.of_nat (List.length l)) 0) as [[Hlt ->]|[Hge ->]].
  - replace (List.length l - n)%nat with 0%nat by lia. reflexivity.
  - f_equal. lia.
Qed.

(** ** Key derivation *)

Lemma sha256_length (m : bytes) : List.length (SHA256.sha256 m) = 32%nat.
Proof.
  unfold SHA256.sha256, SHA256.digest_of. rewrite !length_app. reflexivity.
Qed.

Lemma encryption_key_firstn (secret : string) :
  encryption_key secret = firstn 16 (key_material secret).
Proof. apply (slice_prefix _ 16). Qed.

Lemma slice_range {A} (l : list A) (a b : nat) :
  (a <= b <= List.length l)%nat ->
  py_slice l (Some (Z.of_nat a)) (Some (Z.of_nat b)) = firstn (b - a) (skipn a l).
Proof.
  intros Hab. unfold py_slice, slice_index.
  destruct (Z.ltb_spec (Z.of_nat a) 0); [lia|].
  destruct (Z.ltb_spec (Z.of_nat b) 0); [lia|].
  rewrite !Z.min_l by lia. rewrite Nat2Z.id. f_equal. lia.
Qed.

Lemma signature_key_skipn (secret : string) :
  signature_key secret = skipn 16 (key_material secret).
Proof.
  unfold signature_key.
  rewrite (slice_range _ 16 32) by (unfold key_material; rewrite sha256_length; lia).
  apply firstn_all2. rewrite length_skipn. unfold key_material. rewrite sha256_length. lia.
Qed.

Lemma encryption_key_length (secret : string) :
  List.length (encryption_key secret) = 16%nat.
Proof.
  rewrite encryption_key_firstn, length_firstn.
  unfold key_material. rewrite sha256_length. reflexivity.
Qed.

Lemma signature_key_length (secret : string) :
  List.length (signature_key secret) = 16%nat.
Proof.
  rewrite signature_key_skipn, length_skipn.
  unfold key_material. rewrite sha256_length. reflexivity.
Qed.

(** C3, as the code has it: one SHA-256 digest of the secret is cut into
    two halves, bytes [0:16] the encryption key and bytes [16:32] the signing
    key; both keys are 16 bytes long and together they are the digest. *)
Theorem C3_key_derivation_splits_digest (secret : string) :
  key_material secret = SHA256.sha256 (bytes_of_string secret)
  /\ List.length (key_material secret) = 32%nat
  /\ encryption_key secret = firstn 16 (key_material secret)
  /\ signature_key secret = firstn 16 (skipn 16 (key_material secret))
  /\ List.length (encryption_key secret) = 16%nat
  /\ List.length (signature_key secret) = 16%nat
  /\ key_material secret = encryption_key secret ++ signature_key secret.
Proof.
  assert (Hlen : List.length (key_material secret) = 32%nat)
    by (unfold key_material; apply sha256_length).
  split; [reflexivity|]. split; [exact Hlen|].
  split; [apply encryption_key_firstn|].
  split.
  { rewrite signature_key_skipn. symmetry. apply firstn_all2.
    rewrite length_skipn. lia. }
  split; [apply encryption_key_length|].
  split; [apply signature_key_length|].
  rewrite encryption_key_firstn, signature_key_skipn. symmetry. apply firstn_skipn.
Qed.

(** C3, as the spec types the contract: the signing key of the secret
    "test-secret" is not 32 bytes long. *)
Lemma C3_signing_key_not_32_bytes :
  List.length (signature_key "test-secret") <> 32%nat.
Proof. rewrite signature_key_length. discriminate. Qed.

(** ** The validator, stage by stage *)

Section Validator.

Variable secret : string.
Variable json_loads : string -> result pyval.
Variable fromisoformat : string -> result datetime.
Variable utcnow : Z.

Hypothesis secret_set : secret <> EmptyString.

Let validate := validate_shopify_sso_token secret json_loads fromisoformat utcnow.

Lemma validate_unfold (token : string) :
  validate token =
  match validate_body secret json_loads fromisoformat utcnow token with
  | (log, inr x) => (log, x)
  | (log, inl e) => (log ++ [Print "Token validation error: " e], Return_None_on_exception e)
  end.
Proof.
  unfold validate, validate_shopify_sso_token.
  destruct (String.eqb_spec secret EmptyString) as [E|_]; [contradiction|reflexivity].
Qed.

Lemma trailing_block_skipn (td : bytes) :
  trailing_block td = skipn (List.length td - 32) td.
Proof. apply (slice_last td 32). lia. Qed.

Lemma signed_payload_firstn (td : bytes) :
  signed_payload td = firstn (List.length td - 32) td.
Proof. apply (slice_but_last td 32). lia. Qed.

Lemma decrypt_token_mismatch (token : string) (td : bytes) :
  Base64.urlsafe_b64decode token = inr td ->
  trailing_block td <> HMAC.hmac_sha256 (signature_key secret) (signed_payload td) ->
  decrypt_token secret json_loads token = ([], inr None).
Proof.
  intros Hdec Hne. unfold decrypt_token. rewrite Hdec, bind_lift_inr. cbv zeta.
  unfold HMAC.compare_digest.
  apply bytes_eqb_neq in Hne. unfold trailing_block, signed_payload in Hne.
  rewrite Hne. reflexivity.
Qed.

Lemma validate_mismatch (token : string) (td : bytes) :
  Base64.urlsafe_b64decode token = inr td ->
  trailing_block td <> HMAC.hmac_sha256 (signature_key secret) (signed_payload td) ->
  validate token = ([], Return_None_bad_signature).
Proof.
  intros Hdec Hne. rewrite validate_unfold. unfold validate_body.
  rewrite (decrypt_token_mismatch token td Hdec Hne). reflexivity.
Qed.

End Validator.

(** ** Bit flips *)

Ltac bits x :=
  rewrite <- (Byte.of_bits_to_bits x);
  let t := fresh "t" in
  set (t := Byte.to_bits x); clearbody t;
  destruct t as [? [? [? [? [? [? [? ?]]]]]]].

Lemma bxor_bit_changes (b : byte) (bit : nat) :
  (bit < 8)%nat -> AES.bxor b (byte_of_N (2 ^ N.of_nat bit)) <> b.
Proof.
  intros Hbit.
  do 8 (destruct bit as [|bit]; [destruct b; vm_compute; discriminate|]).
  lia.
Qed.

Lemma flip_bit_changes (bs : bytes) (pos bit : nat) :
  (pos < List.length bs)%nat -> (bit < 8)%nat -> flip_bit bs pos bit <> bs.
Proof.
  intros Hpos Hbit E. unfold flip_bit in E.
  rewrite <- (firstn_skipn pos bs) in E at 3.
  apply app_inv_head in E.
  destruct (skipn pos bs) as [|b rest] eqn:Hs.
  - apply (f_equal (@List.length byte)) in Hs. rewrite length_skipn in Hs. simpl in Hs. lia.
  - injection E as E. exact (bxor_bit_changes b bit Hbit E).
Qed.

Lemma flip_bit_length (bs : bytes) (pos bit : nat) :
  List.length (flip_bit bs pos bit) = List.length bs.
Proof.
  unfold flip_bit. rewrite <- (firstn_skipn pos bs) at 3. rewrite !length_app. f_equal.
  destruct (skipn pos bs); reflexivity.
Qed.

Lemma flip_bit_firstn (bs : bytes) (pos bit n : nat) :
  (n <= pos)%nat -> firstn n (flip_bit bs pos bit) = firstn n bs.
Proof.
  intros Hn. destruct (Nat.le_gt_cases (List.length bs) pos) as [Hlen|Hlen].
  - unfold flip_bit. rewrite (skipn_all2 bs Hlen), app_nil_r, (firstn_all2 bs Hlen). reflexivity.
  - unfold flip_bit. rewrite firstn_app, length_firstn.
    replace (n - Nat.min pos (List.length bs))%nat with 0%nat by lia.
    rewrite firstn_O, app_nil_r, firstn_firstn. f_equal. lia.
Qed.

Lemma flip_bit_skipn (bs : bytes) (pos bit n : nat) :
  (pos < n)%nat -> skipn n (flip_bit bs pos bit) = skipn n bs.
Proof.
  intros Hn. destruct (Nat.le_gt_cases (List.length bs) pos) as [Hlen|Hlen].
  - unfold flip_bit. rewrite (skipn_all2 bs Hlen), app_nil_r, (firstn_all2 bs Hlen). reflexivity.
  - unfold flip_bit. rewrite <- (firstn_skipn pos bs) at 3.
    rewrite !skipn_app, length_firstn.
    replace (Nat.min pos (List.length bs)) with pos by lia.
    f_equal. destruct (skipn pos bs) as [|b rest]; [reflexivity|].
    replace (n - pos)%nat with (Datatypes.S (n - pos - 1)) by lia. reflexivity.
Qed.

Lemma hmac_length (key msg : bytes) : List.length (HMAC.hmac_sha256 key msg) = 32%nat.
Proof. unfold HMAC.hmac_sha256. apply sha256_length. Qed.

(** C1: a token whose trailing block is not the HMAC-SHA256 of the bytes
    before it is refused at the signature check, and the call ends there: no
    cipher is built and nothing is logged. Consequently, in a token whose
    signature verifies, inverting a bit of the signature makes the check fail,
    and inverting a bit before the signature makes it fail unless the altered
    bytes have the same HMAC as the original ones. *)
Theorem C1_signature_checked_before_decryption
  (secret : string) (json_loads : string -> result pyval)
  (fromisoformat : string -> result datetime) (utcnow : Z)
  (token : string) (token_data : bytes) :
  secret <> EmptyString ->
  Base64.urlsafe_b64decode token = inr token_data ->
  let validate := validate_shopify_sso_token secret json_loads fromisoformat utcnow in
  let mac := HMAC.hmac_sha256 (signature_key secret) in
  (trailing_block token_data <> mac (signed_payload token_data) ->
   validate token = ([], Return_None_bad_signature)
   /\ error_kind (snd (validate token)) = Some BadSignature
   /\ ~ In Cipher_decryptor (fst (validate token)))
  /\
  (trailing_block token_data = mac (signed_payload token_data) ->
   forall (pos bit : nat) (token' : string),
     (pos < List.length token_data)%nat -> (bit < 8)%nat ->
     Base64.urlsafe_b64decode token' = inr (flip_bit token_data pos bit) ->
     ((List.length token_data - 32 <= pos)%nat ->
      validate token' = ([], Return_None_bad_signature))
     /\
     ((pos < List.length token_data - 32)%nat ->
      validate token' = ([], Return_None_bad_signature)
      \/ (signed_payload (flip_bit token_data pos bit) <> signed_payload token_data
          /\ mac (signed_payload (flip_bit token_data pos bit)) = mac (signed_payload token_data)))).
Proof.
  intros Hsecret Hdec validate mac. split.
  - intros Hne.
    assert (E : validate token = ([], Return_None_bad_signature))
      by (apply (validate_mismatch secret json_loads fromisoformat utcnow Hsecret token token_data);
          assumption).
    rewrite E. repeat split. simpl. tauto.
  - intros Hsig pos bit token' Hpos Hbit Hdec'.
    set (td' := flip_bit token_data pos bit) in *.
    assert (Hlen' : List.length td' = List.length token_data) by apply flip_bit_length.
    assert (Hdiff : td' <> token_data) by (apply flip_bit_changes; assumption).
    split.
    + intros Hregion.
      apply (validate_mismatch secret json_loads fromisoformat utcnow Hsecret token' td' Hdec').
      assert (Hpay : signed_payload td' = signed_payload token_data).
      { rewrite !signed_payload_firstn, Hlen'. apply flip_bit_firstn. exact Hregion. }
      rewrite Hpay. fold mac. rewrite <- Hsig. intros E. apply Hdiff.
      rewrite <- (firstn_skipn (List.length token_data - 32) td').
      rewrite <- (firstn_skipn (List.length token_data - 32) token_data) at 3.
      rewrite !trailing_block_skipn, Hlen' in E. rewrite E. f_equal.
      rewrite !signed_payload_firstn, Hlen' in Hpay. exact Hpay.
    + intros Hregion.
      assert (Htrail : trailing_block td' = trailing_block token_data).
      { rewrite !trailing_block_skipn, Hlen'. apply flip_bit_skipn. exact Hregion. }
      assert (Hpay : signed_payload td' <> signed_payload token_data).
      { intros E. apply Hdiff.
        rewrite <- (firstn_skipn (List.length token_data - 32) td').
        rewrite <- (firstn_skipn (List.length token_data - 32) token_data) at 3.
        rewrite !trailing_block_skipn, Hlen' in Htrail. rewrite Htrail. f_equal.
        rewrite !signed_payload_firstn, Hlen' in E. exact E. }
      destruct (list_eq_dec Byte.byte_eq_dec (mac (signed_payload td')) (mac (signed_payload token_data)))
        as [Hcol|Hno].
      * right. split; assumption.
      * left.
        apply (validate_mismatch secret json_loads fromisoformat utcnow Hsecret token' td' Hdec').
        rewrite Htrail, Hsig. fold mac. congruence.
Qed.

Lemma C1_witness :
  Example.validate
    (Example.with_padding
       (Base64url.encode
          (flip_bit (seal Example.secret Example.iv
                       (bytes_of_string (JSON.text Example.fresh))) 100 3)))
  = ([], Return_None_bad_signature).
Proof.
  refine (proj1 (proj2 (C1_signature_checked_before_decryption
    Example.secret JSON.loads ISO8601.fromisoformat Example.now
    (Example.token_of Example.fresh)
    (seal Example.secret Example.iv (bytes_of_string (JSON.text Example.fresh))) _ _)
    _ 100%nat 3%nat _ _ _ _) _).
  - discriminate.
  - vm_compute. reflexivity.
  - vm_compute. reflexivity.
  - vm_compute. lia.
  - lia.
  - vm_compute. reflexivity.
  - vm_compute. lia.
Defined.

(** ** After the signature check *)

Lemma AES_key_ok (key : bytes) : List.length key = 16%nat -> Cipher.AES_key key = inr key.
Proof. intros H. unfold Cipher.AES_key. rewrite H. reflexivity. Qed.

Lemma cipher_new (secret : string) (iv : bytes) :
  Cipher.new (encryption_key secret) iv =
  if Nat.eqb (List.length iv) 16
  then inr {| Cipher.cipher_key := encryption_key secret; Cipher.cipher_iv := iv |}
  else inl (ValueError ("Invalid IV size (" ++ decimal (List.length iv) ++ ") for CBC.")).
Proof.
  unfold Cipher.new. rewrite (AES_key_ok _ (encryption_key_length secret)).
  unfold Cipher.CBC_iv. destruct (Nat.eqb (List.length iv) 16); reflexivity.
Qed.

(** Line 64 raises for every context and every ciphertext. *)
Lemma update_plus_final_raises (c : Cipher.t) (ciphertext : bytes) :
  Cipher.update_plus_final c ciphertext = inl (AttributeError "final").
Proof. reflexivity. Qed.

Lemma decrypt_token_verified (secret : string) (json_loads : string -> result pyval)
  (token : string) (td : bytes) :
  verifies secret token td ->
  decrypt_token secret json_loads token =
  if Nat.ltb (List.length (signed_payload td)) 16
  then ([], inl (ValueError ("Invalid IV size (" ++ decimal (List.length (signed_payload td))
                             ++ ") for CBC.")))
  else ([Cipher_decryptor], inl (AttributeError "final")).
Proof.
  intros [Hdec Hsig]. unfold decrypt_token. rewrite Hdec, bind_lift_inr. cbv zeta.
  unfold HMAC.compare_digest.
  apply bytes_eqb_eq in Hsig. unfold trailing_block, signed_payload in Hsig. rewrite Hsig.
  cbn [negb]. fold (signed_payload td). set (ed := signed_payload td).
  rewrite (slice_prefix ed 16 : py_slice ed None (Some 16) = _).
  rewrite cipher_new, length_firstn.
  destruct (Nat.ltb_spec (List.length ed) 16) as [Hshort|Hlong].
  - replace (Nat.eqb (Nat.min 16 (List.length ed)) 16) with false
      by (symmetry; apply Nat.eqb_neq; lia).
    rewrite bind_lift_inl. replace (Nat.min 16 (List.length ed)) with (List.length ed) by lia.
    reflexivity.
  - replace (Nat.eqb (Nat.min 16 (List.length ed)) 16) with true
      by (symmetry; apply Nat.eqb_eq; lia).
    rewrite bind_lift_inr, bind_emit, update_plus_final_raises, bind_lift_inl. reflexivity.
Qed.

Lemma decrypt_token_cases (secret : string) (json_loads : string -> result pyval)
  (token : string) :
  decrypt_token secret json_loads token =
  match Base64.urlsafe_b64decode token with
  | inl e => ([], inl e)
  | inr td =>
      if bytes_eqb (trailing_block td)
                   (HMAC.hmac_sha256 (signature_key secret) (signed_payload td))
      then if Nat.ltb (List.length (signed_payload td)) 16
           then ([], inl (ValueError ("Invalid IV size ("
                                      ++ decimal (List.length (signed_payload td))
                                      ++ ") for CBC.")))
           else ([Cipher_decryptor], inl (AttributeError "final"))
      else ([], inr None)
  end.
Proof.
  destruct (Base64.urlsafe_b64decode token) as [e|td] eqn:Hdec.
  - unfold decrypt_token. rewrite Hdec. reflexivity.
  - destruct (bytes_eqb _ _) eqn:Hsig.
    + apply bytes_eqb_eq in Hsig. apply (decrypt_token_verified secret json_loads token td).
      split; assumption.
    + unfold decrypt_token. rewrite Hdec, bind_lift_inr. cbv zeta.
      unfold HMAC.compare_digest. unfold trailing_block, signed_payload in Hsig.
      rewrite Hsig. reflexivity.
Qed.

(** The validator, as a function of the decoded bytes. No path leads past
    line 64. *)
Lemma validate_cases (secret : string) (json_loads : string -> result pyval)
  (fromisoformat : string -> result datetime) (utcnow : Z) (token : string) :
  secret <> EmptyString ->
  validate_shopify_sso_token secret json_loads fromisoformat utcnow token =
  match Base64.urlsafe_b64decode token with
  | inl e => finish [] (inl e)
  | inr td =>
      if bytes_eqb (trailing_block td)
                   (HMAC.hmac_sha256 (signature_key secret) (signed_payload td))
      then refusal td
      else ([], Return_None_bad_signature)
  end.
Proof.
  intros Hsecret.
  rewrite (validate_unfold secret json_loads fromisoformat utcnow Hsecret).
  unfold validate_body. rewrite decrypt_token_cases.
  destruct (Base64.urlsafe_b64decode token) as [e|td]; [reflexivity|].
  destruct (bytes_eqb _ _); [|reflexivity].
  unfold refusal. destruct (Nat.ltb (List.length (signed_payload td)) 16); reflexivity.
Qed.

Lemma validate_verified (secret : string) (json_loads : string -> result pyval)
  (fromisoformat : string -> result datetime) (utcnow : Z) (token : string) (td : bytes) :
  secret <> EmptyString ->
  verifies secret token td ->
  validate_shopify_sso_token secret json_loads fromisoformat utcnow token = refusal td.
Proof.
  intros Hsecret [Hdec Hsig].
  rewrite (validate_cases secret json_loads fromisoformat utcnow token Hsecret), Hdec.
  apply bytes_eqb_eq in Hsig. rewrite Hsig. reflexivity.
Qed.

(** The exits that a call can reach: the three returns after line 70 are
    not among them. *)
Lemma validate_exits (secret : string) (json_loads : string -> result pyval)
  (fromisoformat : string -> result datetime) (utcnow : Z) (token : string) :
  let x := snd (validate_shopify_sso_token secret json_loads fromisoformat utcnow token) in
  (exists msg, x = Raise_ValueError msg)
  \/ x = Return_None_bad_signature
  \/ (exists e, x = Return_None_on_exception e).
Proof.
  cbv zeta. destruct (String.eqb_spec secret EmptyString) as [->|Hsecret].
  - left. eexists. reflexivity.
  - right. rewrite (validate_cases secret json_loads fromisoformat utcnow token Hsecret).
    destruct (Base64.urlsafe_b64decode token) as [e|td]; [right; eexists; reflexivity|].
    destruct (bytes_eqb _ _); [|left; reflexivity].
    right. unfold refusal. destruct (Nat.ltb _ 16); eexists; reflexivity.
Qed.

Lemma refusal_returns_None (td : bytes) : returned (snd (refusal td)) = inr None.
Proof. unfold refusal. destruct (Nat.ltb _ 16); reflexivity. Qed.

Lemma sealed_length (td : bytes) :
  (48 <= List.length td)%nat ->
  refusal td = finish [Cipher_decryptor] (inl (AttributeError "final")).
Proof.
  intros Hlen. unfold refusal. rewrite signed_payload_firstn, length_firstn.
  replace (Nat.ltb (Nat.min (List.length td - 32) (List.length td)) 16) with false
    by (symmetry; apply Nat.ltb_ge; lia).
  reflexivity.
Qed.

(** ** The freshness check of lines 72-84, taken alone *)

(** The timedelta of line 79 is the difference of the two field readings,
    whatever offset the parsed timestamp carries. *)
Lemma age_ignores_offset (utcnow : Z) (created_at : datetime) :
  datetime_sub (replace_tzinfo {| wall := utcnow; tzinfo := None |} (tzinfo created_at)) created_at
  = inr (utcnow - wall created_at).
Proof.
  unfold datetime_sub, replace_tzinfo. simpl.
  destruct (tzinfo created_at) as [offset|]; f_equal; lia.
Qed.

Lemma diff_minutes_gt_15 (td : Z) :
  Qgt_bool (total_seconds td / 60) TOKEN_EXPIRY_MINUTES = (900000000 <? td).
Proof.
  change (negb (td * 1 * 1 <=? 900000000) = (900000000 <? td)).
  destruct (Z.leb_spec (td * 1 * 1) 900000000), (Z.ltb_spec 900000000 td);
    cbn [negb]; try reflexivity; lia.
Qed.

Lemma check_expiry_no_timestamp (fromisoformat : string -> result datetime) (utcnow : Z)
  (customer_data v : pyval) :
  get_or customer_data "createdAt" "created_at" = inr v ->
  truthy v = false ->
  check_expiry fromisoformat utcnow customer_data = ([], inr Return_None_no_created_at).
Proof.
  intros Hget Hv. unfold check_expiry. rewrite Hget, bind_lift_inr, Hv. reflexivity.
Qed.

Lemma check_expiry_parsed (fromisoformat : string -> result datetime) (utcnow : Z)
  (customer_data : pyval) (s : string) (created_at : datetime) :
  get_or customer_data "createdAt" "created_at" = inr (PStr s) ->
  s <> EmptyString ->
  fromisoformat (replace_char "Z" "+00:00" s) = inr created_at ->
  check_expiry fromisoformat utcnow customer_data =
  ([], inr (if 900000000 <? utcnow - wall created_at
            then Return_None_expired else Return_customer_data customer_data)).
Proof.
  intros Hget Hs Hiso. unfold check_expiry. rewrite Hget, bind_lift_inr.
  cbn [truthy]. destruct (String.eqb_spec s EmptyString) as [E|_]; [contradiction|].
  cbn [negb py_replace]. rewrite bind_lift_inr, Hiso, bind_lift_inr, age_ignores_offset,
    bind_lift_inr.
  cbv zeta. rewrite diff_minutes_gt_15.
  destruct (900000000 <? utcnow - wall created_at); reflexivity.
Qed.

(** Every non-empty token that the validator refuses without raising is
    answered by the route at line 35; the store is not asked. *)
Lemma callback_refused {S : Type} {sessions_client : Supabase S}
  {users_client : SupabaseUsers S}
  (secret : string) (json_loads : string -> result pyval)
  (fromisoformat : string -> result datetime) (isoformat : Z -> string)
  (at_validation at_update at_create at_expiry at_session : Z) (session_token : string)
  (db : S) (token return_to : string) (log : list event) (x : exit) :
  token <> EmptyString ->
  validate_shopify_sso_token secret json_loads fromisoformat at_validation token = (log, x) ->
  returned x = inr None ->
  shopify_callback secret json_loads fromisoformat isoformat
    at_validation at_update at_create at_expiry at_session session_token db token return_to
  = (log, db, redirect "/login?error=invalid_token").
Proof.
  intros Hne Hval Hnone. unfold shopify_callback.
  replace (String.eqb token EmptyString) with false
    by (symmetry; apply String.eqb_neq; exact Hne).
  rewrite Hval, Hnone. reflexivity.
Qed.

(** A token of the worked examples, sealed as the spec prescribes, verifies
    and carries a whole IV: the call for it ends at line 64. *)
Ltac ends_at_line_64 json :=
  rewrite (validate_verified Example.secret _ _ _ _
             (seal Example.secret Example.iv (bytes_of_string (JSON.text json))));
  [apply sealed_length; vm_compute; lia
  |discriminate
  |split; vm_compute; reflexivity].
(** ** Short tokens *)

(** C9, as the code has it: a token that decodes to fewer than 49 bytes is
    never accepted, but there is no length check of its own. The call ends at
    the signature check when the trailing block is not the HMAC of the bytes
    before it. When it is, the call ends in the exception handler: with fewer
    than 16 bytes before the signature on the ValueError of [Cipher(...)],
    raised for the short IV before a decryptor exists, and with exactly 16 at
    line 64, once the decryptor is built. *)
Theorem C9_short_token_is_refused
  (secret : string) (json_loads : string -> result pyval)
  (fromisoformat : string -> result datetime) (utcnow : Z)
  (token : string) (token_data : bytes) :
  secret <> EmptyString ->
  Base64.urlsafe_b64decode token = inr token_data ->
  (List.length token_data < 49)%nat ->
  let out := validate_shopify_sso_token secret json_loads fromisoformat utcnow token in
  let mac := HMAC.hmac_sha256 (signature_key secret) in
  let short_iv :=
    ValueError ("Invalid IV size (" ++ decimal (List.length token_data - 32) ++ ") for CBC.") in
  returned (snd out) = inr None
  /\ ((trailing_block token_data <> mac (signed_payload token_data)
       /\ out = ([], Return_None_bad_signature))
      \/ (trailing_block token_data = mac (signed_payload token_data)
          /\ (32 <= List.length token_data < 48)%nat
          /\ out = ([Print "Token validation error: " short_iv],
                    Return_None_on_exception short_iv))
      \/ (trailing_block token_data = mac (signed_payload token_data)
          /\ List.length token_data = 48%nat
          /\ out = ([Cipher_decryptor; Print "Token validation error: " (AttributeError "final")],
                    Return_None_on_exception (AttributeError "final")))).
Proof.
  intros Hsecret Hdec Hlen out mac short_iv.
  destruct (list_eq_dec Byte.byte_eq_dec (trailing_block token_data)
              (mac (signed_payload token_data))) as [Hsig|Hne].
  - assert (H32 : (32 <= List.length token_data)%nat).
    { pose proof (f_equal (@List.length byte) Hsig) as L.
      unfold mac in L. rewrite hmac_length, trailing_block_skipn, length_skipn in L. lia. }
    assert (Hout : out = refusal token_data).
    { apply validate_verified; [exact Hsecret|split; assumption]. }
    assert (Hn : List.length (signed_payload token_data) = (List.length token_data - 32)%nat).
    { rewrite signed_payload_firstn, length_firstn. lia. }
    rewrite Hout. split; [apply refusal_returns_None|]. right.
    unfold refusal. rewrite Hn.
    destruct (Nat.ltb_spec (List.length token_data - 32) 16) as [Hshort|Hwhole].
    + left. split; [exact Hsig|]. split; [lia|reflexivity].
    + right. split; [exact Hsig|]. split; [lia|reflexivity].
  - assert (Hout : out = ([], Return_None_bad_signature))
      by (apply (validate_mismatch secret json_loads fromisoformat utcnow Hsecret token token_data);
          assumption).
    rewrite Hout. split; [reflexivity|]. left. split; [exact Hne|reflexivity].
Qed.

(** C9, as the spec states it: the transport string "AAAA" decodes to
    three bytes, and the call ends at the signature check, which is the
    BadSignature outcome and not Malformed. *)
Lemma C9_short_token_fails_signature_check :
  Base64.urlsafe_b64decode "AAAA" = inr [x00; x00; x00]
  /\ (List.length [x00; x00; x00] < 49)%nat
  /\ Example.validate "AAAA" = ([], Return_None_bad_signature)
  /\ error_kind (snd (Example.validate "AAAA")) <> Some Malformed.
Proof.
  split; [reflexivity|]. split; [simpl; lia|].
  assert (E : Example.validate "AAAA" = ([], Return_None_bad_signature))
    by (vm_compute; reflexivity).
  rewrite E. split; [reflexivity|]. simpl. discriminate.
Qed.

Lemma C9_witness :
  returned (snd (Example.validate MoreExamples.signature_only)) = inr None.
Proof.
  refine (proj1 (C9_short_token_is_refused Example.secret JSON.loads ISO8601.fromisoformat
                   Example.now MoreExamples.signature_only
                   (HMAC.hmac_sha256 (signature_key Example.secret) []) _ _ _)).
  - discriminate.
  - vm_compute. reflexivity.
  - vm_compute. lia.
Defined.

(** ** Freshness *)

(** C2: the comparison of lines 77-82 is never reached. No call ends with
    the expired return of line 82 or with a record. The token of an assertion
    14:59 old, sealed as the spec prescribes, is refused at line 64, although
    the freshness check, given its record, returns the record; the token of
    one 15:01 old is refused there as well, and not as expired. *)
Theorem C2_fresh_token_is_refused_at_line_64 :
  let refused :=
    ([Cipher_decryptor; Print "Token validation error: " (AttributeError "final")],
     Return_None_on_exception (AttributeError "final")) in
  let record (created_at : string) :=
    PDict [("email", PStr "a@b.com"); ("created_at", PStr created_at)] in
  (forall (secret : string) (json_loads : string -> result pyval)
          (fromisoformat : string -> result datetime) (utcnow : Z) (token : string),
     let x := snd (validate_shopify_sso_token secret json_loads fromisoformat utcnow token) in
     x <> Return_None_expired /\ forall customer_data, x <> Return_customer_data customer_data)
  /\ (forall (json_loads : string -> result pyval) (fromisoformat : string -> result datetime),
        validate_shopify_sso_token Example.secret json_loads fromisoformat Example.now
          (Example.token_of Example.aged_14_59) = refused
        /\ validate_shopify_sso_token Example.secret json_loads fromisoformat Example.now
             (Example.token_of Example.aged_15_01) = refused)
  /\ check_expiry ISO8601.fromisoformat Example.now (record "2026-01-01T11:50:01+00:00")
     = ([], inr (Return_customer_data (record "2026-01-01T11:50:01+00:00")))
  /\ check_expiry ISO8601.fromisoformat Example.now (record "2026-01-01T11:49:59+00:00")
     = ([], inr Return_None_expired).
Proof.
  cbv zeta. split; [|split; [|split]].
  - intros secret json_loads fromisoformat utcnow token.
    destruct (validate_exits secret json_loads fromisoformat utcnow token)
      as [[msg E]|[E|[e E]]]; cbv zeta in E; rewrite E; split; try intros cd; discriminate.
  - intros json_loads fromisoformat. split.
    + ends_at_line_64 Example.aged_14_59.
    + ends_at_line_64 Example.aged_15_01.
  - vm_compute. reflexivity.
  - vm_compute. reflexivity.
Qed.

(** C10: a token whose timestamp has no offset is refused like every other
    one, at line 64, within the window or not. The freshness check itself,
    given the record, compares the two naive values without raising and
    returns the record. *)
Theorem C10_naive_token_is_refused_at_line_64 :
  let record := PDict [("email", PStr "a@b.com"); ("created_at", PStr "2026-01-01T12:00:00")] in
  (forall (json_loads : string -> result pyval) (fromisoformat : string -> result datetime),
     validate_shopify_sso_token Example.secret json_loads fromisoformat Example.now
       (Example.token_of Example.naive)
     = ([Cipher_decryptor; Print "Token validation error: " (AttributeError "final")],
        Return_None_on_exception (AttributeError "final")))
  /\ returned (snd (Example.validate (Example.token_of Example.naive))) = inr None
  /\ ISO8601.fromisoformat "2026-01-01T12:00:00"
     = inr {| wall := Example.now - 5 * 60 * 1000000; tzinfo := None |}
  /\ check_expiry ISO8601.fromisoformat Example.now record
     = ([], inr (Return_customer_data record)).
Proof.
  cbv zeta.
  assert (E : forall json_loads fromisoformat,
             validate_shopify_sso_token Example.secret json_loads fromisoformat Example.now
               (Example.token_of Example.naive)
             = ([Cipher_decryptor; Print "Token validation error: " (AttributeError "final")],
                Return_None_on_exception (AttributeError "final"))).
  { intros json_loads fromisoformat. ends_at_line_64 Example.naive. }
  split; [exact E|]. split; [unfold Example.validate; rewrite E; reflexivity|].
  split; vm_compute; reflexivity.
Qed.
Example signature_only_is_refused_by_the_constructor :
  Example.validate MoreExamples.signature_only
  = ([Print "Token validation error: " (ValueError "Invalid IV size (0) for CBC.")],
     Return_None_on_exception (ValueError "Invalid IV size (0) for CBC.")).
Proof. vm_compute. reflexivity. Qed.

(** ** Required fields *)


(** ** Field names *)


(** ** Sessions *)

Lemma filter_none {A} (p : A -> bool) (l : list A) :
  (forall x, In x l -> p x = false) -> filter p l = [].
Proof.
  induction l as [|x l IH]; intros Hp; [reflexivity|]. simpl.
  rewrite (Hp x (or_introl eq_refl)). apply IH. intros y Hy. apply Hp. right. exact Hy.
Qed.

Lemma filter_twice {A} (p : A -> bool) (l : list A) :
  filter p (filter p l) = filter p l.
Proof.
  induction l as [|x l IH]; [reflexivity|].
  simpl. destruct (p x) eqn:K; simpl; [rewrite K; f_equal; exact IH|exact IH].
Qed.

(** C5, as the code has it: an empty session token is refused before the
    store is asked; a token for which the store returns no row with
    [expires_at > now] is refused; and an exception raised inside the [try]
    is caught, printed, and refused as well, whether it comes from the
    sessions query, from the users query of the fallback (lines 128-133), or
    from a row that lacks what lines 122-131 read. In every case the caller
    receives None. *)
Theorem C5_lookup_failures_return_None {S : Type} {client : Supabase S}
  (db : S) (utcnow : Z) (session_token : string) :
  (session_token = EmptyString ->
   get_user_from_session db utcnow session_token = ([], db, Return_None_no_token))
  /\ (session_token <> EmptyString ->
      forall db' : S,
        sessions_select db session_token utcnow = (db', inr []) ->
        get_user_from_session db utcnow session_token
        = ([Store_request "sessions" "select"], db', Return_None_no_session))
  /\ (session_token <> EmptyString ->
      forall (db' : S) (e : exn),
        sessions_select db session_token utcnow = (db', inl e) ->
        get_user_from_session db utcnow session_token
        = ([Store_request "sessions" "select"; Print "Error getting user from session: " e],
           db', Return_None_on_error e))
  /\ (session_token <> EmptyString ->
      forall (db1 db2 : S) (session : pyval) (others : list pyval) (users id : pyval) (e : exn),
        sessions_select db session_token utcnow = (db1, inr (session :: others)) ->
        py_get session "users" = inr users ->
        embeds_user users = false ->
        py_getitem session "user_id" = inr id ->
        users_select db1 id = (db2, inl e) ->
        get_user_from_session db utcnow session_token
        = ([Store_request "sessions" "select"; Store_request "users" "select";
            Print "Error getting user from session: " e],
           db2, Return_None_on_error e))
  /\ (session_token <> EmptyString ->
      forall (db1 : S) (session : pyval) (others : list pyval) (e : exn),
        sessions_select db session_token utcnow = (db1, inr (session :: others)) ->
        (py_get session "users" = inl e
         \/ exists users, py_get session "users" = inr users
                          /\ embeds_user users = false
                          /\ py_getitem session "user_id" = inl e) ->
        get_user_from_session db utcnow session_token
        = ([Store_request "sessions" "select"; Print "Error getting user from session: " e],
           db1, Return_None_on_error e))
  /\ (forall mdb : MemStore.t,
        session_token <> EmptyString ->
        MemStore.online mdb = true ->
        (forall s, In s (MemStore.sessions mdb) ->
                   MemStore.token s = session_token -> MemStore.expires_at s <= utcnow) ->
        get_user_from_session mdb utcnow session_token
        = ([Store_request "sessions" "select"], mdb, Return_None_no_session))
  /\ returned_user Return_None_no_token = None
  /\ returned_user Return_None_no_session = None
  /\ (forall e : exn, returned_user (Return_None_on_error e) = None).
Proof.
  assert (Hempty : forall (T : Type) (c : Supabase T) (d d' : T),
             session_token <> EmptyString ->
             sessions_select d session_token utcnow = (d', inr []) ->
             get_user_from_session d utcnow session_token
             = ([Store_request "sessions" "select"], d', Return_None_no_session)).
  { intros T c d d' Hne Hsel. unfold get_user_from_session.
    destruct (String.eqb_spec session_token EmptyString) as [E|_]; [contradiction|].
    rewrite Hsel. reflexivity. }
  split; [|split; [|split; [|split; [|split; [|split; [|split; [|split]]]]]]]; try reflexivity.
  - intros ->. reflexivity.
  - intros Hne db' Hsel. apply Hempty; assumption.
  - intros Hne db' e Hsel. unfold get_user_from_session.
    destruct (String.eqb_spec session_token EmptyString) as [E|_]; [contradiction|].
    rewrite Hsel. reflexivity.
  - intros Hne db1 db2 session others users id e Hsel Husers Hembed Hid Hfault.
    unfold get_user_from_session.
    destruct (String.eqb_spec session_token EmptyString) as [E|_]; [contradiction|].
    rewrite Hsel. unfold user_of_rows. rewrite Husers, Hid, Hfault.
    destruct users as [| | | | |[|u us]|u]; try discriminate Hembed; reflexivity.
  - intros Hne db1 session others e Hsel [Husers|[users [Husers [Hembed Hid]]]];
      unfold get_user_from_session;
      (destruct (String.eqb_spec session_token EmptyString) as [E|_]; [contradiction|]);
      rewrite Hsel; unfold user_of_rows; rewrite Husers; [reflexivity|].
    rewrite Hid.
    destruct users as [| | | | |[|u us]|u]; try discriminate Hembed; reflexivity.
  - intros mdb Hne Honline Hexpired. apply Hempty; [exact Hne|].
    cbn [sessions_select MemStore.client]. unfold MemStore.select_sessions, MemStore.request.
    rewrite Honline. cbn [fst snd]. rewrite filter_none; [reflexivity|].
    intros s Hs. destruct (String.eqb_spec (MemStore.token s) session_token) as [E|_];
      [|reflexivity].
    cbn [andb]. apply Z.ltb_ge. apply Hexpired; assumption.
Qed.

Lemma C5_witness :
  get_user_from_session Example.store1 Example.now "unknown"
  = ([Store_request "sessions" "select"], Example.store1, Return_None_no_session).
Proof.
  refine (proj1 (proj2 (C5_lookup_failures_return_None Example.store1 Example.now "unknown"))
            _ Example.store1 _).
  - discriminate.
  - reflexivity.
Defined.

(** C5, as the spec states it: when the store is unreachable, the caller
    of [get_user_from_session] receives None for a token whose session is
    live, which is what it receives for a token that was never issued. *)
Lemma C5_store_fault_returns_None_like_unknown_token :
  returned_user (snd (get_user_from_session Example.store1 Example.now "tok123"))
  = Some Example.user1
  /\ snd (get_user_from_session (Example.disconnected Example.store1) Example.now "tok123")
     = Return_None_on_error MemStore.unavailable
  /\ returned_user
       (snd (get_user_from_session (Example.disconnected Example.store1) Example.now "tok123"))
     = returned_user (snd (get_user_from_session Example.store1 Example.now "unknown")).
Proof. repeat split. Qed.

(** C6, as the code has it: [delete_session] asks the store to delete the
    rows with the token and returns True whenever the request completes,
    whether or not a row existed, and False only when the request raises;
    it never raises itself. On a reachable store a second call returns True
    again, and no session with the token is left after the first. *)
Theorem C6_delete_reports_completion {S : Type} {client : Supabase S}
  (db : S) (session_token : string) (mdb : MemStore.t) :
  (forall (db' : S) (rows : list pyval),
     sessions_delete db session_token = (db', inr rows) ->
     delete_session db session_token = ([Store_request "sessions" "delete"], db', true))
  /\ (forall (db' : S) (e : exn),
        sessions_delete db session_token = (db', inl e) ->
        delete_session db session_token
        = ([Store_request "sessions" "delete"; Print "Error deleting session: " e], db', false))
  /\ (MemStore.online mdb = true ->
      let first := delete_session mdb session_token in
      let second := delete_session (snd (fst first)) session_token in
      snd first = true
      /\ snd second = true
      /\ (forall s, In s (MemStore.sessions (snd (fst first))) ->
                    MemStore.token s <> session_token)
      /\ snd (fst second) = snd (fst first)).
Proof.
  split; [|split].
  - intros db' rows Hdel. unfold delete_session. rewrite Hdel. reflexivity.
  - intros db' e Hdel. unfold delete_session. rewrite Hdel. reflexivity.
  - intros Honline first second.
    assert (Hfirst : first =
              ([Store_request "sessions" "delete"],
               {| MemStore.sessions :=
                    filter (fun s => negb (String.eqb (MemStore.token s) session_token))
                           (MemStore.sessions mdb);
                  MemStore.users := MemStore.users mdb;
                  MemStore.online := MemStore.online mdb |}, true)).
    { unfold first, delete_session. cbn [sessions_delete MemStore.client].
      unfold MemStore.delete_sessions, MemStore.request. rewrite Honline. reflexivity. }
    assert (Hsecond : snd second = true /\ snd (fst second) = snd (fst first)).
    { unfold second. rewrite Hfirst. cbn [fst snd]. unfold delete_session.
      cbn [sessions_delete MemStore.client].
      unfold MemStore.delete_sessions, MemStore.request. cbn [MemStore.online].
      rewrite Honline. cbn [fst snd MemStore.sessions MemStore.users MemStore.online].
      split; [reflexivity|]. f_equal. apply filter_twice. }
    destruct Hsecond as [H2 H3].
    split; [rewrite Hfirst; reflexivity|]. split; [exact H2|]. split; [|exact H3].
    rewrite Hfirst. cbn [fst snd MemStore.sessions]. intros s Hs E.
    apply filter_In in Hs. destruct Hs as [_ Hs]. rewrite E, String.eqb_refl in Hs.
    discriminate Hs.
Qed.

Lemma C6_witness :
  snd (delete_session Example.store1 "tok123") = true
  /\ snd (delete_session (snd (fst (delete_session Example.store1 "tok123"))) "tok123") = true.
Proof.
  pose proof (proj2 (proj2 (C6_delete_reports_completion Example.store1 "tok123" Example.store1))
                eq_refl) as W.
  cbv zeta in W. destruct W as [W1 [W2 _]]. split; assumption.
Defined.

(** C6, as the spec states it: revoking an issued token twice returns True
    both times, not True and then False, and revoking a token that was never
    issued returns True as well, not False. *)
Lemma C6_second_revoke_returns_True :
  (exists s, In s (MemStore.sessions Example.store1) /\ MemStore.token s = "tok123")
  /\ (let first := delete_session Example.store1 "tok123" in
      let second := delete_session (snd (fst first)) "tok123" in
      (snd first, snd second) = (true, true) /\ (snd first, snd second) <> (true, false))
  /\ (forall s, In s (MemStore.sessions Example.store1) -> MemStore.token s <> "never-issued")
  /\ (let first := delete_session Example.store1 "never-issued" in
      let second := delete_session (snd (fst first)) "never-issued" in
      (snd first, snd second) = (true, true) /\ (snd first, snd second) <> (false, false)).
Proof.
  split.
  { eexists. split; [left; reflexivity|reflexivity]. }
  split; [cbv zeta; split; [reflexivity|discriminate]|].
  split.
  { intros s [<-|[]]. discriminate. }
  cbv zeta. split; [reflexivity|discriminate].
Qed.

(** ** base64: decoding what the encoder wrote *)

Lemma byte_in_all (b : byte) : In b AES.all_bytes.
Proof.
  assert (E : nth (Byte.to_nat b) AES.all_bytes x00 = b) by (destruct b; reflexivity).
  rewrite <- E. apply nth_In.
  pose proof (Byte.to_nat_bounded b). change (List.length AES.all_bytes) with 256%nat. lia.
Qed.

Lemma for_all_bytes (P : byte -> bool) :
  forallb P AES.all_bytes = true -> forall b, P b = true.
Proof. intros H b. exact (proj1 (forallb_forall P AES.all_bytes) H b (byte_in_all b)). Qed.

Lemma for_all_byte_pairs (P : byte -> byte -> bool) :
  forallb (fun x => forallb (P x) AES.all_bytes) AES.all_bytes = true ->
  forall x y, P x y = true.
Proof.
  intros H x y. apply for_all_bytes.
  exact (for_all_bytes (fun x => forallb (P x) AES.all_bytes) H x).
Qed.

Lemma alphabet_ok (n : N) : (n < 64)%N -> alphabet_char_ok n = true.
Proof.
  intros Hn.
  assert (H : forallb (fun k => alphabet_char_ok (N.of_nat k)) (seq 0 64) = true)
    by (vm_compute; reflexivity).
  rewrite <- (N2Nat.id n). apply (proj1 (forallb_forall _ _) H). apply in_seq. lia.
Qed.

Lemma sextets_all_ok (x y : byte) : sextets_ok x y = true.
Proof. apply for_all_byte_pairs. vm_compute. reflexivity. Qed.

Lemma a2b_step (n : N) (rest : bytes) (quad_pos : nat) (leftchar : N) (pads : nat) (out : bytes) :
  (n < 64)%N ->
  Base64.a2b_loop (Base64.translate (Base64url.b2a n) :: rest) quad_pos leftchar pads out =
  match quad_pos with
  | 0%nat => Base64.a2b_loop rest 1 n 0 out
  | 1%nat => Base64.a2b_loop rest 2 (N.land n 15) 0
               (out ++ [byte_of_N (N.lor (N.shiftl leftchar 2) (N.shiftr n 4))])
  | 2%nat => Base64.a2b_loop rest 3 (N.land n 3) 0
               (out ++ [byte_of_N (N.lor (N.shiftl leftchar 4) (N.shiftr n 2))])
  | _ => Base64.a2b_loop rest 0 0 0 (out ++ [byte_of_N (N.lor (N.shiftl leftchar 6) n)])
  end.
Proof.
  intros Hn. pose proof (alphabet_ok n Hn) as Hok. unfold alphabet_char_ok in Hok.
  apply andb_prop in Hok. destruct Hok as [Hok Htab].
  apply andb_prop in Hok. destruct Hok as [_ Hpad].
  cbn [Base64.a2b_loop].
  destruct (Byte.eqb (Base64.translate (Base64url.b2a n)) "="); [discriminate Hpad|].
  destruct (Base64.table_a2b (Base64.translate (Base64url.b2a n))) as [k|]; [|discriminate Htab].
  apply N.eqb_eq in Htab. subst k. reflexivity.
Qed.

Lemma a2b_group (b0 b1 b2 : byte) (rest out : bytes) :
  Base64.a2b_loop (map Base64.translate (Base64url.encode_bytes (b0 :: b1 :: b2 :: rest))) 0 0 0 out
  = Base64.a2b_loop (map Base64.translate (Base64url.encode_bytes rest)) 0 0 0 (out ++ [b0; b1; b2]).
Proof.
  pose proof (sextets_all_ok b0 b1) as H01. pose proof (sextets_all_ok b1 b2) as H12.
  pose proof (sextets_all_ok b2 b2) as H22.
  unfold sextets_ok in H01, H12, H22.
  repeat match goal with
         | H : (_ && _)%bool = true |- _ => apply andb_prop in H; destruct H
         end.
  repeat match goal with
         | H : N.ltb _ _ = true |- _ => apply N.ltb_lt in H
         | H : N.eqb _ _ = true |- _ => apply N.eqb_eq in H
         | H : Byte.eqb _ _ = true |- _ => apply Byte.byte_dec_bl in H
         end.
  cbn [Base64url.encode_bytes map].
  rewrite (a2b_step (Base64url.sextet0 b0)) by assumption.
  rewrite (a2b_step (Base64url.sextet1 b0 b1)) by assumption.
  rewrite (a2b_step (Base64url.sextet2 b1 b2)) by assumption.
  rewrite (a2b_step (Base64url.sextet3 b2)) by assumption.
  rewrite <- !app_assoc. cbn [app].
  repeat match goal with
         | H : _ = _ |- _ => rewrite H
         end.
  reflexivity.
Qed.

Lemma by_triples (P : bytes -> Prop) :
  P [] -> (forall a b c r, P r -> P (a :: b :: c :: r)) ->
  forall s, (List.length s mod 3 = 0)%nat -> P s.
Proof.
  intros H0 H3 s.
  assert (G : forall n s, (List.length s <= n)%nat -> (List.length s mod 3 = 0)%nat -> P s).
  { induction n as [|n IH]; intros [|a [|b [|c r]]] Hlen Hmod;
      try exact H0; try (cbv in Hmod; discriminate Hmod).
    - cbn [List.length] in Hlen. lia.
    - apply H3. apply IH; [cbn [List.length] in Hlen; lia|].
      rewrite <- (Nat.Div0.mod_add (List.length r) 1 3).
      replace (List.length r + 1 * 3)%nat with (List.length (a :: b :: c :: r))
        by (cbn [List.length]; lia).
      exact Hmod. }
  apply (G (List.length s)). lia.
Qed.

Lemma a2b_encode (bs : bytes) :
  (List.length bs mod 3 = 0)%nat ->
  forall out, Base64.a2b_loop (map Base64.translate (Base64url.encode_bytes bs)) 0 0 0 out
              = inr (out ++ bs).
Proof.
  intros Hlen. pattern bs. apply by_triples; [| |exact Hlen].
  - intros out. rewrite app_nil_r. reflexivity.
  - intros a b c r IH out. rewrite a2b_group, IH, <- app_assoc. reflexivity.
Qed.

Lemma encode_is_ascii (bs : bytes) :
  (List.length bs mod 3 = 0)%nat -> Base64.is_ascii (Base64url.encode_bytes bs) = true.
Proof.
  intros Hlen. pattern bs. apply by_triples; [reflexivity| |exact Hlen].
  clear bs Hlen. intros a b c r IH.
  pose proof (sextets_all_ok a b) as H01. pose proof (sextets_all_ok b c) as H12.
  pose proof (sextets_all_ok c c) as H22.
  unfold sextets_ok in H01, H12, H22.
  repeat match goal with
         | H : (_ && _)%bool = true |- _ => apply andb_prop in H; destruct H
         end.
  repeat match goal with
         | H : N.ltb _ _ = true |- _ => apply N.ltb_lt in H
         end.
  assert (A : forall n, (n < 64)%N -> (Byte.to_N (Base64url.b2a n) <? 128)%N = true).
  { intros n Hn. pose proof (alphabet_ok n Hn) as Hok. unfold alphabet_char_ok in Hok.
    apply andb_prop in Hok. destruct Hok as [Hok _].
    apply andb_prop in Hok. destruct Hok as [Hok _]. exact Hok. }
  unfold Base64.is_ascii in *. cbn [Base64url.encode_bytes forallb].
  rewrite !A by assumption. exact IH.
Qed.

Lemma urlsafe_b64decode_encode (bs : bytes) :
  (List.length bs mod 3 = 0)%nat ->
  Base64.urlsafe_b64decode (Base64url.encode bs) = inr bs.
Proof.
  intros Hlen. unfold Base64.urlsafe_b64decode, Base64url.encode, bytes_of_string, string_of_bytes.
  rewrite list_byte_of_string_of_list_byte, (encode_is_ascii bs Hlen).
  unfold Base64.a2b_base64. apply (a2b_encode bs Hlen []).
Qed.

(** ** Round trip *)

Lemma seal_slices (secret : string) (iv payload : bytes) :
  let ciphertext := cbc_encrypt (encryption_key secret) iv (pkcs7_pad payload) in
  let signature := HMAC.hmac_sha256 (signature_key secret) (iv ++ ciphertext) in
  trailing_block (seal secret iv payload) = signature
  /\ signed_payload (seal secret iv payload) = iv ++ ciphertext.
Proof.
  intros ciphertext signature.
  assert (E : seal secret iv payload = (iv ++ ciphertext) ++ signature)
    by (unfold seal; fold ciphertext; fold signature; apply app_assoc).
  assert (L : (List.length (seal secret iv payload) - 32 = List.length (iv ++ ciphertext))%nat).
  { rewrite E, length_app. unfold signature. rewrite hmac_length. lia. }
  rewrite trailing_block_skipn, signed_payload_firstn, L, E.
  rewrite skipn_app, firstn_app, Nat.sub_diag, skipn_all, firstn_all.
  cbn [skipn firstn app]. rewrite app_nil_r. split; reflexivity.
Qed.

Lemma sealed_verifies (secret : string) (iv payload : bytes) :
  (List.length (seal secret iv payload) mod 3 = 0)%nat ->
  verifies secret (encode secret iv payload) (seal secret iv payload).
Proof.
  intros Hlen. split.
  - apply urlsafe_b64decode_encode. exact Hlen.
  - destruct (seal_slices secret iv payload) as [Htrail Hpay].
    rewrite Htrail, Hpay. reflexivity.
Qed.

(** C4: the round trip fails for every assertion. A token sealed under the
    same secret with a 16-byte IV, and written by the encoder as base64url
    text that needs no pad characters, decodes and verifies, and the call
    ends at line 64 in the exception handler: the validator returns None,
    whatever the payload and whatever the clock. *)
Theorem C4_sealed_token_is_refused_at_line_64
  (secret : string) (json_loads : string -> result pyval)
  (fromisoformat : string -> result datetime) (utcnow : Z) (iv payload : bytes) :
  secret <> EmptyString ->
  List.length iv = 16%nat ->
  (List.length (seal secret iv payload) mod 3 = 0)%nat ->
  let out :=
    validate_shopify_sso_token secret json_loads fromisoformat utcnow
      (encode secret iv payload) in
  out = ([Cipher_decryptor; Print "Token validation error: " (AttributeError "final")],
         Return_None_on_exception (AttributeError "final"))
  /\ returned (snd out) = inr None
  /\ forall assertion, snd out <> Return_customer_data assertion.
Proof.
  intros Hsecret Hiv Hlen out.
  assert (Hout : out = ([Cipher_decryptor;
                         Print "Token validation error: " (AttributeError "final")],
                        Return_None_on_exception (AttributeError "final"))).
  { unfold out.
    rewrite (validate_verified secret json_loads fromisoformat utcnow _ _ Hsecret
               (sealed_verifies secret iv payload Hlen)).
    apply sealed_length. unfold seal. rewrite !length_app, hmac_length. lia. }
  rewrite Hout. split; [reflexivity|]. split; [reflexivity|]. intros assertion. discriminate.
Qed.

Lemma C4_witness :
  Example.validate
    (encode Example.secret Example.iv (bytes_of_string (JSON.text Example.with_name)))
  = ([Cipher_decryptor; Print "Token validation error: " (AttributeError "final")],
     Return_None_on_exception (AttributeError "final")).
Proof.
  refine (proj1 (C4_sealed_token_is_refused_at_line_64
                   Example.secret JSON.loads ISO8601.fromisoformat Example.now Example.iv
                   (bytes_of_string (JSON.text Example.with_name)) _ _ _)).
  - discriminate.
  - reflexivity.
  - vm_compute. reflexivity.
Defined.

(** C4, as the spec states it: the assertion of the spec's own example,
    with a timestamp five minutes old, is serialized into 63 bytes and sealed
    into 112; their unpadded base64url text has 150 characters, and the
    validator refuses it with the decoder's "Incorrect padding" error. *)
Lemma C4_unpadded_token_is_refused :
  let payload := bytes_of_string (JSON.text Example.fresh) in
  let customer_data :=
    PDict [("email", PStr "a@b.com"); ("created_at", PStr "2026-01-01T12:00:00+00:00")] in
  let created_at := {| wall := ISO8601.microseconds 2026 1 1 12 0 0 0; tzinfo := Some 0 |} in
  List.length Example.iv = 16%nat
  /\ UTF8.decode payload = inr (JSON.text Example.fresh)
  /\ JSON.loads (JSON.text Example.fresh) = inr customer_data
  /\ ISO8601.fromisoformat "2026-01-01T12:00:00+00:00" = inr created_at
  /\ Example.now - wall created_at = 5 * 60 * 1000000
  /\ String.length (encode Example.secret Example.iv payload) = 150%nat
  /\ Example.validate (encode Example.secret Example.iv payload)
     = ([Print "Token validation error: " (BinasciiError "Incorrect padding")],
        Return_None_on_exception (BinasciiError "Incorrect padding"))
  /\ returned (snd (Example.validate (encode Example.secret Example.iv payload)))
     <> inr (Some customer_data).
Proof.
  cbv zeta.
  assert (E : Example.validate
                (encode Example.secret Example.iv (bytes_of_string (JSON.text Example.fresh)))
              = ([Print "Token validation error: " (BinasciiError "Incorrect padding")],
                 Return_None_on_exception (BinasciiError "Incorrect padding")))
    by (vm_compute; reflexivity).
  rewrite E.
  repeat (split; [vm_compute; reflexivity|]). simpl. discriminate.
Qed.
(** * Further properties of the validator *)

Lemma check_expiry_eq (fromisoformat : string -> result datetime) (utcnow : Z)
  (customer_data : pyval) :
  check_expiry fromisoformat utcnow customer_data
  = ([], expiry_verdict fromisoformat utcnow customer_data).
Proof.
  unfold check_expiry, expiry_verdict.
  destruct (get_or customer_data "createdAt" "created_at") as [e|v]; [reflexivity|].
  rewrite bind_lift_inr. destruct (negb (truthy v)); [reflexivity|].
  destruct (py_replace v "Z" "+00:00") as [e|s]; [reflexivity|]. rewrite bind_lift_inr.
  destruct (fromisoformat s) as [e|created_at]; [reflexivity|].
  rewrite bind_lift_inr, age_ignores_offset, bind_lift_inr. cbv zeta.
  rewrite diff_minutes_gt_15.
  destruct (900000000 <? utcnow - wall created_at); reflexivity.
Qed.

Lemma example_check_expiry_eq (fromisoformat : string -> result datetime) (utcnow : Z)
  (customer_data : pyval) :
  example_check_expiry fromisoformat utcnow customer_data
  = ([], example_expiry_verdict fromisoformat utcnow customer_data).
Proof.
  unfold example_check_expiry, example_expiry_verdict.
  destruct (py_getitem customer_data "created_at") as [e|v]; [reflexivity|].
  rewrite bind_lift_inr.
  destruct (py_replace v "Z" "+00:00") as [e|s]; [reflexivity|]. rewrite bind_lift_inr.
  destruct (fromisoformat s) as [e|created_at]; [reflexivity|].
  rewrite bind_lift_inr, age_ignores_offset, bind_lift_inr. cbv zeta.
  rewrite diff_minutes_gt_15.
  destruct (900000000 <? utcnow - wall created_at); reflexivity.
Qed.

Lemma verdict_inv (fromisoformat : string -> result datetime) (utcnow : Z)
  (customer_data : pyval) (x : exit) :
  expiry_verdict fromisoformat utcnow customer_data = inr x ->
  x = Return_None_no_created_at
  \/ x = Return_None_expired
  \/ (x = Return_customer_data customer_data
      /\ exists (d : list (string * pyval)) (s : string) (created_at : datetime),
           customer_data = PDict d
           /\ get_or customer_data "createdAt" "created_at" = inr (PStr s)
           /\ s <> EmptyString
           /\ fromisoformat (replace_char "Z" "+00:00" s) = inr created_at
           /\ utcnow - wall created_at <= 900000000).
Proof.
  unfold expiry_verdict.
  destruct (get_or customer_data "createdAt" "created_at") as [e|v] eqn:Hget; [discriminate|].
  destruct (truthy v) eqn:Hv; cbn [negb]; [|intros E; injection E as <-; left; reflexivity].
  destruct v as [| | | |s| |]; cbn [py_replace]; try discriminate.
  destruct (fromisoformat (replace_char "Z" "+00:00" s)) as [e|created_at] eqn:Hiso;
    [discriminate|].
  destruct (Z.ltb_spec 900000000 (utcnow - wall created_at)) as [Hold|Hfresh];
    intros E; injection E as <-; [right; left; reflexivity|].
  right. right. split; [reflexivity|].
  destruct customer_data as [| | | | | |d]; try discriminate Hget.
  exists d, s, created_at. repeat split; try assumption.
  intros ->. discriminate Hv.
Qed.

(** X1: the only exception that leaves [validate_shopify_sso_token] is the
    ValueError for an unset secret, raised for every token before anything
    is decoded; with a secret, every failure inside is caught and the caller
    receives None or a record. *)
Theorem X1_raises_only_without_secret
  (secret : string) (json_loads : string -> result pyval)
  (fromisoformat : string -> result datetime) (utcnow : Z) (token : string) :
  let out := validate_shopify_sso_token secret json_loads fromisoformat utcnow token in
  (secret = EmptyString <-> exists msg : string, returned (snd out) = inl (ValueError msg))
  /\ (secret = EmptyString <-> exists msg : string, out = ([], Raise_ValueError msg))
  /\ ((exists r : option pyval, returned (snd out) = inr r) <-> secret <> EmptyString).
Proof.
  cbv zeta. destruct (String.eqb_spec secret EmptyString) as [E|E].
  - subst secret.
    assert (Hout : validate_shopify_sso_token EmptyString json_loads fromisoformat utcnow token
                   = ([], Raise_ValueError "SHOPIFY_SSO_SECRET environment variable is required"))
      by reflexivity.
    rewrite Hout. cbn [fst snd returned].
    split; [|split].
    + split; [intros _; eexists; reflexivity|reflexivity].
    + split; [intros _; eexists; reflexivity|reflexivity].
    + split; [intros [r Hr]; discriminate Hr|intros Hne; contradiction Hne; reflexivity].
  - assert (Hr : exists r, returned (snd (validate_shopify_sso_token secret json_loads
                                            fromisoformat utcnow token)) = inr r
                   /\ forall m, validate_shopify_sso_token secret json_loads fromisoformat
                                  utcnow token <> ([], Raise_ValueError m)).
    { rewrite (validate_cases secret json_loads fromisoformat utcnow token E).
      destruct (Base64.urlsafe_b64decode token) as [e|td].
      { eexists. split; [reflexivity|]. intros m. discriminate. }
      destruct (bytes_eqb _ _).
      2:{ eexists. split; [reflexivity|]. intros m. discriminate. }
      unfold refusal. destruct (Nat.ltb _ 16);
        (eexists; split; [reflexivity|intros m; discriminate]). }
    destruct Hr as [r [Hr Hno]].
    split; [|split].
    + split; [intros Hs; contradiction|].
      intros [msg H]. rewrite Hr in H. discriminate H.
    + split; [intros Hs; contradiction|].
      intros [msg H]. destruct (Hno msg H).
    + split; [intros _; exact E|intros _; exists r; exact Hr].
Qed.

(** X2: no token is accepted. Whatever the secret, the parsers, the clock
    and the token, the validator does not return a record, and with a secret
    set it returns None. The two parsers and the clock are never consulted:
    the outcome of a call, its log included, is the same under any others. *)
Theorem X2_no_token_is_accepted
  (secret : string) (json_loads : string -> result pyval)
  (fromisoformat : string -> result datetime) (utcnow : Z) (token : string) :
  let out := validate_shopify_sso_token secret json_loads fromisoformat utcnow token in
  (forall customer_data, snd out <> Return_customer_data customer_data)
  /\ (forall customer_data, returned (snd out) <> inr (Some customer_data))
  /\ (secret <> EmptyString -> returned (snd out) = inr None)
  /\ (forall (json_loads' : string -> result pyval)
             (fromisoformat' : string -> result datetime) (utcnow' : Z),
        validate_shopify_sso_token secret json_loads' fromisoformat' utcnow' token = out).
Proof.
  cbv zeta.
  destruct (validate_exits secret json_loads fromisoformat utcnow token) as [[msg E]|[E|[e E]]];
    cbv zeta in E.
  - split; [|split; [|split]].
    + intros cd. rewrite E. discriminate.
    + intros cd. rewrite E. discriminate.
    + intros Hsecret. destruct (String.eqb_spec secret EmptyString) as [->|Hne];
        [contradiction Hsecret; reflexivity|].
      rewrite (validate_cases secret json_loads fromisoformat utcnow token Hne) in E.
      destruct (Base64.urlsafe_b64decode token) as [e|td]; [discriminate E|].
      destruct (bytes_eqb _ _); [|discriminate E].
      unfold refusal in E. destruct (Nat.ltb _ 16); discriminate E.
    + intros json_loads' fromisoformat' utcnow'.
      destruct (String.eqb_spec secret EmptyString) as [->|Hne]; [reflexivity|].
      rewrite !(validate_cases secret _ _ _ token Hne). reflexivity.
  - split; [|split; [|split]]; try (intros cd; rewrite E; discriminate).
    + intros _. rewrite E. reflexivity.
    + intros json_loads' fromisoformat' utcnow'.
      destruct (String.eqb_spec secret EmptyString) as [->|Hne]; [reflexivity|].
      rewrite !(validate_cases secret _ _ _ token Hne). reflexivity.
  - split; [|split; [|split]]; try (intros cd; rewrite E; discriminate).
    + intros _. rewrite E. reflexivity.
    + intros json_loads' fromisoformat' utcnow'.
      destruct (String.eqb_spec secret EmptyString) as [->|Hne]; [reflexivity|].
      rewrite !(validate_cases secret _ _ _ token Hne). reflexivity.
Qed.

(** X8: a token that decodes to at least 48 bytes and whose signature
    verifies ends at line 64, whatever follows its IV: whole blocks, a
    partial block or nothing. The decryptor is built, [update] takes the
    ciphertext, and the lookup of [final] raises the AttributeError that the
    handler prints before it returns None. *)
Theorem X8_verified_token_ends_at_line_64
  (secret : string) (json_loads : string -> result pyval)
  (fromisoformat : string -> result datetime) (utcnow : Z)
  (token : string) (token_data : bytes) :
  secret <> EmptyString ->
  verifies secret token token_data ->
  (48 <= List.length token_data)%nat ->
  validate_shopify_sso_token secret json_loads fromisoformat utcnow token
  = ([Cipher_decryptor; Print "Token validation error: " (AttributeError "final")],
     Return_None_on_exception (AttributeError "final")).
Proof.
  intros Hsecret Hver Hlen.
  rewrite (validate_verified secret json_loads fromisoformat utcnow token token_data
             Hsecret Hver).
  apply sealed_length. exact Hlen.
Qed.

Lemma X8_witness :
  Example.validate MoreExamples.partial_block
  = ([Cipher_decryptor; Print "Token validation error: " (AttributeError "final")],
     Return_None_on_exception (AttributeError "final")).
Proof.
  refine (X8_verified_token_ends_at_line_64 Example.secret JSON.loads ISO8601.fromisoformat
            Example.now MoreExamples.partial_block
            (let encrypted_data := Example.iv ++ bytes_of_string "12345" in
             encrypted_data ++ HMAC.hmac_sha256 (signature_key Example.secret) encrypted_data)
            _ _ _).
  - discriminate.
  - split; vm_compute; reflexivity.
  - vm_compute. lia.
Defined.

(** ** The text of a token *)

Lemma bytes_of_string_app (s t : string) :
  bytes_of_string (s ++ t) = bytes_of_string s ++ bytes_of_string t.
Proof.
  unfold bytes_of_string, list_byte_of_string.
  induction s as [|c s IH]; [reflexivity|].
  cbn [String.append list_ascii_of_string map app]. f_equal. exact IH.
Qed.

Lemma a2b_loop_skips (junk rest : bytes) (quad_pos : nat) (leftchar : N) (pads : nat)
  (out : bytes) :
  forallb (fun b => negb (Byte.eqb (Base64.translate b) "=")
                    && match Base64.table_a2b (Base64.translate b) with
                       | Some _ => false | None => true end) junk = true ->
  Base64.a2b_loop (map Base64.translate (junk ++ rest)) quad_pos leftchar pads out
  = Base64.a2b_loop (map Base64.translate rest) quad_pos leftchar pads out.
Proof.
  induction junk as [|b junk IH]; intros Hj; [reflexivity|].
  cbn [forallb] in Hj. apply andb_prop in Hj. destruct Hj as [Hb Hj].
  apply andb_prop in Hb. destruct Hb as [Hpad Htab].
  cbn [app map Base64.a2b_loop].
  destruct (Byte.eqb (Base64.translate b) "="); [discriminate Hpad|].
  destruct (Base64.table_a2b (Base64.translate b)); [discriminate Htab|].
  apply IH. exact Hj.
Qed.

Lemma a2b_loop_junk_inside (before junk rest : bytes) :
  forallb (fun b => negb (Byte.eqb (Base64.translate b) "=")
                    && match Base64.table_a2b (Base64.translate b) with
                       | Some _ => false | None => true end) junk = true ->
  forall (quad_pos : nat) (leftchar : N) (pads : nat) (out : bytes),
  Base64.a2b_loop (map Base64.translate (before ++ junk ++ rest)) quad_pos leftchar pads out
  = Base64.a2b_loop (map Base64.translate (before ++ rest)) quad_pos leftchar pads out.
Proof.
  intros Hj. induction before as [|b before IH]; intros quad_pos leftchar pads out.
  - cbn [app]. apply a2b_loop_skips. exact Hj.
  - cbn [app map Base64.a2b_loop].
    destruct (Byte.eqb (Base64.translate b) "=").
    + destruct (Nat.leb 2 quad_pos); [|apply IH].
      destruct (Nat.leb 4 (quad_pos + Datatypes.S pads)); [reflexivity|apply IH].
    + destruct (Base64.table_a2b (Base64.translate b)) as [n|]; [|apply IH].
      destruct quad_pos as [|[|[|q]]]; apply IH.
Qed.

Lemma skipped_bytes (junk : string) :
  all_chars skipped junk = true ->
  Base64.is_ascii (bytes_of_string junk) = true
  /\ forallb (fun b => negb (Byte.eqb (Base64.translate b) "=")
                       && match Base64.table_a2b (Base64.translate b) with
                          | Some _ => false | None => true end)
             (bytes_of_string junk) = true.
Proof.
  unfold bytes_of_string, list_byte_of_string, Base64.is_ascii.
  induction junk as [|c junk IH]; intros H; [split; reflexivity|].
  cbn [all_chars] in H. apply andb_prop in H. destruct H as [Hc H].
  destruct (IH H) as [IH1 IH2]. unfold skipped in Hc.
  apply andb_prop in Hc. destruct Hc as [Hc Htab]. apply andb_prop in Hc. destruct Hc as [Ha Hp].
  cbn [list_ascii_of_string map forallb]. rewrite Ha, Hp, Htab, IH1, IH2. split; reflexivity.
Qed.

Lemma decode_ignores_junk (s1 junk s2 : string) :
  all_chars skipped junk = true ->
  Base64.urlsafe_b64decode (s1 ++ junk ++ s2) = Base64.urlsafe_b64decode (s1 ++ s2).
Proof.
  intros Hj. destruct (skipped_bytes junk Hj) as [Hascii Hskip].
  unfold Base64.urlsafe_b64decode. rewrite !bytes_of_string_app.
  unfold Base64.is_ascii in *. rewrite !forallb_app, Hascii. cbn [andb].
  unfold Base64.a2b_base64. rewrite (a2b_loop_junk_inside _ _ _ Hskip). reflexivity.
Qed.

Lemma validate_reads_decoded_bytes (secret : string) (json_loads : string -> result pyval)
  (fromisoformat : string -> result datetime) (utcnow : Z) (t1 t2 : string) :
  Base64.urlsafe_b64decode t1 = Base64.urlsafe_b64decode t2 ->
  validate_shopify_sso_token secret json_loads fromisoformat utcnow t1
  = validate_shopify_sso_token secret json_loads fromisoformat utcnow t2.
Proof.
  intros Hdec. destruct (String.eqb_spec secret EmptyString) as [->|Hsecret]; [reflexivity|].
  rewrite !(validate_cases secret json_loads fromisoformat utcnow _ Hsecret), Hdec. reflexivity.
Qed.

(** X9: the validator reads a token through the base64 decoder, which
    passes over every character outside its alphabet: inserting spaces, line
    breaks, dots or any other such ASCII characters anywhere in a token does
    not change the outcome. Many different strings are the same token. *)
Theorem X9_characters_outside_the_alphabet_are_ignored
  (secret : string) (json_loads : string -> result pyval)
  (fromisoformat : string -> result datetime) (utcnow : Z) (s1 junk s2 : string) :
  all_chars skipped junk = true ->
  validate_shopify_sso_token secret json_loads fromisoformat utcnow (s1 ++ junk ++ s2)
  = validate_shopify_sso_token secret json_loads fromisoformat utcnow (s1 ++ s2).
Proof.
  intros Hj. apply validate_reads_decoded_bytes. apply decode_ignores_junk. exact Hj.
Qed.

Lemma X9_witness :
  Example.validate ("MDEy" ++ " . !" ++ "MzQ1")%string = Example.validate ("MDEy" ++ "MzQ1")%string.
Proof.
  refine (X9_characters_outside_the_alphabet_are_ignored Example.secret JSON.loads
            ISO8601.fromisoformat Example.now "MDEy" " . !" "MzQ1" _).
  reflexivity.
Defined.

(** ** The freshness check of lines 72-84, taken alone

    No record reaches these lines in the validator as it stands; the
    properties below are those of the check itself, applied to a record. *)

(** X3: the freshness check returns a record only if it is the record it
    was given, a non-empty JSON object whose timestamp, [createdAt] if that
    tests true and [created_at] otherwise, is a non-empty string that parses
    and whose field reading is at most 15 minutes behind the UTC clock; it
    logs nothing. *)
Theorem X3_check_returns_fresh_objects_only
  (fromisoformat : string -> result datetime) (utcnow : Z)
  (customer_data returned_data : pyval) (log : list event) :
  check_expiry fromisoformat utcnow customer_data
  = (log, inr (Return_customer_data returned_data)) ->
  log = [] /\ returned_data = customer_data
  /\ truthy customer_data = true
  /\ exists (d : list (string * pyval)) (s : string) (created_at : datetime),
       customer_data = PDict d
       /\ get_or customer_data "createdAt" "created_at" = inr (PStr s)
       /\ s <> EmptyString
       /\ fromisoformat (replace_char "Z" "+00:00" s) = inr created_at
       /\ utcnow - wall created_at <= 15 * 60 * 1000000.
Proof.
  rewrite check_expiry_eq. intros E. injection E as <- Hv.
  destruct (verdict_inv _ _ _ _ Hv) as [F|[F|[F [d [s [c [Hd [Hget [Hs [Hiso Hage]]]]]]]]]];
    try discriminate F.
  injection F as ->. split; [reflexivity|]. split; [reflexivity|]. split.
  - rewrite Hd in *. destruct d as [|kv d]; [|reflexivity].
    unfold get_or, py_get in Hget. cbn in Hget. discriminate Hget.
  - exists d, s, c. repeat split; assumption.
Qed.

Lemma X3_witness :
  let record := PDict [("createdAt", PStr "2026-01-01T12:00:00Z")] in
  ([] : list event) = [] /\ record = record
  /\ truthy record = true
  /\ exists (d : list (string * pyval)) (s : string) (created_at : datetime),
       record = PDict d
       /\ get_or record "createdAt" "created_at" = inr (PStr s)
       /\ s <> EmptyString
       /\ ISO8601.fromisoformat (replace_char "Z" "+00:00" s) = inr created_at
       /\ Example.now - wall created_at <= 15 * 60 * 1000000.
Proof.
  refine (X3_check_returns_fresh_objects_only ISO8601.fromisoformat Example.now
            (PDict [("createdAt", PStr "2026-01-01T12:00:00Z")]) _ [] _).
  vm_compute. reflexivity.
Defined.

(** X4: of the two spellings of the timestamp, [createdAt] decides
    whenever its value tests true, and [created_at] is then not looked at:
    two records with the same truthy [createdAt] get the same verdict
    whatever their [created_at]. Only when [createdAt] is absent or tests
    false does [created_at] decide. *)
Theorem X4_createdAt_decides_when_truthy
  (fromisoformat : string -> result datetime) (utcnow : Z)
  (d1 d2 : list (string * pyval)) :
  let verdict d := snd (check_expiry fromisoformat utcnow (PDict d)) in
  let kind (r : result exit) :=
    match r with inr x => inr (forget_record x) | inl e => inl e end in
  (value_under d1 "createdAt" = value_under d2 "createdAt" ->
   truthy (value_under d1 "createdAt") = true ->
   kind (verdict d1) = kind (verdict d2))
  /\ (truthy (value_under d1 "createdAt") = false ->
      truthy (value_under d2 "createdAt") = false ->
      value_under d1 "created_at" = value_under d2 "created_at" ->
      kind (verdict d1) = kind (verdict d2)).
Proof.
  cbv beta zeta. rewrite !check_expiry_eq. cbn [snd].
  assert (K : forall d v, get_or (PDict d) "createdAt" "created_at" = inr v ->
     match expiry_verdict fromisoformat utcnow (PDict d) with
     | inr x => inr (forget_record x) | inl e => inl e end
     = if negb (truthy v) then inr Return_None_no_created_at else
       match py_replace v "Z" "+00:00" with
       | inl e => inl e
       | inr s => match fromisoformat s with
                  | inl e => inl e
                  | inr c => inr (if 900000000 <? utcnow - wall c
                                  then Return_None_expired else Return_customer_data PNone)
                  end
       end).
  { intros d v Hget. unfold expiry_verdict. rewrite Hget.
    destruct (negb (truthy v)); [reflexivity|].
    destruct (py_replace v "Z" "+00:00") as [e|s]; [reflexivity|].
    destruct (fromisoformat s) as [e|c]; [reflexivity|].
    destruct (900000000 <? utcnow - wall c); reflexivity. }
  assert (G : forall d, get_or (PDict d) "createdAt" "created_at"
                        = inr (if truthy (value_under d "createdAt")
                               then value_under d "createdAt" else value_under d "created_at"))
    by (intros d; unfold get_or, py_get, value_under;
        destruct (truthy _); reflexivity).
  split.
  - intros Hsame Ht.
    rewrite (K d1 _ (G d1)), (K d2 _ (G d2)), <- Hsame, Ht. reflexivity.
  - intros H1 H2 Hsame.
    rewrite (K d1 _ (G d1)), (K d2 _ (G d2)), H1, H2, Hsame. reflexivity.
Qed.

(** X5: given a payload that is not a JSON object, the freshness check
    raises the AttributeError of the missing [get]; given an object whose
    timestamp tests true and is not a string (a number, say), it raises the
    AttributeError of the missing [replace]. Neither is a return of the
    check: in the validator both would end in the exception handler. *)
Theorem X5_check_raises_on_wrong_types
  (fromisoformat : string -> result datetime) (utcnow : Z) (customer_data : pyval) :
  ((forall d, customer_data <> PDict d) ->
   check_expiry fromisoformat utcnow customer_data = ([], inl (AttributeError "get")))
  /\ (forall v : pyval,
        get_or customer_data "createdAt" "created_at" = inr v ->
        truthy v = true -> (forall s, v <> PStr s) ->
        check_expiry fromisoformat utcnow customer_data
        = ([], inl (AttributeError "replace"))).
Proof.
  rewrite check_expiry_eq. unfold expiry_verdict. split.
  - intros Hnot. destruct customer_data as [| | | | | |d]; try reflexivity.
    destruct (Hnot d eq_refl).
  - intros v Hget Hv Hns. rewrite Hget, Hv. cbn [negb].
    destruct v as [| | | |s| |]; try reflexivity. destruct (Hns s eq_refl).
Qed.

(** X6: the freshness check compares field readings: it returns the
    record exactly when the reading of the UTC clock is at most 15 minutes
    past the reading of the timestamp's own fields, and the expired return
    exactly when it is more, whether the timestamp is naive or carries an
    offset. For a timestamp with a UTC offset this is not 15 minutes of
    elapsed time: the record is returned exactly when the time elapsed since
    the instant it denotes is at most 15 minutes plus the offset, so that an
    offset east of UTC lengthens the window and one west of UTC shortens
    it. *)
Theorem X6_window_is_measured_on_field_readings
  (fromisoformat : string -> result datetime) (utcnow : Z) (customer_data : pyval)
  (s : string) (created_at : datetime) :
  get_or customer_data "createdAt" "created_at" = inr (PStr s) ->
  s <> EmptyString ->
  fromisoformat (replace_char "Z" "+00:00" s) = inr created_at ->
  let out := check_expiry fromisoformat utcnow customer_data in
  (out = ([], inr (Return_customer_data customer_data))
   <-> utcnow - wall created_at <= 15 * 60 * 1000000)
  /\ (out = ([], inr Return_None_expired) <-> 15 * 60 * 1000000 < utcnow - wall created_at)
  /\ (forall offset, tzinfo created_at = Some offset ->
        (out = ([], inr (Return_customer_data customer_data))
         <-> utcnow - instant created_at <= 15 * 60 * 1000000 + offset)
        /\ (out = ([], inr Return_None_expired)
            <-> 15 * 60 * 1000000 + offset < utcnow - instant created_at)).
Proof.
  intros Hget Hs Hiso out. unfold out.
  rewrite (check_expiry_parsed fromisoformat utcnow customer_data s created_at Hget Hs Hiso).
  split; [|split].
  - destruct (Z.ltb_spec 900000000 (utcnow - wall created_at));
      split; intros Hx; try discriminate Hx; try reflexivity; lia.
  - destruct (Z.ltb_spec 900000000 (utcnow - wall created_at));
      split; intros Hx; try discriminate Hx; try reflexivity; lia.
  - intros offset Htz. unfold instant. rewrite Htz.
    destruct (Z.ltb_spec 900000000 (utcnow - wall created_at));
      split; split; intros Hx; try discriminate Hx; try reflexivity; lia.
Qed.

Lemma X6_witness :
  check_expiry ISO8601.fromisoformat Example.now
    (PDict [("email", PStr "a@b.com"); ("created_at", PStr "2026-01-01T07:05:00-05:00")])
  = ([], inr Return_None_expired).
Proof.
  refine (proj2 (proj1 (proj2 (X6_window_is_measured_on_field_readings ISO8601.fromisoformat
            Example.now
            (PDict [("email", PStr "a@b.com"); ("created_at", PStr "2026-01-01T07:05:00-05:00")])
            "2026-01-01T07:05:00-05:00"
            {| wall := ISO8601.microseconds 2026 1 1 7 5 0 0; tzinfo := Some (-18000000000) |}
            _ _ _))) _).
  - reflexivity.
  - discriminate.
  - vm_compute. reflexivity.
  - vm_compute. reflexivity.
Defined.

Lemma replace_char_absent (old : ascii) (new s : string) :
  contains_char old s = false -> replace_char old new s = s.
Proof.
  induction s as [|c s IH]; [reflexivity|]. cbn [contains_char replace_char].
  destruct (Ascii.eqb c old); [discriminate|]. cbn [orb]. intros H. rewrite IH by exact H.
  reflexivity.
Qed.

Lemma string_app_assoc (a b c : string) : (a ++ (b ++ c) = (a ++ b) ++ c)%string.
Proof. induction a as [|x a IH]; [reflexivity|]. cbn [String.append]. rewrite IH. reflexivity. Qed.

Lemma replace_char_app (old : ascii) (new s t : string) :
  replace_char old new (s ++ t) = (replace_char old new s ++ replace_char old new t)%string.
Proof.
  induction s as [|c s IH]; [reflexivity|]. cbn [String.append replace_char].
  rewrite IH. destruct (Ascii.eqb c old); [apply string_app_assoc|reflexivity].
Qed.

(** X7: the freshness check reads a timestamp ending in "Z" as the same
    timestamp ending in "+00:00": two records whose timestamps differ in that
    suffix only get the same verdict. *)
Theorem X7_Z_suffix_is_zero_offset
  (fromisoformat : string -> result datetime) (utcnow : Z) (cd1 cd2 : pyval) (s : string) :
  get_or cd1 "createdAt" "created_at" = inr (PStr (s ++ "Z")) ->
  get_or cd2 "createdAt" "created_at" = inr (PStr (s ++ "+00:00")) ->
  contains_char "Z" s = false ->
  let verdict cd :=
    match snd (check_expiry fromisoformat utcnow cd) with
    | inr x => inr (forget_record x)
    | inl e => inl e
    end in
  verdict cd1 = verdict cd2.
Proof.
  intros G1 G2 Hz verdict. unfold verdict. rewrite !check_expiry_eq. cbn [snd].
  unfold expiry_verdict. rewrite G1, G2. cbn [truthy py_replace].
  assert (N1 : String.eqb (s ++ "Z")%string EmptyString = false) by (destruct s; reflexivity).
  assert (N2 : String.eqb (s ++ "+00:00")%string EmptyString = false)
    by (destruct s; reflexivity).
  rewrite N1, N2. cbn [negb].
  rewrite !replace_char_app, (replace_char_absent "Z" "+00:00" s Hz).
  change (replace_char "Z" "+00:00" "Z") with "+00:00".
  change (replace_char "Z" "+00:00" "+00:00") with "+00:00".
  destruct (fromisoformat (s ++ "+00:00")%string) as [e|c]; [reflexivity|].
  destruct (900000000 <? utcnow - wall c); reflexivity.
Qed.

Lemma X7_witness :
  let verdict cd :=
    match snd (check_expiry ISO8601.fromisoformat Example.now cd) with
    | inr x => inr (forget_record x)
    | inl e => inl e
    end in
  verdict (PDict [("email", PStr "a@b.com"); ("created_at", PStr "2026-01-01T12:00:00Z")])
  = verdict (PDict [("email", PStr "a@b.com");
                    ("created_at", PStr "2026-01-01T12:00:00+00:00")]).
Proof.
  refine (X7_Z_suffix_is_zero_offset ISO8601.fromisoformat Example.now
            (PDict [("email", PStr "a@b.com"); ("created_at", PStr "2026-01-01T12:00:00Z")])
            (PDict [("email", PStr "a@b.com"); ("created_at", PStr "2026-01-01T12:00:00+00:00")])
            "2026-01-01T12:00:00" _ _ _).
  - reflexivity.
  - reflexivity.
  - reflexivity.
Defined.

(** ** The validator of the single-file example *)

(** X10: the validator of [fastapi-implementation-example.py] has the same
    line ([decryptor.final()], its line 65) and ends every call as the one of
    [utils/shopify_sso.py] does, with the same log and the same exit. The two
    differ in the freshness check, which neither reaches: the example's
    subscripts the record with ["created_at"], so that for a record without
    that key it raises a KeyError, [createdAt] or not. *)
Theorem X10_example_validator_ends_alike
  (secret : string) (json_loads : string -> result pyval)
  (fromisoformat : string -> result datetime) (utcnow : Z) (token : string) :
  example_validate_shopify_sso_token secret json_loads fromisoformat utcnow token
  = validate_shopify_sso_token secret json_loads fromisoformat utcnow token
  /\ forall d : list (string * pyval),
       assoc "created_at" d = None ->
       example_check_expiry fromisoformat utcnow (PDict d) = ([], inl (KeyError "created_at")).
Proof.
  split.
  - unfold example_validate_shopify_sso_token, validate_shopify_sso_token.
    destruct (String.eqb secret EmptyString); [reflexivity|].
    unfold example_validate_body, validate_body. rewrite decrypt_token_cases.
    destruct (Base64.urlsafe_b64decode token) as [e|td]; [reflexivity|].
    destruct (bytes_eqb _ _); [|reflexivity].
    destruct (Nat.ltb _ 16); reflexivity.
  - intros d Hnone. rewrite example_check_expiry_eq.
    unfold example_expiry_verdict, py_getitem. rewrite Hnone. reflexivity.
Qed.

(** * Further properties of the sessions *)

(** X11: [get_user_from_session] returns a user only for a non-empty
    token for which the store returned at least one session row, and the user
    is read off the first such row: it is the row's embedded [users] value,
    or the first element of that list, or the first row that the users table
    returns for the row's [user_id]. *)
Theorem X11_user_comes_from_the_first_session_row {S : Type} {client : Supabase S}
  (db : S) (utcnow : Z) (session_token : string) (user : pyval) :
  returned_user (snd (get_user_from_session db utcnow session_token)) = Some user ->
  session_token <> EmptyString
  /\ exists (db1 : S) (session : pyval) (rest : list pyval),
       sessions_select db session_token utcnow = (db1, inr (session :: rest))
       /\ ((exists u, user = PDict u /\ py_get session "users" = inr user)
           \/ (exists us, py_get session "users" = inr (PList (user :: us)))
           \/ (exists (id : pyval) (db2 : S) (rows : list pyval),
                 py_getitem session "user_id" = inr id
                 /\ users_select db1 id = (db2, inr (user :: rows)))).
Proof.
  unfold get_user_from_session.
  destruct (String.eqb_spec session_token EmptyString) as [->|Hne]; [discriminate|].
  intros Hret. split; [exact Hne|].
  destruct (sessions_select db session_token utcnow) as [db1 [e|rows]]; [discriminate Hret|].
  destruct rows as [|session rest]; [discriminate Hret|].
  exists db1, session, rest. split; [reflexivity|].
  unfold user_of_rows in Hret.
  destruct (py_get session "users") as [e|embedded]; [discriminate Hret|].
  assert (Hfallback :
    forall log : list event,
    returned_user
      (snd (match
              match py_getitem session "user_id" with
              | inl e => ([], db1, inl e)
              | inr id =>
                  match users_select db1 id with
                  | (db', inl e) => ([Store_request "users" "select"], db', inl e)
                  | (db', inr data) =>
                      ([Store_request "users" "select"], db',
                       inr (Return_looked_up_user (hd_error data)))
                  end
              end
            with
            | (log, db2, inl e) =>
                ((Store_request "sessions" "select" :: log)
                   ++ [Print "Error getting user from session: " e], db2,
                 Return_None_on_error e)
            | (log, db2, inr x) => (Store_request "sessions" "select" :: log, db2, x)
            end)) = Some user ->
    exists (id : pyval) (db2 : S) (rows : list pyval),
      py_getitem session "user_id" = inr id
      /\ users_select db1 id = (db2, inr (user :: rows))).
  { clear Hret. intros _.
    destruct (py_getitem session "user_id") as [e|id]; [discriminate|].
    destruct (users_select db1 id) as [db2 [e|data]] eqn:Hsel; [discriminate|].
    destruct data as [|u rows]; [discriminate|].
    cbn. intros E. injection E as ->. exists id, db2, rows. split; [reflexivity|exact Hsel]. }
  destruct embedded as [| | | | |l|u]; try (right; right; exact (Hfallback [] Hret)).
  - destruct l as [|u us]; [right; right; exact (Hfallback [] Hret)|].
    cbn in Hret. injection Hret as ->. right; left. exists us. reflexivity.
  - cbn in Hret. injection Hret as <-. left. exists u. split; reflexivity.
Qed.

Lemma X11_witness :
  "tok123" <> EmptyString
  /\ exists (db1 : MemStore.t) (session : pyval) (rest : list pyval),
       sessions_select Example.store1 "tok123" Example.now = (db1, inr (session :: rest))
       /\ ((exists u, Example.user1 = PDict u /\ py_get session "users" = inr Example.user1)
           \/ (exists us, py_get session "users" = inr (PList (Example.user1 :: us)))
           \/ (exists (id : pyval) (db2 : MemStore.t) (rows : list pyval),
                 py_getitem session "user_id" = inr id
                 /\ users_select db1 id = (db2, inr (Example.user1 :: rows)))).
Proof.
  exact (X11_user_comes_from_the_first_session_row Example.store1 Example.now "tok123"
           Example.user1 eq_refl).
Defined.

Lemma select_after_insert (db : MemStore.t) (tok : string) (uid : pyval)
  (expires created later : Z) :
  MemStore.online db = true ->
  (forall s, In s (MemStore.sessions db) -> MemStore.token s <> tok) ->
  let s := {| MemStore.token := tok; MemStore.user_id := uid;
              MemStore.expires_at := expires; MemStore.created_at := created |} in
  let db' := {| MemStore.sessions := MemStore.sessions db ++ [s];
                MemStore.users := MemStore.users db; MemStore.online := MemStore.online db |} in
  MemStore.select_sessions db' tok later
  = (db', inr (if later <? expires then [MemStore.row db' s] else [])).
Proof.
  intros Honline Hfresh s db'. unfold MemStore.select_sessions, MemStore.request.
  cbn [MemStore.online MemStore.sessions db' fst snd]. rewrite Honline.
  rewrite filter_app, filter_none.
  - cbn [filter app MemStore.token MemStore.expires_at s]. rewrite String.eqb_refl. cbn [andb].
    destruct (later <? expires); reflexivity.
  - intros r Hr. destruct (String.eqb_spec (MemStore.token r) tok) as [E|_]; [|reflexivity].
    destruct (Hfresh r Hr E).
Qed.

Lemma lookup_after_insert (db : MemStore.t) (tok : string) (uid : pyval)
  (expires created later : Z) (u : list (string * pyval)) :
  MemStore.online db = true ->
  tok <> EmptyString ->
  MemStore.referred_user db uid = Some (PDict u) ->
  (forall s, In s (MemStore.sessions db) -> MemStore.token s <> tok) ->
  let db' := {| MemStore.sessions :=
                  MemStore.sessions db
                  ++ [{| MemStore.token := tok; MemStore.user_id := uid;
                         MemStore.expires_at := expires; MemStore.created_at := created |}];
                MemStore.users := MemStore.users db; MemStore.online := MemStore.online db |} in
  get_user_from_session db' later tok
  = ([Store_request "sessions" "select"], db',
     if later <? expires then Return_embedded_user (PDict u) else Return_None_no_session).
Proof.
  intros Honline Hne Huser Hfresh db'. unfold get_user_from_session.
  replace (String.eqb tok EmptyString) with false by (symmetry; apply String.eqb_neq; exact Hne).
  cbn [sessions_select MemStore.client]. unfold db'.
  rewrite (select_after_insert db tok uid expires created later Honline Hfresh).
  destruct (later <? expires); [|reflexivity].
  unfold user_of_rows, MemStore.row.
  change (MemStore.referred_user _ (MemStore.user_id _)) with (MemStore.referred_user db uid).
  rewrite Huser. reflexivity.
Qed.

(** X12: on the in-memory store, a session made by [create_user_session]
    for a stored user under a token not in use is found by
    [get_user_from_session] with one request, which returns that user's
    record, at every time before [utcnow + 7 days], [utcnow] being the
    reading of the clock at line 76; from exactly seven days on the same call
    finds no session. Lookups do not change the store: the expired row
    stays. *)
Theorem X12_session_lives_less_than_seven_days
  (db : MemStore.t) (utcnow utcnow' : Z) (session_token user_id : string)
  (u : list (string * pyval)) :
  MemStore.online db = true ->
  session_token <> EmptyString ->
  MemStore.find_user db user_id = Some (PDict u) ->
  (forall s, In s (MemStore.sessions db) -> MemStore.token s <> session_token) ->
  let issued := create_user_session db utcnow utcnow' session_token (PStr user_id) in
  let db' := snd (fst issued) in
  snd issued = inr session_token
  /\ (forall later, later < utcnow + week ->
        get_user_from_session db' later session_token
        = ([Store_request "sessions" "select"], db', Return_embedded_user (PDict u)))
  /\ (forall later, utcnow + week <= later ->
        get_user_from_session db' later session_token
        = ([Store_request "sessions" "select"], db', Return_None_no_session)).
Proof.
  intros Honline Hne Huser Hfresh issued db'.
  assert (Hissued : issued =
    ([Store_request "sessions" "insert"],
     {| MemStore.sessions :=
          MemStore.sessions db
          ++ [{| MemStore.token := session_token; MemStore.user_id := PStr user_id;
                 MemStore.expires_at := utcnow + week; MemStore.created_at := utcnow' |}];
        MemStore.users := MemStore.users db; MemStore.online := MemStore.online db |},
     inr session_token)).
  { unfold issued, create_user_session. cbn [sessions_insert MemStore.client].
    unfold MemStore.insert_session, MemStore.request. rewrite Honline. reflexivity. }
  unfold db'. rewrite Hissued. cbn [fst snd]. split; [reflexivity|].
  split; intros later Hlater;
    rewrite (lookup_after_insert db session_token (PStr user_id) (utcnow + week) utcnow'
               later u Honline Hne Huser Hfresh).
  - replace (later <? utcnow + week) with true by (symmetry; apply Z.ltb_lt; exact Hlater).
    reflexivity.
  - replace (later <? utcnow + week) with false by (symmetry; apply Z.ltb_ge; exact Hlater).
    reflexivity.
Qed.

Lemma X12_witness :
  let issued :=
    create_user_session Example.store0 Example.now Example.now "tok123" (PStr "u1") in
  let db' := snd (fst issued) in
  snd issued = inr "tok123"
  /\ (forall later, later < Example.now + week ->
        get_user_from_session db' later "tok123"
        = ([Store_request "sessions" "select"], db', Return_embedded_user Example.user1))
  /\ (forall later, Example.now + week <= later ->
        get_user_from_session db' later "tok123"
        = ([Store_request "sessions" "select"], db', Return_None_no_session)).
Proof.
  refine (X12_session_lives_less_than_seven_days Example.store0 Example.now Example.now
            "tok123" "u1"
            [("id", PStr "u1"); ("email", PStr "a@b.com")] _ _ _ _).
  - reflexivity.
  - discriminate.
  - reflexivity.
  - intros s [].
Defined.

Lemma filter_implied {A : Type} (p q : A -> bool) (l : list A) :
  (forall x, p x = true -> q x = true) -> filter p (filter q l) = filter p l.
Proof.
  intros Hpq. induction l as [|x l IH]; [reflexivity|].
  cbn [filter]. destruct (q x) eqn:Q.
  - cbn [filter]. rewrite IH. reflexivity.
  - destruct (p x) eqn:P; [rewrite (Hpq x P) in Q; discriminate Q|exact IH].
Qed.

(** X13: on the in-memory store, after [delete_session] the token is no
    longer found at any time, and the lookup of every other token
    returns what it returned before. *)
Theorem X13_revocation_is_effective_and_local
  (db : MemStore.t) (utcnow : Z) (session_token other : string) :
  MemStore.online db = true ->
  session_token <> EmptyString ->
  let db' := snd (fst (delete_session db session_token)) in
  snd (get_user_from_session db' utcnow session_token) = Return_None_no_session
  /\ (other <> session_token ->
      snd (get_user_from_session db' utcnow other)
      = snd (get_user_from_session db utcnow other)).
Proof.
  intros Honline Hne db'.
  assert (Hdb' : db' =
    {| MemStore.sessions :=
         filter (fun s => negb (String.eqb (MemStore.token s) session_token))
                (MemStore.sessions db);
       MemStore.users := MemStore.users db; MemStore.online := MemStore.online db |}).
  { unfold db', delete_session. cbn [sessions_delete MemStore.client].
    unfold MemStore.delete_sessions, MemStore.request. rewrite Honline. reflexivity. }
  rewrite Hdb'. clear db' Hdb'. split.
  - unfold get_user_from_session.
    replace (String.eqb session_token EmptyString) with false
      by (symmetry; apply String.eqb_neq; exact Hne).
    cbn [sessions_select MemStore.client]. unfold MemStore.select_sessions, MemStore.request.
    cbn [MemStore.online MemStore.sessions fst snd]. rewrite Honline.
    rewrite (filter_none
               (fun s => String.eqb (MemStore.token s) session_token
                         && (utcnow <? MemStore.expires_at s))
               (filter (fun s => negb (String.eqb (MemStore.token s) session_token))
                       (MemStore.sessions db))); [reflexivity|].
    intros s Hs. apply filter_In in Hs. destruct Hs as [_ Hs].
    destruct (String.eqb (MemStore.token s) session_token); [discriminate Hs|reflexivity].
  - intros Hother. unfold get_user_from_session.
    destruct (String.eqb other EmptyString); [reflexivity|].
    cbn [sessions_select MemStore.client]. unfold MemStore.select_sessions, MemStore.request.
    cbn [MemStore.online MemStore.sessions fst snd]. rewrite Honline.
    rewrite (filter_implied
               (fun s => String.eqb (MemStore.token s) other
                         && (utcnow <? MemStore.expires_at s))
               (fun s => negb (String.eqb (MemStore.token s) session_token))).
    2:{ intros s Hs. apply andb_prop in Hs. destruct Hs as [Hs _].
        apply String.eqb_eq in Hs. rewrite Hs.
        replace (String.eqb other session_token) with false
          by (symmetry; apply String.eqb_neq; exact Hother).
        reflexivity. }
    destruct (filter (fun s => String.eqb (MemStore.token s) other
                               && (utcnow <? MemStore.expires_at s)) (MemStore.sessions db))
      as [|s rest]; [reflexivity|].
    cbn [map user_of_rows]. unfold MemStore.row, MemStore.referred_user, MemStore.find_user.
    cbn [MemStore.users].
    destruct (py_get _ "users") as [e|[| | | | |[|x l]|m]]; try reflexivity;
      destruct (py_getitem _ "user_id") as [e|id]; try reflexivity;
      cbn [users_select MemStore.client]; unfold MemStore.select_users, MemStore.request;
      cbn [MemStore.online]; rewrite Honline; reflexivity.
Qed.

Lemma X13_witness :
  let db' := snd (fst (delete_session Example.store1 "tok123")) in
  snd (get_user_from_session db' Example.now "tok123") = Return_None_no_session
  /\ ("other" <> "tok123" ->
      snd (get_user_from_session db' Example.now "other")
      = snd (get_user_from_session Example.store1 Example.now "other")).
Proof.
  refine (X13_revocation_is_effective_and_local Example.store1 Example.now "tok123" "other" _ _).
  - reflexivity.
  - discriminate.
Defined.

(** * Properties of the middleware *)

(** X14: [get_current_user] and [require_auth] return a user exactly when
    the request carries a non-empty [xwanai_session] cookie for which
    [get_user_from_session] returns a value that tests true, and that value
    is what they return. Every other request ends in an [HTTPException] with
    status 401; without the cookie, or with an empty one, the store is not
    asked. *)
Theorem X14_authenticated_exactly_by_a_live_session {S : Type} {client : Supabase S}
  (unauthenticated_headers : list (string * string)) (db : S) (utcnow : Z)
  (cookies : list (string * string)) :
  let out := authenticate_request unauthenticated_headers db utcnow cookies in
  (forall user,
     snd out = inr user <->
     exists session_token,
       cookie_get cookies "xwanai_session" = Some session_token
       /\ session_token <> EmptyString
       /\ returned_user (snd (get_user_from_session db utcnow session_token)) = Some user
       /\ truthy user = true)
  /\ (forall ex, snd out = inl ex -> status_code ex = 401)
  /\ (cookie_get cookies "xwanai_session" = None
      \/ cookie_get cookies "xwanai_session" = Some EmptyString ->
      out = ([], db, inl {| status_code := 401; detail := "Not authenticated";
                            headers := unauthenticated_headers |})).
Proof.
  intros out. unfold out, authenticate_request.
  destruct (cookie_get cookies "xwanai_session") as [tok|].
  2:{ split; [|split].
      - intros user. split; [discriminate|]. intros [tok [Hc _]]. discriminate Hc.
      - intros ex E. injection E as <-. reflexivity.
      - reflexivity. }
  destruct (String.eqb_spec tok EmptyString) as [->|Hne].
  { split; [|split].
    - intros user. split; [discriminate|]. intros [tok [Hc [Hne _]]].
      injection Hc as <-. destruct (Hne eq_refl).
    - intros ex E. injection E as <-. reflexivity.
    - reflexivity. }
  destruct (get_user_from_session db utcnow tok) as [[log db'] x] eqn:Hget. cbn [snd].
  split; [|split].
  - intros user. split.
    + intros E. exists tok. split; [reflexivity|]. split; [exact Hne|].
      rewrite Hget. cbn [snd].
      destruct (returned_user x) as [u|]; [|discriminate E].
      destruct (truthy u) eqn:T; [|discriminate E].
      injection E as <-. split; [reflexivity|exact T].
    + intros [tok' [Hc [_ [Hu T]]]]. injection Hc as <-. rewrite Hget in Hu. cbn [snd] in Hu.
      rewrite Hu, T. reflexivity.
  - intros ex E. destruct (returned_user x) as [u|].
    + destruct (truthy u); [discriminate E|]. injection E as <-. reflexivity.
    + injection E as <-. reflexivity.
  - intros [Hc|Hc]; [discriminate Hc|]. injection Hc as ->. destruct (Hne eq_refl).
Qed.

(** X15: a request of the store that raises while [get_current_user] or
    [require_auth] looks the session up is answered like an unknown session,
    with the 401 exception of an invalid or expired session; the exception of
    the store does not leave the middleware. *)
Theorem X15_store_fault_is_answered_with_401 {S : Type} {client : Supabase S}
  (unauthenticated_headers : list (string * string)) (db db' : S) (utcnow : Z)
  (cookies : list (string * string)) (session_token : string) (e : exn) :
  cookie_get cookies "xwanai_session" = Some session_token ->
  session_token <> EmptyString ->
  sessions_select db session_token utcnow = (db', inl e) ->
  snd (authenticate_request unauthenticated_headers db utcnow cookies)
  = inl {| status_code := 401; detail := "Invalid or expired session"; headers := [] |}.
Proof.
  intros Hc Hne Hsel. unfold authenticate_request. rewrite Hc.
  replace (String.eqb session_token EmptyString) with false
    by (symmetry; apply String.eqb_neq; exact Hne).
  unfold get_user_from_session.
  replace (String.eqb session_token EmptyString) with false
    by (symmetry; apply String.eqb_neq; exact Hne).
  rewrite Hsel. reflexivity.
Qed.

Lemma X15_witness :
  snd (get_current_user (Example.disconnected Example.store1) Example.now
         [("theme", "dark"); ("xwanai_session", "tok123")])
  = inl {| status_code := 401; detail := "Invalid or expired session"; headers := [] |}.
Proof.
  refine (X15_store_fault_is_answered_with_401 [("WWW-Authenticate", "Bearer")]
            (Example.disconnected Example.store1) (Example.disconnected Example.store1)
            Example.now [("theme", "dark"); ("xwanai_session", "tok123")] "tok123"
            MemStore.unavailable _ _ _).
  - reflexivity.
  - discriminate.
  - reflexivity.
Defined.

(** * Properties of the users table functions *)

(** X16: [create_or_update_user] first asks for the rows with the email
    and then writes at most once. With no such row it inserts the fields
    together with [created_at], and returns the first inserted row, or None
    when the response has none. With such a row it never inserts: it updates
    by the [id] of the first row, with fields that leave [created_at] out,
    and returns the first updated row, or the row as it was read before the
    update when the response has none. It catches nothing: an exception of
    any of its requests, or of the subscript [user["id"]], leaves it and no
    further request is made. *)
Theorem X16_lookup_then_at_most_one_write {S : Type} {client : SupabaseUsers S}
  (isoformat : Z -> string) (updated_at created_at : Z) (db : S)
  (email first_name last_name shopify_customer_id : pyval) :
  let out := create_or_update_user isoformat updated_at created_at db
               email first_name last_name shopify_customer_id in
  let fields := user_data isoformat updated_at email first_name last_name shopify_customer_id in
  let select := Store_request "users" "select" in
  (forall db1 e, users_select_email db email = (db1, inl e) -> out = ([select], db1, inl e))
  /\ (forall db1, users_select_email db email = (db1, inr []) ->
        forall db2 r,
          users_insert db1 (PDict (fields ++ [("created_at", PStr (isoformat created_at))]))
          = (db2, r) ->
          out = ([select; Store_request "users" "insert"], db2,
                 match r with
                 | inl e => inl e
                 | inr rows => inr (hd PNone rows)
                 end))
  /\ (forall db1 user others, users_select_email db email = (db1, inr (user :: others)) ->
        ~ In (Store_request "users" "insert") (fst (fst out))
        /\ (forall e, py_getitem user "id" = inl e -> out = ([select], db1, inl e))
        /\ (forall id db2 r,
              py_getitem user "id" = inr id ->
              users_update db1 (PDict fields) id = (db2, r) ->
              out = ([select; Store_request "users" "update"], db2,
                     match r with
                     | inl e => inl e
                     | inr rows => inr (hd user rows)
                     end))).
Proof.
  intros out fields select. unfold out, create_or_update_user. fold fields.
  split; [|split].
  - intros db1 e ->. reflexivity.
  - intros db1 -> db2 r ->. destruct r as [e|[|row rows]]; reflexivity.
  - intros db1 user others ->. split; [|split].
    + destruct (py_getitem user "id") as [e|id].
      * cbn. intros [F|[]]. discriminate F.
      * destruct (users_update db1 (PDict fields) id) as [db2 [e|rows]]; cbn;
          intros [F|[F|[]]]; discriminate F.
    + intros e ->. reflexivity.
    + intros id db2 r -> ->. destruct r as [e|[|row rows]]; reflexivity.
Qed.

Lemma map_unchanged {A : Type} (hit : A -> bool) (f : A -> A) (l : list A) :
  (forall x, In x l -> hit x = false) ->
  map (fun x => if hit x then f x else x) l = l.
Proof.
  intros Hno. induction l as [|x l IH]; [reflexivity|].
  cbn [map]. rewrite (Hno x (or_introl eq_refl)). f_equal.
  apply IH. intros y Hy. apply Hno. right. exact Hy.
Qed.

Lemma first_sign_in (isoformat : Z -> string) (updated_at created_at : Z) (db : MemStore.t)
  (e : string) (first_name last_name shopify_customer_id : pyval) :
  MemStore.online db = true ->
  (forall u, In u (MemStore.users db) -> MemUsers.same_email (PStr e) u = false) ->
  let user :=
    PDict (MemUsers.created isoformat updated_at created_at e
             first_name last_name shopify_customer_id) in
  create_or_update_user isoformat updated_at created_at db
    (PStr e) first_name last_name shopify_customer_id
  = ([Store_request "users" "select"; Store_request "users" "insert"],
     MemUsers.with_user db ("id:" ++ e) user, inr user).
Proof.
  intros Honline Hemail user. destruct db as [ss us on].
  cbn [MemStore.online MemStore.users] in Honline, Hemail. subst on.
  unfold create_or_update_user.
  cbn [users_select_email users_insert MemUsers.client].
  unfold MemUsers.select_email, MemStore.request.
  cbn [MemStore.online MemStore.users fst snd].
  rewrite (filter_none _ _ Hemail). cbn [map].
  reflexivity.
Qed.

(** X17: on the in-memory users table, the first call of
    [create_or_update_user] for an email inserts a user and a later call for
    the same email updates that user instead of adding one: the id and
    [created_at] stay, [updated_at] and the three fields take the values of
    the later call (None included), and the table holds one user with the
    email. *)
Theorem X17_second_sign_in_updates_the_same_user
  (isoformat : Z -> string) (t1 t1' t2 t2' : Z) (db : MemStore.t) (e : string)
  (fn1 ln1 cid1 fn2 ln2 cid2 : pyval) :
  MemStore.online db = true ->
  (forall u, In u (MemStore.users db) -> MemUsers.same_email (PStr e) u = false) ->
  (forall u, In u (MemStore.users db) -> fst u <> ("id:" ++ e)%string) ->
  let first := create_or_update_user isoformat t1 t1' db (PStr e) fn1 ln1 cid1 in
  let second :=
    create_or_update_user isoformat t2 t2' (snd (fst first)) (PStr e) fn2 ln2 cid2 in
  exists u1 u2 : list (string * pyval),
    snd first = inr (PDict u1) /\ snd second = inr (PDict u2)
    /\ fst (fst first) = [Store_request "users" "select"; Store_request "users" "insert"]
    /\ fst (fst second) = [Store_request "users" "select"; Store_request "users" "update"]
    /\ value_under u1 "id" = PStr ("id:" ++ e)
    /\ value_under u2 "id" = value_under u1 "id"
    /\ value_under u1 "created_at" = PStr (isoformat t1')
    /\ value_under u2 "created_at" = value_under u1 "created_at"
    /\ value_under u2 "updated_at" = PStr (isoformat t2)
    /\ value_under u2 "first_name" = fn2
    /\ value_under u2 "last_name" = ln2
    /\ value_under u2 "shopify_customer_id" = cid2
    /\ map snd (filter (MemUsers.same_email (PStr e)) (MemStore.users (snd (fst second))))
       = [PDict u2].
Proof.
  intros Honline Hemail Hid first second.
  assert (Hmiss : forall u, In u (MemStore.users db) ->
                    String.eqb (fst u) (String "i" (String "d" (String ":" e))) = false).
  { intros u Hu. apply String.eqb_neq. exact (Hid u Hu). }
  unfold second, first.
  rewrite (first_sign_in isoformat t1 t1' db e fn1 ln1 cid1 Honline Hemail).
  cbn [fst snd]. clear first second. destruct db as [ss us on].
  cbn [MemStore.online MemStore.users] in Honline, Hemail, Hmiss. subst on.
  unfold create_or_update_user.
  cbn [users_select_email users_update MemUsers.client].
  unfold MemUsers.select_email, MemStore.request, MemUsers.with_user, MemUsers.created.
  cbn [MemStore.online MemStore.users fst snd].
  rewrite filter_app, (filter_none _ _ Hemail).
  cbn [app filter MemUsers.same_email py_get snd assoc String.eqb Ascii.eqb Bool.eqb].
  rewrite String.eqb_refl.
  cbn [map snd py_getitem assoc String.eqb Ascii.eqb Bool.eqb].
  unfold MemUsers.update, MemStore.request, user_data.
  cbn [MemStore.online MemStore.users MemStore.sessions fst snd String.append].
  rewrite filter_app, (filter_none _ _ Hmiss).
  cbn [app filter map fst snd]. rewrite String.eqb_refl.
  rewrite map_app, (map_unchanged _ _ _ Hmiss).
  cbn [app filter map fst snd]. rewrite String.eqb_refl.
  unfold MemUsers.merge.
  cbn [map fst snd fold_left JSON.dict_set String.eqb Ascii.eqb Bool.eqb MemStore.users].
  eexists. eexists.
  split; [reflexivity|]. split; [reflexivity|].
  split; [reflexivity|]. split; [reflexivity|].
  rewrite filter_app, (filter_none _ _ Hemail).
  cbn [app filter MemUsers.same_email py_get snd assoc String.eqb Ascii.eqb Bool.eqb].
  rewrite String.eqb_refl.
  repeat split.
Qed.

Lemma X17_witness :
  let first :=
    create_or_update_user MoreExamples.clock_text Example.now Example.now Example.store0
      (PStr "c@d.com") (PStr "Ada") PNone PNone in
  let second :=
    create_or_update_user MoreExamples.clock_text Example.now Example.now (snd (fst first))
      (PStr "c@d.com") PNone (PStr "Lovelace") (PInt 7) in
  exists u1 u2 : list (string * pyval),
    snd first = inr (PDict u1) /\ snd second = inr (PDict u2)
    /\ fst (fst first) = [Store_request "users" "select"; Store_request "users" "insert"]
    /\ fst (fst second) = [Store_request "users" "select"; Store_request "users" "update"]
    /\ value_under u1 "id" = PStr "id:c@d.com"
    /\ value_under u2 "id" = value_under u1 "id"
    /\ value_under u1 "created_at" = PStr (MoreExamples.clock_text Example.now)
    /\ value_under u2 "created_at" = value_under u1 "created_at"
    /\ value_under u2 "updated_at" = PStr (MoreExamples.clock_text Example.now)
    /\ value_under u2 "first_name" = PNone
    /\ value_under u2 "last_name" = PStr "Lovelace"
    /\ value_under u2 "shopify_customer_id" = PInt 7
    /\ map snd (filter (MemUsers.same_email (PStr "c@d.com"))
                  (MemStore.users (snd (fst second))))
       = [PDict u2].
Proof.
  refine (X17_second_sign_in_updates_the_same_user MoreExamples.clock_text
            Example.now Example.now Example.now Example.now Example.store0 "c@d.com"
            (PStr "Ada") PNone PNone PNone (PStr "Lovelace") (PInt 7) _ _ _).
  - reflexivity.
  - intros u [<-|[]]. reflexivity.
  - intros u [<-|[]]. discriminate.
Defined.
(** * Properties of the callback route *)

Lemma validate_returns_None (secret : string) (json_loads : string -> result pyval)
  (fromisoformat : string -> result datetime) (utcnow : Z) (token : string) :
  secret <> EmptyString ->
  returned (snd (validate_shopify_sso_token secret json_loads fromisoformat utcnow token))
  = inr None.
Proof.
  intros Hsecret. rewrite (validate_cases secret json_loads fromisoformat utcnow token Hsecret).
  destruct (Base64.urlsafe_b64decode token) as [e|td]; [reflexivity|].
  destruct (bytes_eqb _ _); [apply refusal_returns_None|reflexivity].
Qed.

Lemma route_refuses {S : Type} {sessions_client : Supabase S} {users_client : SupabaseUsers S}
  (secret : string) (json_loads : string -> result pyval)
  (fromisoformat : string -> result datetime) (isoformat : Z -> string)
  (at_validation at_update at_create at_expiry at_session : Z) (session_token : string)
  (db : S) (token return_to : string) :
  secret <> EmptyString ->
  token <> EmptyString ->
  shopify_callback secret json_loads fromisoformat isoformat
    at_validation at_update at_create at_expiry at_session session_token db token return_to
  = (fst (validate_shopify_sso_token secret json_loads fromisoformat at_validation token),
     db, redirect "/login?error=invalid_token").
Proof.
  intros Hsecret Hne.
  pose proof (validate_returns_None secret json_loads fromisoformat at_validation token
                Hsecret) as Hnone.
  destruct (validate_shopify_sso_token secret json_loads fromisoformat at_validation token)
    as [log x] eqn:Hval.
  cbn [fst snd] in *.
  exact (callback_refused secret json_loads fromisoformat isoformat
           at_validation at_update at_create at_expiry at_session session_token
           db token return_to log x Hne Hval Hnone).
Qed.

(** X18: no request is signed in. Whatever the secret, the token and the
    store, the route sets no cookie, makes no request to the store and leaves
    it as it was: with a secret set, every non-empty token is answered with
    the redirect to [/login?error=invalid_token]. *)
Theorem X18_no_request_is_signed_in
  {S : Type} {sessions_client : Supabase S} {users_client : SupabaseUsers S}
  (SHOPIFY_SSO_SECRET : string) (json_loads : string -> result pyval)
  (fromisoformat : string -> result datetime) (isoformat : Z -> string)
  (at_validation at_update at_create at_expiry at_session : Z) (session_token : string)
  (db : S) (token return_to : string) :
  let out :=
    shopify_callback SHOPIFY_SSO_SECRET json_loads fromisoformat isoformat
      at_validation at_update at_create at_expiry at_session session_token
      db token return_to in
  (forall r, snd out = Responds r -> set_cookie r = None)
  /\ snd (fst out) = db
  /\ (forall table op, ~ In (Store_request table op) (fst (fst out)))
  /\ (SHOPIFY_SSO_SECRET <> EmptyString -> token <> EmptyString ->
      snd out = redirect "/login?error=invalid_token").
Proof.
  cbv zeta. unfold shopify_callback.
  destruct (String.eqb_spec token EmptyString) as [->|Hne].
  { cbn [fst snd]. split; [|split; [|split]].
    - intros r E. injection E as <-. reflexivity.
    - reflexivity.
    - intros table op [].
    - intros _ F. contradiction F. reflexivity. }
  destruct (String.eqb_spec SHOPIFY_SSO_SECRET EmptyString) as [->|Hsecret].
  { cbn [fst snd]. split; [|split; [|split]].
    - intros r E. discriminate E.
    - reflexivity.
    - intros table op [].
    - intros F. contradiction F. reflexivity. }
  rewrite (validate_cases SHOPIFY_SSO_SECRET json_loads fromisoformat at_validation token
             Hsecret).
  assert (Hlog : forall (log : list event) (e : exn) (table op : string),
             ~ In (Store_request table op) log ->
             ~ In (Store_request table op) (fst (finish log (inl e)))).
  { intros log e table op Hno Hin. cbn [finish fst] in Hin. apply in_app_or in Hin.
    destruct Hin as [Hin|[F|[]]]; [exact (Hno Hin)|discriminate F]. }
  assert (Hnone : forall table op, ~ In (Store_request table op) []) by (intros ? ? []).
  assert (Hone : forall table op, ~ In (Store_request table op) [Cipher_decryptor])
    by (intros ? ? [F|[]]; discriminate F).
  destruct (Base64.urlsafe_b64decode token) as [e|td].
  { cbn [finish returned fst snd app truthy negb]. split; [|split; [|split]].
    - intros r E. injection E as <-. reflexivity.
    - reflexivity.
    - intros table op. apply (Hlog [] e table op (Hnone table op)).
    - reflexivity. }
  destruct (bytes_eqb _ _).
  2:{ cbn [returned fst snd truthy negb]. split; [|split; [|split]].
      - intros r E. injection E as <-. reflexivity.
      - reflexivity.
      - apply Hnone.
      - reflexivity. }
  unfold refusal. destruct (Nat.ltb _ 16);
    cbn [finish returned fst snd app truthy negb]; (split; [|split; [|split]]);
    try reflexivity; try (intros r E; injection E as <-; reflexivity).
  - intros table op. apply (Hlog [] _ table op (Hnone table op)).
  - intros table op. apply (Hlog [Cipher_decryptor] _ table op (Hone table op)).
Qed.

(** X19: a non-empty token that the validator refuses is answered with
    the redirect to [/login?error=invalid_token], without a cookie and
    without any request to the store; an empty token is answered with
    [/login?error=missing_token] before the validator is called. *)
Theorem X19_refused_token_does_not_reach_the_store
  {S : Type} {sessions_client : Supabase S} {users_client : SupabaseUsers S}
  (SHOPIFY_SSO_SECRET : string) (json_loads : string -> result pyval)
  (fromisoformat : string -> result datetime) (isoformat : Z -> string)
  (at_validation at_update at_create at_expiry at_session : Z) (session_token : string)
  (db : S) (token return_to : string) :
  let callback :=
    shopify_callback SHOPIFY_SSO_SECRET json_loads fromisoformat isoformat
      at_validation at_update at_create at_expiry at_session session_token in
  let validate :=
    validate_shopify_sso_token SHOPIFY_SSO_SECRET json_loads fromisoformat at_validation in
  (token = EmptyString ->
   callback db token return_to = ([], db, redirect "/login?error=missing_token"))
  /\ (token <> EmptyString ->
      returned (snd (validate token)) = inr None ->
      callback db token return_to
      = (fst (validate token), db, redirect "/login?error=invalid_token")).
Proof.
  intros callback validate. unfold callback, validate, shopify_callback. split.
  - intros ->. reflexivity.
  - intros Hne Hnone.
    replace (String.eqb token EmptyString) with false
      by (symmetry; apply String.eqb_neq; exact Hne).
    destruct (validate_shopify_sso_token SHOPIFY_SSO_SECRET json_loads fromisoformat
                at_validation token) as [vlog x].
    cbn [fst snd] in *. rewrite Hnone. reflexivity.
Qed.

(** X20: with a secret set, no exception leaves the route: every call
    ends in a response, the redirect for a missing token or the one for an
    invalid token. Without a secret, every non-empty token makes the route
    raise the validator's ValueError (the call stands outside the [try]),
    before any request to the store. *)
Theorem X20_route_raises_only_without_secret
  {S : Type} {sessions_client : Supabase S} {users_client : SupabaseUsers S}
  (SHOPIFY_SSO_SECRET : string) (json_loads : string -> result pyval)
  (fromisoformat : string -> result datetime) (isoformat : Z -> string)
  (at_validation at_update at_create at_expiry at_session : Z) (session_token : string)
  (db : S) (token return_to : string) :
  let out :=
    shopify_callback SHOPIFY_SSO_SECRET json_loads fromisoformat isoformat
      at_validation at_update at_create at_expiry at_session session_token
      db token return_to in
  (SHOPIFY_SSO_SECRET <> EmptyString ->
   (token = EmptyString /\ snd out = redirect "/login?error=missing_token")
   \/ (token <> EmptyString /\ snd out = redirect "/login?error=invalid_token"))
  /\ (SHOPIFY_SSO_SECRET = EmptyString ->
      token <> EmptyString ->
      out = ([], db,
             Propagates (ValueError "SHOPIFY_SSO_SECRET environment variable is required"))).
Proof.
  cbv zeta. split.
  - intros Hsecret. destruct (String.eqb_spec token EmptyString) as [->|Hne].
    + left. split; reflexivity.
    + right. split; [exact Hne|].
      rewrite (route_refuses SHOPIFY_SSO_SECRET json_loads fromisoformat isoformat
                 at_validation at_update at_create at_expiry at_session session_token
                 db token return_to Hsecret Hne).
      reflexivity.
  - intros -> Hne. unfold shopify_callback.
    replace (String.eqb token EmptyString) with false
      by (symmetry; apply String.eqb_neq; exact Hne).
    reflexivity.
Qed.

(** ** The [try] block of the route (lines 37-69), taken alone

    No record reaches the block in the route as it stands; the properties
    below are those of the block itself, entered with a record. *)


Lemma get_or_carried (d : list (string * pyval)) (f : field) (v : option pyval) :
  carries d f v -> null_or_truthy v ->
  get_or (PDict d) (alternate_key f) (plain_key f)
  = inr (match v with Some x => x | None => PNone end).
Proof.
  intros [[Hp Ha]|[Ha Hp]] Hv; unfold get_or, py_get.
  - rewrite Ha. cbn [truthy]. rewrite Hp. reflexivity.
  - rewrite Ha, Hp. destruct v as [x|]; [|reflexivity].
    destruct Hv as [->|Hx]; [reflexivity|]. rewrite Hx. reflexivity.
Qed.

(** X22: the field extraction of lines 40-45 gives the same arguments
    for two records that agree on the email and carry each optional field
    with the same value under either spelling, provided each carried value is
    null or tests true (a non-empty string, for one). *)
Theorem X22_either_spelling_same_fields (d1 d2 : list (string * pyval)) :
  assoc "email" d1 = assoc "email" d2 ->
  (forall f : field, exists v : option pyval,
      carries d1 f v /\ carries d2 f v /\ null_or_truthy v) ->
  shopify_callback_fields (PDict d1) = shopify_callback_fields (PDict d2).
Proof.
  intros Hemail Hfields.
  unfold shopify_callback_fields, py_getitem. rewrite Hemail.
  destruct (assoc "email" d2) as [em|]; [|reflexivity].
  destruct (Hfields FirstName) as [v1 [A1 [B1 S1]]].
  destruct (Hfields LastName) as [v2 [A2 [B2 S2]]].
  destruct (Hfields CustomerId) as [v3 [A3 [B3 S3]]].
  pose proof (get_or_carried d1 FirstName v1 A1 S1) as E1.
  pose proof (get_or_carried d2 FirstName v1 B1 S1) as F1.
  pose proof (get_or_carried d1 LastName v2 A2 S2) as E2.
  pose proof (get_or_carried d2 LastName v2 B2 S2) as F2.
  pose proof (get_or_carried d1 CustomerId v3 A3 S3) as E3.
  pose proof (get_or_carried d2 CustomerId v3 B3 S3) as F3.
  cbn [alternate_key plain_key] in E1, F1, E2, F2, E3, F3.
  rewrite E1, F1, E2, F2, E3, F3. reflexivity.
Qed.

Lemma X22_witness :
  shopify_callback_fields
    (PDict [("email", PStr "a@b.com"); ("created_at", PStr "2026-01-01T12:00:00Z");
            ("first_name", PStr "Ada"); ("lastName", PStr "Lovelace")])
  = shopify_callback_fields
      (PDict [("email", PStr "a@b.com"); ("created_at", PStr "2026-01-01T12:00:00Z");
              ("firstName", PStr "Ada"); ("last_name", PStr "Lovelace")]).
Proof.
  refine (X22_either_spelling_same_fields _ _ _ _).
  - reflexivity.
  - intros [| |].
    + exists (Some (PStr "Ada")). split; [left; split; reflexivity|].
      split; [right; split; reflexivity|right; reflexivity].
    + exists (Some (PStr "Lovelace")). split; [right; split; reflexivity|].
      split; [left; split; reflexivity|right; reflexivity].
    + exists None. split; [left; split; reflexivity|].
      split; [left; split; reflexivity|exact I].
Defined.



Lemma get_or_dict (d : list (string * pyval)) (first second : string) :
  exists v, get_or (PDict d) first second = inr v.
Proof.
  unfold get_or, py_get. destruct (truthy _); eexists; reflexivity.
Qed.

Lemma find_user_with_user (db : MemStore.t) (id : string) (u : pyval) :
  (forall x, In x (MemStore.users db) -> fst x <> id) ->
  MemStore.find_user (MemUsers.with_user db id u) id = Some u.
Proof.
  unfold MemStore.find_user, MemUsers.with_user. cbn [MemStore.users].
  induction (MemStore.users db) as [|x l IH]; intros Hid.
  - cbn. rewrite String.eqb_refl. reflexivity.
  - cbn [app find].
    replace (String.eqb (fst x) id) with false
      by (symmetry; apply String.eqb_neq; apply Hid; left; reflexivity).
    apply IH. intros y Hy. apply Hid. right. exact Hy.
Qed.




(** X21: on the in-memory store, the block signs a new customer in, and
    the sign-in is followed by authenticated requests. Entered with a record
    that holds a string [email] that no stored user has, it creates the user
    and a session, passes [return_to] to the redirect and sets the cookie; a
    request that sends this cookie back before seven days have passed since
    the reading of the clock for the expiry is authenticated by
    [get_current_user] as the user with that email. *)
Theorem X21_sign_in_is_followed_by_authenticated_requests
  (isoformat : Z -> string) (at_update at_create at_expiry at_session later : Z)
  (session_token : string) (log : list event) (db : MemStore.t) (return_to : string)
  (d : list (string * pyval)) (e : string) :
  MemStore.online db = true ->
  session_token <> EmptyString ->
  assoc "email" d = Some (PStr e) ->
  (forall u, In u (MemStore.users db) -> MemUsers.same_email (PStr e) u = false) ->
  (forall u, In u (MemStore.users db) -> fst u <> ("id:" ++ e)%string) ->
  (forall s, In s (MemStore.sessions db) -> MemStore.token s <> session_token) ->
  later < at_expiry + week ->
  let out :=
    sign_in isoformat at_update at_create at_expiry at_session session_token
      log db (PDict d) return_to in
  snd out
  = Responds {| url := return_to; set_cookie := Some (session_cookie session_token) |}
  /\ exists user : list (string * pyval),
       snd (get_current_user (snd (fst out)) later (cookies_of (session_cookie session_token)))
       = inr (PDict user)
       /\ value_under user "email" = PStr e
       /\ value_under user "id" = PStr ("id:" ++ e).
Proof.
  intros Honline Hstok Hemail Hnew Hid Hfresh Hlater out.
  destruct (get_or_dict d "firstName" "first_name") as [fn Hfn].
  destruct (get_or_dict d "lastName" "last_name") as [ln Hln].
  destruct (get_or_dict d "shopifyCustomerId" "shopify_customer_id") as [cid Hcid].
  assert (Hfields : shopify_callback_fields (PDict d)
                    = inr {| email := PStr e; first_name := fn; last_name := ln;
                             shopify_customer_id := cid |}).
  { unfold shopify_callback_fields. cbn [py_getitem]. rewrite Hemail, Hfn, Hln, Hcid.
    reflexivity. }
  pose (user := MemUsers.created isoformat at_update at_create e fn ln cid).
  pose (db1 := MemUsers.with_user db ("id:" ++ e) (PDict user)).
  pose (db2 :=
    {| MemStore.sessions :=
         MemStore.sessions db1
         ++ [{| MemStore.token := session_token; MemStore.user_id := PStr ("id:" ++ e);
                MemStore.expires_at := at_expiry + week;
                MemStore.created_at := at_session |}];
       MemStore.users := MemStore.users db1; MemStore.online := MemStore.online db1 |}).
  assert (Hsession : create_user_session db1 at_expiry at_session session_token
                       (PStr ("id:" ++ e))
                     = ([Store_request "sessions" "insert"], db2, inr session_token)).
  { unfold create_user_session. cbn [sessions_insert MemStore.client].
    unfold MemStore.insert_session, MemStore.request, db2.
    change (MemStore.online db1) with (MemStore.online db). rewrite Honline. reflexivity. }
  assert (Hout : out =
    (log ++ [Store_request "users" "select"; Store_request "users" "insert"]
         ++ [Store_request "sessions" "insert"],
     db2,
     Responds {| url := return_to; set_cookie := Some (session_cookie session_token) |})).
  { unfold out, sign_in. rewrite Hfields.
    cbn [email first_name last_name shopify_customer_id].
    rewrite (first_sign_in isoformat at_update at_create db e fn ln cid Honline Hnew).
    cbv zeta. fold user. fold db1.
    change (truthy (PDict user)) with true. cbn [negb].
    change (py_get (PDict user) "id") with (inr (PStr ("id:" ++ e)) : result pyval).
    change (truthy (PStr ("id:" ++ e))) with true. cbn [negb].
    change (py_getitem (PDict user) "id") with (inr (PStr ("id:" ++ e)) : result pyval).
    cbv iota beta. rewrite Hsession. reflexivity. }
  rewrite Hout. cbn [fst snd]. split; [reflexivity|].
  exists user. split; [|split; reflexivity].
  unfold get_current_user, authenticate_request, cookies_of.
  cbn [cookie_get key value session_cookie]. rewrite String.eqb_refl.
  replace (String.eqb session_token EmptyString) with false
    by (symmetry; apply String.eqb_neq; exact Hstok).
  unfold db2.
  rewrite (lookup_after_insert db1 session_token (PStr ("id:" ++ e)) (at_expiry + week)
             at_session later user).
  - replace (later <? at_expiry + week) with true by (symmetry; apply Z.ltb_lt; exact Hlater).
    reflexivity.
  - exact Honline.
  - exact Hstok.
  - apply (find_user_with_user db ("id:" ++ e) (PDict user)). exact Hid.
  - exact Hfresh.
Qed.

Lemma X21_witness :
  let out :=
    sign_in MoreExamples.clock_text Example.now Example.now Example.now Example.now "tok456"
      [] Example.store0
      (PDict [("email", PStr "c@d.com"); ("created_at", PStr "2026-01-01T12:00:00+00:00")])
      "/account" in
  snd out = Responds {| url := "/account"; set_cookie := Some (session_cookie "tok456") |}
  /\ exists user : list (string * pyval),
       snd (get_current_user (snd (fst out)) (Example.now + 1)
              (cookies_of (session_cookie "tok456")))
       = inr (PDict user)
       /\ value_under user "email" = PStr "c@d.com"
       /\ value_under user "id" = PStr "id:c@d.com".
Proof.
  refine (X21_sign_in_is_followed_by_authenticated_requests MoreExamples.clock_text
            Example.now Example.now Example.now Example.now (Example.now + 1) "tok456"
            [] Example.store0 "/account"
            [("email", PStr "c@d.com"); ("created_at", PStr "2026-01-01T12:00:00+00:00")]
            "c@d.com" _ _ _ _ _ _ _).
  - reflexivity.
  - discriminate.
  - reflexivity.
  - intros u [<-|[]]. reflexivity.
  - intros u [<-|[]]. discriminate.
  - intros s [].
  - vm_compute. reflexivity.
Defined.
